(** * cp2k-to-deepmd: a shallow embedding of the readers, the converter and
      the train/test splitter

    The three Python sources are embedded as Rocq functions:

    - [utils.py]: [read_cell_or_energy_data], [read_forces_data],
      [read_position_data];
    - [multicpk2deepmd.py]: [main] of the converter (module [Converter]);
    - [split_train_test.py]: [main] of the splitter (module [Splitter]).

    Conventions of the embedding.

    - A text file is the list of its lines, as Python's file iteration and
      [readlines] deliver them; characters are the 8-bit characters of
      [Ascii.ascii] (the inputs are ASCII logs).
    - A Python [float] is an IEEE-754 binary64 value, here a [spec_float] of
      the Standard Library with [prec = 53] and [emax = 1024]; arithmetic is
      [SFadd], [SFsub], [SFmul] with round-to-nearest-even.
    - A Python [int] is a [Z]; the true division [a / b] of two ints is the
      quotient rounded to the nearest binary64.
    - A numpy array is the list of its rows; the element type of an array
      that is saved as it was loaded is kept next to the arrays of a
      dataset.
    - An exception is a constructor of [exn]; a function that can raise
      returns a [result].  Console output, file opening and file writing are
      recorded as a list of [event]s next to the result (type [M]).
    - A [dict] whose insertion order is observable (the columns of a data
      frame, [kind_to_element.values()]) is an association list updated in
      place. *)

From Stdlib Require Import ZArith String Ascii List Bool Lia Arith Permutation.
From Stdlib Require Import Floats.SpecFloat.
From Stdlib Require Import Numbers.DecimalString Numbers.DecimalPos.
Import ListNotations.

Local Open Scope string_scope.
Local Open Scope Z_scope.

(* ===================================================================== *)
(** * Exceptions and results *)
(* ===================================================================== *)

Inductive exn : Type :=
| StopIteration
| ValueError
| IndexError
| KeyError
| TypeError
| AssertionError
| ZeroDivisionError
| OverflowError
| UnboundLocalError
| AttributeError
| FileNotFoundError.

Inductive result (A : Type) : Type :=
| Ok (a : A)
| Raise (e : exn).
Arguments Ok {A} a.
Arguments Raise {A} e.

Definition rbind {A B} (r : result A) (f : A -> result B) : result B :=
  match r with
  | Ok a => f a
  | Raise e => Raise e
  end.

Definition is_ok {A} (r : result A) : bool :=
  match r with Ok _ => true | Raise _ => false end.

(* ===================================================================== *)
(** * Binary64 floats *)
(* ===================================================================== *)

Module Float64.

Definition prec : Z := 53.
Definition emax : Z := 1024.

Definition float := spec_float.

Definition add : float -> float -> float := SFadd prec emax.
Definition sub : float -> float -> float := SFsub prec emax.
Definition mul : float -> float -> float := SFmul prec emax.
Definition ltb : float -> float -> bool := SFltb.
Definition leb : float -> float -> bool := SFleb.


Definition zero : float := S754_zero false.

(** [float(n)] for a Python int: the nearest binary64, [OverflowError]
    when [n] is out of range (CPython's [PyLong_AsDouble]). *)
Definition of_int (n : Z) : result float :=
  match binary_normalize prec emax n 0 false with
  | S754_infinity _ => Raise OverflowError
  | x => Ok x
  end.

(** [a / b] for two Python ints: the quotient rounded to the nearest
    binary64, ties to even; [ZeroDivisionError] for a zero divisor and
    [OverflowError] when the rounded quotient is out of range (CPython's
    [long_true_divide]). *)
Definition true_divide (a b : Z) : result float :=
  if b =? 0 then Raise ZeroDivisionError
  else
    let s := xorb (a <? 0) (b <? 0) in
    if a =? 0 then Ok (S754_zero s)
    else
      let '(mz, ez, lz) :=
        SFdiv_core_binary prec emax (Z.abs a) 0 (Z.abs b) 0 in
      match binary_round_aux prec emax s mz ez lz with
      | S754_infinity _ => Raise OverflowError
      | x => Ok x
      end.

(** [int(x)] for a float: truncation toward zero; [ValueError] on NaN,
    [OverflowError] on an infinity. *)
Definition to_int (x : float) : result Z :=
  match x with
  | S754_zero _ => Ok 0
  | S754_nan => Raise ValueError
  | S754_infinity _ => Raise OverflowError
  | S754_finite s m e =>
      Ok (cond_Zopp s
            (if 0 <=? e then Zpos m * 2 ^ e else Zpos m / 2 ^ (- e)))
  end.

(** The value [(-1)^s * d * 10^e10] rounded to the nearest binary64 (ties
    to even), as CPython's [strtod] does; an overflow gives an infinity. *)
Definition of_decimal (s : bool) (d : N) (e10 : Z) : float :=
  match d with
  | N0 => S754_zero s
  | Npos p =>
      if 0 <=? e10
      then binary_normalize prec emax (cond_Zopp s (Zpos p * 10 ^ e10)) 0 s
      else
        let '(mz, ez, lz) :=
          SFdiv_core_binary prec emax (Zpos p) 0 (10 ^ (- e10)) 0 in
        binary_round_aux prec emax s mz ez lz
  end.

(** Conversion to binary32, as numpy's [astype(np.float32)] rounds. *)
Definition to_f32 (x : float) : spec_float :=
  match x with
  | S754_finite s m e => binary_round 24 128 s m e
  | _ => x
  end.

End Float64.

(* ===================================================================== *)
(** * Python text primitives *)
(* ===================================================================== *)

Module PyStr.

(** The ASCII characters for which [str.isspace] holds: TAB, LF, VT, FF,
    CR, FS, GS, RS, US and the space. *)
Definition is_space (c : ascii) : bool :=
  let n := nat_of_ascii c in
  ((9 <=? n) && (n <=? 13) || (28 <=? n) && (n <=? 32))%nat.

Definition is_digit (c : ascii) : bool :=
  let n := nat_of_ascii c in ((48 <=? n) && (n <=? 57))%nat.

Definition digit_val (c : ascii) : N := N.of_nat (nat_of_ascii c - 48).

Definition is_empty (s : string) : bool :=
  match s with EmptyString => true | _ => false end.

Fixpoint lstrip (s : string) : string :=
  match s with
  | String c s' => if is_space c then lstrip s' else s
  | EmptyString => EmptyString
  end.

Fixpoint rstrip (s : string) : string :=
  match s with
  | EmptyString => EmptyString
  | String c s' =>
      let r := rstrip s' in
      if is_space c && is_empty r then EmptyString else String c r
  end.

(** [s.strip()] *)
Definition strip (s : string) : string := rstrip (lstrip s).

(** [s.split()]: the maximal runs of non-space characters. [cur] is the
    run being read. *)
Fixpoint split_aux (s cur : string) : list string :=
  match s with
  | EmptyString => if is_empty cur then [] else [cur]
  | String c s' =>
      if is_space c
      then (if is_empty cur then split_aux s' "" else cur :: split_aux s' "")
      else split_aux s' (cur ++ String c "")
  end.

Definition split (s : string) : list string := split_aux s "".

(** [needle in hay] *)
Fixpoint contains (needle hay : string) : bool :=
  prefix needle hay ||
  match hay with
  | EmptyString => false
  | String _ h => contains needle h
  end.

Definition lower (c : ascii) : ascii :=
  let n := nat_of_ascii c in
  if ((65 <=? n) && (n <=? 90))%nat then ascii_of_nat (n + 32) else c.

Fixpoint lowercase (s : string) : string :=
  match s with
  | EmptyString => EmptyString
  | String c s' => String (lower c) (lowercase s')
  end.

(** A run of decimal digits in which single underscores may separate
    digits: the value read so far, the number of digits read, and the
    rest of the input.  [after_digit] tells whether the previous character
    was a digit (only then may an underscore follow). *)
Fixpoint digit_run (s : string) (acc : N) (cnt : nat) (after_digit : bool)
  : N * nat * string :=
  match s with
  | String c s' =>
      if is_digit c
      then digit_run s' (10 * acc + digit_val c)%N (S cnt) true
      else
        match s' with
        | String c' _ =>
            if after_digit && Ascii.eqb c "_" && is_digit c'
            then digit_run s' acc cnt false
            else (acc, cnt, s)
        | EmptyString => (acc, cnt, s)
        end
  | EmptyString => (acc, cnt, s)
  end.

Definition digits (s : string) : N * nat * string := digit_run s 0%N 0%nat false.

(** An optional sign: [true] for a minus. *)
Definition sign (s : string) : bool * string :=
  match s with
  | String "-" s' => (true, s')
  | String "+" s' => (false, s')
  | _ => (false, s)
  end.

(** [int(s)] for a string, base ten. *)
Definition int_of_string (s : string) : result Z :=
  let '(neg, s1) := sign (strip s) in
  let '(v, cnt, rest) := digits s1 in
  if (0 <? cnt)%nat && is_empty rest
  then Ok (cond_Zopp neg (Z.of_N v))
  else Raise ValueError.

(** The exponent part of a float literal: [e] or [E], an optional sign and
    at least one digit.  [None] when the text is not an exponent. *)
Definition exponent (s : string) : option Z :=
  match s with
  | EmptyString => Some 0
  | String c s' =>
      if Ascii.eqb c "e" || Ascii.eqb c "E"
      then
        let '(neg, s1) := sign s' in
        let '(v, cnt, rest) := digits s1 in
        if (0 <? cnt)%nat && is_empty rest
        then Some (cond_Zopp neg (Z.of_N v))
        else None
      else None
  end.

(** [float(s)] for a string. *)
Definition float_of_string (s : string) : result Float64.float :=
  let '(neg, s1) := sign (strip s) in
  let low := lowercase s1 in
  if String.eqb low "inf" || String.eqb low "infinity"
  then Ok (S754_infinity neg)
  else if String.eqb low "nan" then Ok S754_nan
  else
    let '(vi, ci, r1) := digits s1 in
    let '(vf, cf, r2) :=
      match r1 with
      | String "." r => digit_run r vi 0%nat false
      | _ => (vi, 0%nat, r1)
      end in
    if (0 <? ci + cf)%nat
    then
      match exponent r2 with
      | Some e => Ok (Float64.of_decimal neg vf (e - Z.of_nat cf))
      | None => Raise ValueError
      end
    else Raise ValueError.

(** [str(n)] for an int. *)
Definition string_of_int (n : Z) : string :=
  NilZero.string_of_int (Z.to_int n).

End PyStr.

Local Open Scope list_scope.

(* ===================================================================== *)
(** * Effects: console output, opened files, written files *)
(* ===================================================================== *)

(** A numpy array of one or two dimensions.  A two-dimensional array keeps
    its number of columns next to its rows (an array with no row still has a
    shape). *)
Record ndarray2 : Type := mk_ndarray2 {
  ncols : nat;
  rows : list (list Float64.float)
}.

Definition nrows (a : ndarray2) : nat := length (rows a).

Definition shape (a : ndarray2) : nat * nat := (nrows a, ncols a).

(** Every row has [ncols] entries. *)
Definition well_shaped (a : ndarray2) : Prop :=
  Forall (fun r => length r = ncols a) (rows a).

Inductive dtype : Type := Float_64 | Float_32.

Inductive npy : Type :=
| Npy1 (d : dtype) (v : list Float64.float)
| Npy2 (d : dtype) (a : ndarray2).

Definition npy_rows (x : npy) : nat :=
  match x with
  | Npy1 _ v => length v
  | Npy2 _ a => nrows a
  end.

(** The messages the programs print. *)
Inductive msg : Type :=
| UnknownType
| WarnRow
| WarnToken (tok : string)
| Matched (span : Float64.float) (steps : Z) (type : string) (nsteps : Z)
          (dt : Float64.float)
| NoTime (time type : string)
| Loaded (num_atoms num_frames : nat)
| Processing (file : string)
| Loading (what : string)
| ProcessingAll (n : nat)
| StepsMatch
| Writing (path : string)
| DataSplit
| SideFileMissing (name folder : string)
| SavedSet (name group : string)
| ExecutionTime.

Inductive event : Type :=
| Print (m : msg)
| OpenRead (path : string)
| Save (path : string) (x : npy)
| WriteText (path : string) (content : string)
| Copy (src dst : string).

(** A computation prints and writes, then returns or raises. *)
Definition M (A : Type) : Type := (list event * result A)%type.

Definition ret {A} (a : A) : M A := ([], Ok a).
Definition raise {A} (e : exn) : M A := ([], Raise e).
Definition lift {A} (r : result A) : M A := ([], r).
Definition emit (e : event) : M unit := ([e], Ok tt).
Definition print (m : msg) : M unit := emit (Print m).

Definition bind {A B} (m : M A) (f : A -> M B) : M B :=
  match m with
  | (l, Ok a) => let '(l', r) := f a in (l ++ l', r)
  | (l, Raise e) => (l, Raise e)
  end.

Definition events {A} (m : M A) : list event := fst m.
Definition outcome {A} (m : M A) : result A := snd m.

Declare Scope m_scope.
Delimit Scope m_scope with M.
Notation "x <- c ;; k" := (bind c (fun x => k))
  (at level 61, c at next level, right associativity) : m_scope.
Notation "' p <- c ;; k" := (bind c (fun x => let p := x in k))
  (at level 61, p pattern, c at next level, right associativity) : m_scope.
Notation "c ;; k" := (bind c (fun _ => k))
  (at level 61, right associativity) : m_scope.
Local Open Scope m_scope.

(** [assert c] *)
Definition assert (c : bool) : M unit :=
  if c then ret tt else raise AssertionError.

(* ===================================================================== *)
(** * Python lists and dicts *)
(* ===================================================================== *)

Module PyList.

(** A slice bound brought into [0, len]: a negative bound counts from the
    end. *)
Definition clamp (len i : Z) : Z :=
  if i <? 0 then Z.max 0 (i + len) else Z.min i len.

(** [l[lo:hi]] ([None] for an omitted bound). *)
Definition slice {A} (l : list A) (lo hi : option Z) : list A :=
  let n := Z.of_nat (length l) in
  let a := match lo with Some i => clamp n i | None => 0 end in
  let b := match hi with Some i => clamp n i | None => n end in
  firstn (Z.to_nat (b - a)) (skipn (Z.to_nat a) l).

(** [l[i]] *)
Definition index {A} (l : list A) (i : Z) : result A :=
  let n := Z.of_nat (length l) in
  let j := if i <? 0 then i + n else i in
  if (j <? 0) || (n <=? j) then Raise IndexError
  else
    match nth_error l (Z.to_nat j) with
    | Some x => Ok x
    | None => Raise IndexError
    end.

(** [range(n)] *)
Fixpoint range_from (i : Z) (count : nat) : list Z :=
  match count with
  | O => []
  | S c => i :: range_from (i + 1) c
  end.

Definition range (n : Z) : list Z := range_from 0 (Z.to_nat n).

End PyList.

(** [for x in l: f x] *)
Fixpoint for_each {A} (f : A -> M unit) (l : list A) : M unit :=
  match l with
  | [] => ret tt
  | x :: rest => f x ;; for_each f rest
  end.

(** A dict as an association list in insertion order: assigning to a key
    that is present replaces its value in place. *)
Section Dict.
Context {K V : Type}.
Variable eqb : K -> K -> bool.

Fixpoint dict_get (k : K) (d : list (K * V)) : option V :=
  match d with
  | [] => None
  | (k', v) :: d' => if eqb k k' then Some v else dict_get k d'
  end.

Definition dict_mem (k : K) (d : list (K * V)) : bool :=
  match dict_get k d with Some _ => true | None => false end.

Fixpoint dict_set (k : K) (v : V) (d : list (K * V)) : list (K * V) :=
  match d with
  | [] => [(k, v)]
  | (k', v') :: d' =>
      if eqb k k' then (k', v) :: d' else (k', v') :: dict_set k v d'
  end.

Definition dict_keys (d : list (K * V)) : list K := map fst d.
Definition dict_values (d : list (K * V)) : list V := map snd d.
End Dict.

(* ===================================================================== *)
(** * utils.py *)
(* ===================================================================== *)

Module Utils.

Definition nl : string := String (ascii_of_nat 10) EmptyString.

(** ** read_cell_or_energy_data *)

Definition cell_columns : list string :=
  ["Step"; "Time [fs]"; "Ax [Angstrom]"; "Ay [Angstrom]"; "Az [Angstrom]";
   "Bx [Angstrom]"; "By [Angstrom]"; "Bz [Angstrom]"; "Cx [Angstrom]";
   "Cy [Angstrom]"; "Cz [Angstrom]"; "Volume [Angstrom^3]"].

Definition energy_columns : list string :=
  ["Step Nr."; "Time[fs]"; "Kin.[a.u.]"; "Temp[K]"; "Pot.[a.u.]";
   "Cons Qty[a.u.]"; "UsedTime[s]"].

(** The returned dictionary: column name to the values read. *)
Definition series : Type := list (string * list Float64.float).

(** [columns] after the defaulting block (lines 26-32): it stays [None]
    for an unknown [type]. *)
Definition default_columns (columns : option (list string)) (type : string)
  : M (option (list string)) :=
  match columns with
  | Some c => ret (Some c)
  | None =>
      if String.eqb type "cell" then ret (Some cell_columns)
      else if String.eqb type "energy" then ret (Some energy_columns)
      else print UnknownType ;; ret None
  end.

(** One pass of the inner loop (lines 51-60) for the token [value] of
    column [col]. *)
Definition store_value (col value : string) (data : series) : M series :=
  let data1 :=
    if dict_mem String.eqb col data then data
    else dict_set String.eqb col [] data in
  match PyStr.float_of_string value with
  | Ok x =>
      match dict_get String.eqb col data1 with
      | Some l => ret (dict_set String.eqb col (l ++ [x]) data1)
      | None => raise KeyError
      end
  | Raise _ => print (WarnToken value) ;; ret data1
  end.

(** The inner loop: [values] and [columns] are walked together, which is
    [columns[i]] for the [i] of [enumerate(values)]. *)
Fixpoint store_values (columns values : list string) (data : series)
  : M series :=
  match values with
  | [] => ret data
  | value :: vs =>
      match columns with
      | [] => raise IndexError
      | col :: cs =>
          data1 <- store_value col value data ;;
          store_values cs vs data1
      end
  end.

(** The body of the row loop (lines 43-60). *)
Definition read_row (columns : option (list string)) (data : series)
           (row : string) : M series :=
  let values := PyStr.split (PyStr.strip row) in
  match columns with
  | None => raise TypeError
  | Some cols =>
      if negb (length values =? length cols)%nat
      then print WarnRow ;; ret data
      else store_values cols values data
  end.

Fixpoint read_rows (columns : option (list string)) (data : series)
         (rows : list string) : M series :=
  match rows with
  | [] => ret data
  | row :: rest =>
      data1 <- read_row columns data row ;;
      read_rows columns data1 rest
  end.

(** The names bound at lines 63-68; an unknown [type] binds none, and the
    test of line 72 then fails on the unbound [time]. *)
Definition step_time_names (type : string) : M (string * string) :=
  if String.eqb type "cell" then ret ("Step", "Time [fs]")
  else if String.eqb type "energy" then ret ("Step Nr.", "Time[fs]")
  else raise UnboundLocalError.

(** The report of lines 72-75; the expressions of the message are
    evaluated from left to right. *)
Definition diagnostic (type : string) (nsteps : Z) (TIMESTEP : Float64.float)
           (data : series) : M unit :=
  '(step, time) <- step_time_names type ;;
  match dict_get String.eqb time data with
  | Some t =>
      t_last <- lift (PyList.index t (-1)) ;;
      t_0 <- lift (PyList.index t 0) ;;
      let span := Float64.add (Float64.sub t_last t_0) TIMESTEP in
      s <- lift (match dict_get String.eqb step data with
                 | Some s => Ok s
                 | None => Raise KeyError
                 end) ;;
      s_last <- lift (PyList.index s (-1)) ;;
      s_0 <- lift (PyList.index s 0) ;;
      n <- lift (Float64.to_int (Float64.sub s_last s_0)) ;;
      t_1 <- lift (PyList.index t 1) ;;
      t_0' <- lift (PyList.index t 0) ;;
      print (Matched span (n + 1) type nsteps (Float64.sub t_1 t_0'))
  | None => print (NoTime time type)
  end.

(** [file] is the list of the lines of the opened file. *)
Definition read_cell_or_energy_data (file : list string) (nsteps STDPRINT : Z)
           (TIMESTEP : Float64.float) (columns : option (list string))
           (type : string) : M series :=
  columns1 <- default_columns columns type ;;
  match file with
  | [] => raise StopIteration
  | _ :: rows =>
      data <- read_rows columns1 [] rows ;;
      diagnostic type nsteps TIMESTEP data ;;
      ret data
  end.

(** ** Frames *)

(** One atom of a frame, [[float(x), float(y), float(z)]]. *)
Definition triple : Type := (Float64.float * Float64.float * Float64.float)%type.

Definition frame : Type := list triple.

(** [np.array(frame).flatten()] *)
Definition flatten (f : frame) : list Float64.float :=
  flat_map (fun '(x, y, z) => [x; y; z]) f.

(** [np.zeros((r, c))] *)
Definition zeros (r c : nat) : ndarray2 :=
  mk_ndarray2 c (repeat (repeat Float64.zero c) r).

Fixpoint replace_nth {A} (i : nat) (x : A) (l : list A) : list A :=
  match l, i with
  | [], _ => []
  | _ :: l', O => x :: l'
  | y :: l', S j => y :: replace_nth j x l'
  end.

(** [data[i] = v]: the value must have the length of a row, or length one
    (then it is broadcast). *)
Definition set_row (data : ndarray2) (i : nat) (v : list Float64.float)
  : result ndarray2 :=
  if (nrows data <=? i)%nat then Raise IndexError
  else if (length v =? ncols data)%nat
  then Ok (mk_ndarray2 (ncols data) (replace_nth i v (rows data)))
  else
    match v with
    | [x] => Ok (mk_ndarray2 (ncols data)
                   (replace_nth i (repeat x (ncols data)) (rows data)))
    | _ => Raise ValueError
    end.

(** The loop [for i, frame in enumerate(frames): data[i] = ...], from
    index [i]. *)
Fixpoint fill (data : ndarray2) (i : nat) (frames : list frame)
  : result ndarray2 :=
  match frames with
  | [] => Ok data
  | f :: fs =>
      rbind (set_row data i (flatten f)) (fun data1 => fill data1 (S i) fs)
  end.

(** [int(nsteps / STDPRINT)]: the true division of the two ints gives a
    binary64, which [int] truncates toward zero. *)
Definition printed_steps (nsteps STDPRINT : Z) : result Z :=
  rbind (Float64.true_divide nsteps STDPRINT) Float64.to_int.

(** ** read_forces_data *)

Record forces_state : Type := mk_forces_state {
  kind_to_element : list (Z * string);
  arrangement : list (Z * string);
  frames : list frame;
  current_frames : frame;
  header_found : bool
}.

Definition forces_init : forces_state := mk_forces_state [] [] [] [] false.

Definition is_forces_header (line : string) : bool :=
  PyStr.contains "Atom" line && PyStr.contains "Kind" line
  && PyStr.contains "Element" line.

Definition nonempty {A} (l : list A) : bool :=
  match l with [] => false | _ => true end.

(** The body of the loop over the lines (lines 113-130). *)
Definition forces_step (st : forces_state) (line : string)
  : result forces_state :=
  if is_forces_header line then
    Ok (if nonempty (current_frames st)
        then mk_forces_state (kind_to_element st) (arrangement st)
               (frames st ++ [current_frames st]) [] true
        else mk_forces_state (kind_to_element st) (arrangement st)
               (frames st) (current_frames st) true)
  else if negb (header_found st) || PyStr.contains "ATOMIC FORCES" line
  then Ok st
  else
    match PyStr.split line with
    | atom :: kind :: element :: x :: y :: z :: _ =>
        rbind (PyStr.int_of_string kind) (fun k =>
        rbind (PyStr.float_of_string x) (fun fx =>
        rbind (PyStr.float_of_string y) (fun fy =>
        rbind (PyStr.float_of_string z) (fun fz =>
        Ok (mk_forces_state
              (dict_set Z.eqb k element (kind_to_element st))
              (arrangement st ++ [(k, element)])
              (frames st)
              (current_frames st ++ [(fx, fy, fz)])
              (header_found st))))))
    | _ => Ok st
    end.

Fixpoint forces_scan (st : forces_state) (lines : list string)
  : result forces_state :=
  match lines with
  | [] => Ok st
  | line :: rest => rbind (forces_step st line) (fun st1 => forces_scan st1 rest)
  end.

(** The frames after the last flush (lines 132-133). *)
Definition flush (frames : list frame) (current : frame) : list frame :=
  if nonempty current then frames ++ [current] else frames.

(** [kind_to_element, ordering_letter, ordering_number, data] *)
Definition forces_output : Type :=
  (list (Z * string) * list string * list Z * ndarray2)%type.

Definition read_forces_data (file : list string) (nsteps STDPRINT : Z)
  : M forces_output :=
  st <- lift (forces_scan forces_init file) ;;
  let frames1 := flush (frames st) (current_frames st) in
  let num_frames := length frames1 in
  f0 <- lift (PyList.index frames1 0) ;;
  let num_atoms := length f0 in
  let data := zeros num_frames (num_atoms * 3) in
  let per_frame := (length (arrangement st) / num_frames)%nat in
  let ordering_number := map fst (firstn per_frame (arrangement st)) in
  let ordering_letter := map snd (firstn per_frame (arrangement st)) in
  assert (num_atoms * 3 =? ncols data)%nat ;;
  q <- lift (printed_steps nsteps STDPRINT) ;;
  assert (Z.of_nat num_frames =? q + 1) ;;
  print (Loaded num_atoms num_frames) ;;
  data1 <- lift (fill data 0 frames1) ;;
  ret (kind_to_element st, ordering_letter, ordering_number, data1).

(** ** read_position_data *)

Record position_state : Type := mk_position_state {
  p_frames : list frame;
  current_frame : frame;
  frame_started : bool
}.

Definition position_init : position_state := mk_position_state [] [] false.

Definition is_position_header (line : string) : bool :=
  PyStr.contains "i =" line && PyStr.contains "time =" line
  && PyStr.contains "E =" line.

(** The body of the loop over the lines (lines 173-187). *)
Definition position_step (st : position_state) (line : string)
  : result position_state :=
  if is_position_header line then
    Ok (if frame_started st && nonempty (current_frame st)
        then mk_position_state (p_frames st ++ [current_frame st]) [] true
        else mk_position_state (p_frames st) (current_frame st) true)
  else if frame_started st then
    match PyStr.split line with
    | [atom; x; y; z] =>
        rbind (PyStr.float_of_string x) (fun fx =>
        rbind (PyStr.float_of_string y) (fun fy =>
        rbind (PyStr.float_of_string z) (fun fz =>
        Ok (mk_position_state (p_frames st)
              (current_frame st ++ [(fx, fy, fz)]) (frame_started st)))))
    | _ => Ok st
    end
  else Ok st.

Fixpoint position_scan (st : position_state) (lines : list string)
  : result position_state :=
  match lines with
  | [] => Ok st
  | line :: rest =>
      rbind (position_step st line) (fun st1 => position_scan st1 rest)
  end.

Definition read_position_data (file : list string) (nsteps STDPRINT : Z)
  : M ndarray2 :=
  st <- lift (position_scan position_init file) ;;
  let frames1 := flush (p_frames st) (current_frame st) in
  let num_frames := length frames1 in
  f0 <- lift (PyList.index frames1 0) ;;
  let num_atoms := length f0 in
  let data := zeros num_frames (num_atoms * 3) in
  assert (num_atoms * 3 =? ncols data)%nat ;;
  q <- lift (printed_steps nsteps STDPRINT) ;;
  assert (Z.of_nat num_frames =? q) ;;
  print (Loaded num_atoms num_frames) ;;
  lift (fill data 0 frames1).

End Utils.

(* ===================================================================== *)
(** * numpy and pandas operations used by the two programs *)
(* ===================================================================== *)

Module Np.

(** [np.concatenate(l, axis=0)] for two-dimensional arrays: the list must
    not be empty and the arrays must agree on the number of columns. *)
Definition concatenate2 (l : list ndarray2) : result ndarray2 :=
  match l with
  | [] => Raise ValueError
  | a :: rest =>
      if forallb (fun b => (ncols b =? ncols a)%nat) rest
      then Ok (mk_ndarray2 (ncols a) (concat (map rows l)))
      else Raise ValueError
  end.

(** [np.concatenate(l, axis=0)] for one-dimensional arrays. *)
Definition concatenate1 (l : list (list Float64.float))
  : result (list Float64.float) :=
  match l with
  | [] => Raise ValueError
  | _ => Ok (concat l)
  end.

(** [a[lo:hi]] on the first axis. *)
Definition slice2 (a : ndarray2) (lo hi : option Z) : ndarray2 :=
  mk_ndarray2 (ncols a) (PyList.slice (rows a) lo hi).

(** [a.astype(np.float32)] *)
Definition astype_f32_1 (v : list Float64.float) : npy :=
  Npy1 Float_32 (map Float64.to_f32 v).

Definition astype_f32_2 (a : ndarray2) : npy :=
  Npy2 Float_32 (mk_ndarray2 (ncols a) (map (map Float64.to_f32) (rows a))).

(** [pd.DataFrame(d)] for a dict of lists: the lists must have one
    length. *)
Definition data_frame (d : Utils.series) : result Utils.series :=
  match d with
  | [] => Ok d
  | (_, c) :: rest =>
      if forallb (fun kc => (length (snd kc) =? length c)%nat) rest
      then Ok d
      else Raise ValueError
  end.

Definition frame_len (df : Utils.series) : nat :=
  match df with
  | [] => O
  | (_, c) :: _ => length c
  end.

(** [df.iloc[:, lo:hi].to_numpy()] *)
Definition iloc_to_numpy (df : Utils.series) (lo hi : option Z) : ndarray2 :=
  let cols := map snd (PyList.slice df lo hi) in
  mk_ndarray2 (length cols)
    (map (fun i => map (fun c => nth i c Float64.zero) cols)
         (seq 0 (frame_len df))).

(** [df[name].to_numpy()] *)
Definition column (df : Utils.series) (name : string)
  : result (list Float64.float) :=
  match dict_get String.eqb name df with
  | Some c => Ok c
  | None => Raise KeyError
  end.

End Np.

(** The persistence rule shared by the converter and the splitter. *)
Module Persist.

(** The element types of the four arrays.  numpy keeps the type next to
    the data; slicing and indexing an array keep it. *)
Record dtypes : Type := mk_dtypes {
  box_dtype : dtype;
  energy_dtype : dtype;
  coord_dtype : dtype;
  force_dtype : dtype
}.

(** Arrays built from Python floats hold binary64 numbers. *)
Definition all_float64 : dtypes :=
  mk_dtypes Float_64 Float_64 Float_64 Float_64.

Record dataset : Type := mk_dataset {
  box : ndarray2;
  energy : list Float64.float;
  coord : ndarray2;
  force : ndarray2;
  stored_as : dtypes
}.

(** The two assertions both programs make on the four arrays: one number
    of steps, and one number of columns for coordinates and forces. *)
Definition consistency_check (d : dataset) : M unit :=
  assert ((nrows (box d) =? length (energy d))%nat
          && (length (energy d) =? nrows (coord d))%nat
          && (nrows (coord d) =? nrows (force d))%nat) ;;
  assert (ncols (coord d) =? ncols (force d))%nat.

(** [f"{i:0>3}"] *)
Definition pad3 (i : Z) : string :=
  let s := PyStr.string_of_int i in
  let n := String.length s in
  (String.concat "" (repeat "0" (3 - n)) ++ s)%string.

Definition set_dir (root : string) (i : Z) : string :=
  (root ++ "/set." ++ pad3 i)%string.

(** The body of the loop over the subsets, for subset [i] of
    [nline_per_set] rows. *)
Definition save_chunk (root : string) (d : dataset) (nline_per_set i : Z)
  : M unit :=
  let lo := Some (i * nline_per_set) in
  let hi := Some ((i + 1) * nline_per_set) in
  let dir := set_dir root i in
  emit (Save (dir ++ "/box.npy")
          (Np.astype_f32_2 (Np.slice2 (box d) lo hi))) ;;
  emit (Save (dir ++ "/energy.npy")
          (Np.astype_f32_1 (PyList.slice (energy d) lo hi))) ;;
  emit (Save (dir ++ "/coord.npy")
          (Np.astype_f32_2 (Np.slice2 (coord d) lo hi))) ;;
  emit (Save (dir ++ "/force.npy")
          (Np.astype_f32_2 (Np.slice2 (force d) lo hi))).

(** The chunked branch: [nline_per_set = int(len(box) // SPLIT_COUNT)],
    then one subset per [i] of [range(SPLIT_COUNT)]; [after] is what the
    caller prints once a subset is saved. *)
Definition save_chunked (root : string) (d : dataset) (SPLIT_COUNT : Z)
           (after : string -> M unit) : M unit :=
  if SPLIT_COUNT =? 0 then raise ZeroDivisionError
  else
    let nline_per_set := Z.of_nat (nrows (box d)) / SPLIT_COUNT in
    for_each (fun i => save_chunk root d nline_per_set i ;; after (pad3 i))
             (PyList.range SPLIT_COUNT).

(** The other branch: one subset, the arrays saved as they are, each with
    the element type it has. *)
Definition save_whole (root : string) (d : dataset) : M unit :=
  let dir := (root ++ "/set.000")%string in
  let t := stored_as d in
  emit (Save (dir ++ "/box.npy") (Npy2 (box_dtype t) (box d))) ;;
  emit (Save (dir ++ "/energy.npy") (Npy1 (energy_dtype t) (energy d))) ;;
  emit (Save (dir ++ "/coord.npy") (Npy2 (coord_dtype t) (coord d))) ;;
  emit (Save (dir ++ "/force.npy") (Npy2 (force_dtype t) (force d))).

End Persist.

(* ===================================================================== *)
(** * multicpk2deepmd.py *)
(* ===================================================================== *)

Module Converter.

Record args : Type := mk_args {
  FILES : list string;
  PATH : option string;
  SAVE_PATH : option string;
  NSTEPS : list Z;
  STDPRINT : Z;
  TIMESTEP : Float64.float;
  ZERO_DATA : bool;
  SPLIT : bool;
  SPLIT_COUNT : Z
}.

(** The files that can be opened: a path to the lines of its file. *)
Definition file_system : Type := string -> option (list string).

Definition open_read (fs : file_system) (path : string) : M (list string) :=
  emit (OpenRead path) ;;
  match fs path with
  | Some lines => ret lines
  | None => raise FileNotFoundError
  end.

(** What one pass of the loop over the groups appends and binds. *)
Record group : Type := mk_group {
  g_cell : ndarray2;
  g_energy : list Float64.float;
  g_coord : ndarray2;
  g_force : ndarray2;
  g_kind_to_element : list (Z * string);
  g_ordering_letter : list string;
  g_ordering_number : list Z
}.

(** Lines 54-59 of the loop body, for the file stem [file] with its
    declared step count [nsteps]: the cell and energy data frames. *)
Definition load_scalars (fs : file_system) (a : args) (file : string)
           (nsteps : Z) : M (Utils.series * Utils.series) :=
  print (Processing file) ;;
  print (Loading "cell") ;;
  cell_lines <- open_read fs (file ++ "-Cell.cell") ;;
  cell_series <- Utils.read_cell_or_energy_data cell_lines nsteps
                   (STDPRINT a) (TIMESTEP a) None "cell" ;;
  cell <- lift (Np.data_frame cell_series) ;;
  print (Loading "energy") ;;
  energy_lines <- open_read fs (file ++ "-Energy.en") ;;
  energy_series <- Utils.read_cell_or_energy_data energy_lines nsteps
                     (STDPRINT a) (TIMESTEP a) None "energy" ;;
  energy <- lift (Np.data_frame energy_series) ;;
  ret (cell, energy).

(** The body of the loop (lines 54-72).  With [ZERO_DATA] set, line 62 adds
    the integer 1 to the list [args.NSTEPS], which raises [TypeError]. *)
Definition load_group (fs : file_system) (a : args) (file : string)
           (nsteps : Z) : M group :=
  '(cell, energy) <- load_scalars fs a file nsteps ;;
  (if ZERO_DATA a then raise TypeError else ret tt) ;;
  print (Loading "coordinates") ;;
  coord_lines <- open_read fs (file ++ "-Trajectory.xyz") ;;
  coord <- Utils.read_position_data coord_lines nsteps (STDPRINT a) ;;
  print (Loading "force") ;;
  force_lines <- open_read fs (file ++ "-Forces.for") ;;
  '(kind_to_element, ordering_letter, ordering_number, force) <-
    Utils.read_forces_data force_lines nsteps (STDPRINT a) ;;
  let cell_array := Np.iloc_to_numpy cell (Some 2) (Some (-1)) in
  energy_array <- lift (Np.column energy "Cons Qty[a.u.]") ;;
  ret (mk_group cell_array energy_array coord force
         kind_to_element ordering_letter ordering_number).

(** The loop over [range(len(args.FILES))]; the two lists have one length
    (line 43). *)
Fixpoint load_groups (fs : file_system) (a : args)
         (work : list (string * Z)) : M (list group) :=
  match work with
  | [] => ret []
  | (file, nsteps) :: rest =>
      g <- load_group fs a file nsteps ;;
      gs <- load_groups fs a rest ;;
      ret (g :: gs)
  end.

(** [idx[1:, :]] *)
Definition drop_first (a : ndarray2) : ndarray2 :=
  Np.slice2 a (Some 1) None.

(** Lines 76-79.  The arrays of the groups are built from Python floats,
    and so are their concatenations. *)
Definition concatenate_groups (gs : list group) : result Persist.dataset :=
  rbind (Np.concatenate2 (map g_cell gs)) (fun cell_data =>
  rbind (Np.concatenate1 (map g_energy gs)) (fun energy_data =>
  rbind (Np.concatenate2 (map g_coord gs)) (fun coord_data =>
  rbind (Np.concatenate2 (map drop_first (map g_force gs))) (fun force_data =>
  Ok (Persist.mk_dataset cell_data energy_data coord_data force_data
        Persist.all_float64))))).

(** Lines 96-121. *)
Definition persist (save_path : string) (a : args) (d : Persist.dataset)
  : M unit :=
  if SPLIT a
  then Persist.save_chunked save_path d (SPLIT_COUNT a) (fun _ => ret tt)
  else Persist.save_whole save_path d.

(** The text written by a loop of [f.write(f"{item}\n")]. *)
Definition write_lines (items : list string) : string :=
  String.concat "" (map (fun item => (item ++ Utils.nl)%string) items).

Definition type_map_lines (kind_to_element : list (Z * string))
  : list string :=
  dict_values kind_to_element.

Definition type_lines (ordering_number : list Z) : list string :=
  map (fun item => PyStr.string_of_int (item - 1)) ordering_number.

(** Lines 124-130. *)
Definition write_types (save_path : string)
           (kind_to_element : list (Z * string)) (ordering_number : list Z)
  : M unit :=
  emit (WriteText (save_path ++ "/type_map.raw")
          (write_lines (type_map_lines kind_to_element))) ;;
  emit (WriteText (save_path ++ "/type.raw")
          (write_lines (type_lines ordering_number))).

(** [last l]: the bindings left by the last pass of the loop. *)
Definition last_group (gs : list group) : option group :=
  match rev gs with
  | g :: _ => Some g
  | [] => None
  end.

(** [args.FILES] after line 47. *)
Definition input_files (a : args) : list string :=
  match PATH a with
  | Some p => map (fun file => (p ++ "/" ++ file)%string) (FILES a)
  | None => FILES a
  end.

Definition main (fs : file_system) (a : args) : M unit :=
  assert (length (FILES a) =? length (NSTEPS a))%nat ;;
  let files := input_files a in
  gs <- load_groups fs a (combine files (NSTEPS a)) ;;
  print (ProcessingAll (length files)) ;;
  d <- lift (concatenate_groups gs) ;;
  Persist.consistency_check d ;;
  print StepsMatch ;;
  let save_path :=
    match SAVE_PATH a, PATH a with
    | None, Some p => Some p
    | sp, _ => sp
    end in
  match save_path with
  | None => raise TypeError
  | Some sp =>
      print (Writing sp) ;;
      persist sp a d ;;
      match last_group gs with
      | None => raise UnboundLocalError
      | Some g =>
          write_types sp (g_kind_to_element g) (g_ordering_number g) ;;
          print ExecutionTime
      end
  end.

End Converter.

(* ===================================================================== *)
(** * split_train_test.py *)
(* ===================================================================== *)

Module Splitter.

(** The four arrays loaded from [set.000], after the optional shuffle. *)
Definition loaded : Type := Persist.dataset.

(** [ntrain = int(args.TRAIN_SIZE * nfiles)]: the binary64 product of the
    fraction and the row count, truncated. *)
Definition ntrain_of (TRAIN_SIZE : Float64.float) (nfiles : nat) : result Z :=
  rbind (Float64.of_int (Z.of_nat nfiles)) (fun n =>
  Float64.to_int (Float64.mul TRAIN_SIZE n)).

(** Lines 64-81: the split index, the consistency check and the eight
    slices; the result is the train group and the test group. *)
Definition partition (TRAIN_SIZE : Float64.float) (d : loaded)
  : M (Persist.dataset * Persist.dataset) :=
  let nfiles := nrows (Persist.box d) in
  ntrain <- lift (ntrain_of TRAIN_SIZE nfiles) ;;
  Persist.consistency_check d ;;
  print StepsMatch ;;
  let train :=
    Persist.mk_dataset
      (Np.slice2 (Persist.box d) None (Some ntrain))
      (PyList.slice (Persist.energy d) None (Some ntrain))
      (Np.slice2 (Persist.coord d) None (Some ntrain))
      (Np.slice2 (Persist.force d) None (Some ntrain))
      (Persist.stored_as d) in
  let test :=
    Persist.mk_dataset
      (Np.slice2 (Persist.box d) (Some ntrain) None)
      (PyList.slice (Persist.energy d) (Some ntrain) None)
      (Np.slice2 (Persist.coord d) (Some ntrain) None)
      (Np.slice2 (Persist.force d) (Some ntrain) None)
      (Persist.stored_as d) in
  print DataSplit ;;
  ret (train, test).

Record args : Type := mk_args {
  FILES : list string;
  PATH : option string;
  FOLDER : option string;
  TRAIN_SIZE : Float64.float;
  SHUFFLE : bool;
  SEED : Z;
  SPLIT_TRAIN_DATA : bool;
  SPLIT_TEST_DATA : bool;
  SPLIT_COUNT : Z
}.

(** The directory tree the splitter reads: which paths exist, and the
    arrays [np.load] returns, each with the element type it was saved
    with. *)
Record store : Type := mk_store {
  path_exists : string -> bool;
  load2 : string -> option (dtype * ndarray2);
  load1 : string -> option (dtype * list Float64.float)
}.

(** [f"{x}"] for a value that may be [None]. *)
Definition show (x : option string) : string :=
  match x with Some s => s | None => "None" end.

Definition np_load {A} (table : string -> option A) (path : string) : M A :=
  emit (OpenRead path) ;;
  match table path with
  | Some a => ret a
  | None => raise FileNotFoundError
  end.

(** [a[idx]] for an index array: every index must be in range. *)
Fixpoint take {A} (l : list A) (idx : list nat) : result (list A) :=
  match idx with
  | [] => Ok []
  | i :: rest =>
      match nth_error l i with
      | Some x => rbind (take l rest) (fun xs => Ok (x :: xs))
      | None => Raise IndexError
      end
  end.

(** Lines 55-61.  [permutation seed n] stands for
    [np.random.seed(seed); np.random.permutation(n)]. *)
Definition shuffle (permutation : Z -> nat -> list nat) (a : args)
           (d : loaded) : result loaded :=
  if SHUFFLE a then
    let idx := permutation (SEED a) (nrows (Persist.box d)) in
    rbind (take (rows (Persist.box d)) idx) (fun b =>
    rbind (take (Persist.energy d) idx) (fun e =>
    rbind (take (rows (Persist.coord d)) idx) (fun c =>
    rbind (take (rows (Persist.force d)) idx) (fun f =>
    Ok (Persist.mk_dataset
          (mk_ndarray2 (ncols (Persist.box d)) b) e
          (mk_ndarray2 (ncols (Persist.coord d)) c)
          (mk_ndarray2 (ncols (Persist.force d)) f)
          (Persist.stored_as d))))))
  else Ok d.

(** Lines 54-81: shuffle, then split. *)
Definition split (permutation : Z -> nat -> list nat) (a : args)
           (d : loaded) : M (Persist.dataset * Persist.dataset) :=
  d1 <- lift (shuffle permutation a d) ;;
  partition (TRAIN_SIZE a) d1.

(** Lines 91-101, for one of the two side files. *)
Definition copy_side_file (st : store) (a : args) (config name : string)
  : M unit :=
  let folder := (config ++ "/" ++ show (FOLDER a))%string in
  if path_exists st (folder ++ "/" ++ name)
  then
    emit (Copy (folder ++ "/" ++ name) (config ++ "/train")) ;;
    emit (Copy (folder ++ "/" ++ name) (config ++ "/test"))
  else print (SideFileMissing name folder).

(** Lines 106-137 and 141-172, for the group [name] ("train" or
    "test"). *)
Definition persist (config name label : string) (chunked : bool)
           (SPLIT_COUNT : Z) (d : Persist.dataset) : M unit :=
  let root := (config ++ "/" ++ name)%string in
  if chunked
  then Persist.save_chunked root d SPLIT_COUNT
         (fun i => print (SavedSet i label))
  else Persist.save_whole root d ;; print (SavedSet "000" label).

(** The body of the second loop (lines 41-172). *)
Definition process (permutation : Z -> nat -> list nat) (st : store)
           (a : args) (config : string) : M unit :=
  print (Processing config) ;;
  let set0 := (config ++ "/" ++ show (FOLDER a) ++ "/set.000")%string in
  assert (path_exists st set0) ;;
  assert (path_exists st (set0 ++ "/box.npy")) ;;
  assert (path_exists st (set0 ++ "/energy.npy")) ;;
  assert (path_exists st (set0 ++ "/coord.npy")) ;;
  assert (path_exists st (set0 ++ "/force.npy")) ;;
  '(box_t, box) <- np_load (load2 st) (set0 ++ "/box.npy") ;;
  '(energy_t, energy) <- np_load (load1 st) (set0 ++ "/energy.npy") ;;
  '(coord_t, coord) <- np_load (load2 st) (set0 ++ "/coord.npy") ;;
  '(force_t, force) <- np_load (load2 st) (set0 ++ "/force.npy") ;;
  '(train, test) <-
    split permutation a
      (Persist.mk_dataset box energy coord force
         (Persist.mk_dtypes box_t energy_t coord_t force_t)) ;;
  copy_side_file st a config "type.raw" ;;
  copy_side_file st a config "type_map.raw" ;;
  persist config "train" "training" (SPLIT_TRAIN_DATA a) (SPLIT_COUNT a) train ;;
  persist config "test" "test" (SPLIT_TEST_DATA a) (SPLIT_COUNT a) test.

(** The argument parser defines no [CONFIGURATIONS], so line 33 raises
    [AttributeError] when [PATH] is given. *)
Definition main (permutation : Z -> nat -> list nat) (st : store)
           (a : args) : M unit :=
  match PATH a with
  | Some _ => raise AttributeError
  | None =>
      for_each (fun config => assert (path_exists st config)) (FILES a) ;;
      for_each (process permutation st a) (FILES a) ;;
      print ExecutionTime
  end.

End Splitter.

(* ===================================================================== *)
(** * Definitions used to state the properties *)
(* ===================================================================== *)

Module FrameSpec.
Import Utils.

(** The frame list a force file parses to: the frames flushed during the
    scan and the last one. *)
Definition forces_frames (file : list string) : result (list frame) :=
  rbind (forces_scan forces_init file)
        (fun st => Ok (flush (frames st) (current_frames st))).

Definition position_frames (file : list string) : result (list frame) :=
  rbind (position_scan position_init file)
        (fun st => Ok (flush (p_frames st) (current_frame st))).

(** The part of both parsers after the scan, without the console
    output. *)
Definition tensor_of_frames (frames1 : list frame) (nsteps STDPRINT extra : Z)
  : result ndarray2 :=
  rbind (PyList.index frames1 0) (fun f0 =>
  let data := zeros (length frames1) (length f0 * 3) in
  rbind (if (length f0 * 3 =? ncols data)%nat then Ok tt
         else Raise AssertionError) (fun _ =>
  rbind (printed_steps nsteps STDPRINT) (fun q =>
  rbind (if Z.of_nat (length frames1) =? q + extra then Ok tt
         else Raise AssertionError) (fun _ =>
  fill data 0 frames1)))).

(** All the frames list as many atoms as the first. *)
Definition uniform (fr : list frame) : Prop :=
  match fr with
  | [] => True
  | f0 :: _ => Forall (fun f => length f = length f0) fr
  end.

(** [kind_to_element] is the dict obtained by assigning the recorded
    (kind, element) pairs in file order, and [arrangement] holds one pair
    per recorded atom. *)
Definition assign_all (pairs : list (Z * string)) (d : list (Z * string))
  : list (Z * string) :=
  fold_left (fun d ke => dict_set Z.eqb (fst ke) (snd ke) d) pairs d.

(** ** The layout of a force file *)

(** One listed atom: its kind, its element and its force. *)
Definition atom : Type := (Z * string * triple)%type.

(** What a line after a header contributes: an atom when it is not a banner,
    has at least six fields, and its second field is an integer and its
    fourth to sixth fields are floats. *)
Definition atom_of_line (line : string) : option atom :=
  if PyStr.contains "ATOMIC FORCES" line then None
  else
    match PyStr.split line with
    | _ :: kind :: element :: x :: y :: z :: _ =>
        match PyStr.int_of_string kind, PyStr.float_of_string x,
              PyStr.float_of_string y, PyStr.float_of_string z with
        | Ok k, Ok fx, Ok fy, Ok fz => Some (k, element, (fx, fy, fz))
        | _, _, _, _ => None
        end
    | _ => None
    end.

(** A line the parser passes over: a banner, or fewer than six fields. *)
Definition ignored (line : string) : bool :=
  PyStr.contains "ATOMIC FORCES" line
  || (length (PyStr.split line) <? 6)%nat.

(** A line of a frame: not a header, and either ignored or an atom. *)
Definition frame_line (line : string) : bool :=
  negb (is_forces_header line)
  && (ignored line
      || match atom_of_line line with Some _ => true | None => false end).

(** A frame as it stands in the file: its header line and the lines up to
    the next header. *)
Record block : Type := mk_block {
  header : string;
  body : list string
}.

Definition body_atoms (lines : list string) : list atom :=
  flat_map (fun line => match atom_of_line line with
                        | Some a => [a]
                        | None => []
                        end) lines.

Definition block_frame (b : block) : frame := map snd (body_atoms (body b)).

(** The block starts with a header and lists exactly [A] atoms. *)
Definition block_of (A : nat) (b : block) : Prop :=
  is_forces_header (header b) = true
  /\ forallb frame_line (body b) = true
  /\ length (body_atoms (body b)) = A.

(** A force file: lines without header, then the blocks. *)
Definition force_file (preamble : list string) (blocks : list block)
  : list string :=
  preamble ++ flat_map (fun b => header b :: body b) blocks.

(** The state of the scan after the atoms [atoms] were read. *)
Definition add_atoms (atoms : list atom) (st : forces_state) : forces_state :=
  mk_forces_state
    (assign_all (map fst atoms) (kind_to_element st))
    (arrangement st ++ map fst atoms)
    (frames st)
    (current_frames st ++ map snd atoms)
    (header_found st).

(** The kinds in the order of their first appearance. *)
Definition first_seen (kinds : list Z) : list Z :=
  fold_left (fun acc k => if existsb (Z.eqb k) acc then acc else acc ++ [k])
            kinds [].

Definition scan_inv (st : forces_state) : Prop :=
  length (arrangement st)
  = (length (concat (frames st)) + length (current_frames st))%nat
  /\ kind_to_element st = assign_all (arrangement st) [].

(** The row [row] of a tensor holds the frame [f]: three numbers per atom,
    the components x, y and z of the atom [j] at the positions [3j],
    [3j + 1] and [3j + 2]. *)
Definition holds_frame (row : list Float64.float) (f : frame) : Prop :=
  length row = (3 * length f)%nat
  /\ forall (j : nat) (x y z : Float64.float),
       nth_error f j = Some (x, y, z) ->
       nth_error row (3 * j) = Some x
       /\ nth_error row (3 * j + 1) = Some y
       /\ nth_error row (3 * j + 2) = Some z.

(** The tensor holds the frames, one per row and in their order. *)
Definition holds_frames (data : ndarray2) (fr : list frame) : Prop :=
  Forall2 holds_frame (rows data) fr.

End FrameSpec.

Module SeriesSpec.
Import Utils.

(** The tokens of a row (line 43). *)
Definition row_values (row : string) : list string :=
  PyStr.split (PyStr.strip row).

(** The row has as many tokens as the schema has columns (line 46). *)
Definition matches (cols : list string) (row : string) : bool :=
  (length (row_values row) =? length cols)%nat.

(** The rows that are not skipped. *)
Definition matched_rows (cols : list string) (rows : list string) : nat :=
  length (filter (matches cols) rows).

(** The token of a row in the column [name]. *)
Definition token_of (cols : list string) (row name : string) : option string :=
  dict_get String.eqb name (combine cols (row_values row)).

(** What a token adds to its column: its value when it converts. *)
Definition converted (tok : string) : list Float64.float :=
  match PyStr.float_of_string tok with
  | Ok x => [x]
  | Raise _ => []
  end.

Definition converts (tok : string) : bool :=
  is_ok (PyStr.float_of_string tok).

(** The matched row has a token in column [name] that converts. *)
Definition contributes (cols : list string) (name row : string) : bool :=
  matches cols row &&
  match token_of cols row name with
  | Some tok => converts tok
  | None => false
  end.

(** The number of matched rows whose token in column [name] converts. *)
Definition converted_rows (cols : list string) (name : string)
           (rows : list string) : nat :=
  length (filter (contributes cols name) rows).

(** The column [name] of a dictionary, empty when absent. *)
Definition col_of (name : string) (data : series) : list Float64.float :=
  match dict_get String.eqb name data with
  | Some l => l
  | None => []
  end.

(** The dictionary after [store_value], [store_values], [read_row] and
    [read_rows]. *)
Definition value_effect (col value : string) (data : series) : series :=
  let data1 :=
    if dict_mem String.eqb col data then data
    else dict_set String.eqb col [] data in
  match PyStr.float_of_string value with
  | Ok x => dict_set String.eqb col (col_of col data1 ++ [x]) data1
  | Raise _ => data1
  end.

Fixpoint values_effect (columns values : list string) (data : series) : series :=
  match values, columns with
  | value :: vs, col :: cs => values_effect cs vs (value_effect col value data)
  | _, _ => data
  end.

Definition row_effect (cols : list string) (data : series) (row : string)
  : series :=
  if matches cols row then values_effect cols (row_values row) data else data.

Definition rows_effect (cols : list string) (data : series)
           (rows : list string) : series :=
  fold_left (row_effect cols) rows data.

(** The column names of the default schemas. *)
Definition schema (type : string) : list string :=
  if String.eqb type "cell" then cell_columns else energy_columns.

End SeriesSpec.

Module TextSpec.

(** No character of the string is a space. *)
Fixpoint no_space (s : string) : bool :=
  match s with
  | EmptyString => true
  | String c s' => negb (PyStr.is_space c) && no_space s'
  end.

(** The lines of a text: the runs of characters that a line feed ends, and
    what follows the last line feed. *)
Fixpoint split_lines (text : string) : list string * string :=
  match text with
  | EmptyString => ([], EmptyString)
  | String c rest =>
      let '(lines, tail) := split_lines rest in
      if Ascii.eqb c (ascii_of_nat 10) then (EmptyString :: lines, tail)
      else
        match lines with
        | [] => ([], String c tail)
        | l :: ls => (String c l :: ls, tail)
        end
  end.

(** The text is made of the lines [lines], each ended by a line feed. *)
Definition has_lines (text : string) (lines : list string) : Prop :=
  split_lines text = (lines, EmptyString).

End TextSpec.

Module FloatSpec.

(** What [k] right shifts make of the mantissa [M]: the quotient, and no
    round or sticky bit when the shift is exact. *)
Definition shr_inv (M k : Z) (mrs : shr_record) : Prop :=
  shr_m mrs = M / 2 ^ k
  /\ (M mod 2 ^ k = 0 -> shr_r mrs = false /\ shr_s mrs = false).

(** The float is [+0] or a positive finite float of value at most [K];
    values are compared after scaling by [2^B]. *)
Definition bounded_by (B K : Z) (r : spec_float) : Prop :=
  r = S754_zero false
  \/ exists m e, r = S754_finite false m e
                 /\ 0 <= e + B /\ Zpos m * 2 ^ (e + B) <= K * 2 ^ B.


(** A finite float as a fraction: its numerator and its denominator, a
    power of two. *)
Definition ratio (f : spec_float) : Z * Z :=
  match f with
  | S754_finite s m e =>
      (cond_Zopp s (Zpos m) * 2 ^ Z.max e 0, 2 ^ Z.max (- e) 0)
  | _ => (0, 1)
  end.

(** The floor and the ceiling of the exact product of the float [f] and the
    integer [n]. *)
Definition floor_product (f : spec_float) (n : Z) : Z :=
  (fst (ratio f) * n) / snd (ratio f).

Definition ceil_product (f : spec_float) (n : Z) : Z :=
  - ((- (fst (ratio f) * n)) / snd (ratio f)).

End FloatSpec.

Module SplitterSpec.
Import Persist.

(** The numbers of rows of the four arrays. *)
Definition steps (d : dataset) : list nat :=
  [nrows (box d); length (energy d); nrows (coord d); nrows (force d)].

(** The four arrays have [N] rows, and coordinates and forces have one
    number of columns: what the consistency check of both programs asks. *)
Definition consistent (d : dataset) (N : nat) : Prop :=
  steps d = [N; N; N; N] /\ ncols (coord d) = ncols (force d).

(** The rows [0, k) and the rows [k, N) of the four arrays, with their
    element types. *)
Definition head_rows (k : nat) (d : dataset) : dataset :=
  mk_dataset (mk_ndarray2 (ncols (box d)) (firstn k (rows (box d))))
             (firstn k (energy d))
             (mk_ndarray2 (ncols (coord d)) (firstn k (rows (coord d))))
             (mk_ndarray2 (ncols (force d)) (firstn k (rows (force d))))
             (stored_as d).

Definition tail_rows (k : nat) (d : dataset) : dataset :=
  mk_dataset (mk_ndarray2 (ncols (box d)) (skipn k (rows (box d))))
             (skipn k (energy d))
             (mk_ndarray2 (ncols (coord d)) (skipn k (rows (coord d))))
             (mk_ndarray2 (ncols (force d)) (skipn k (rows (force d))))
             (stored_as d).

End SplitterSpec.

Module ConverterSpec.

(** The events of the chunked branch when no subset gets a row. *)
Definition empty_chunk (root : string) (d : Persist.dataset) (i : Z)
  : list event :=
  [Save (Persist.set_dir root i ++ "/box.npy")
        (Npy2 Float_32 (mk_ndarray2 (ncols (Persist.box d)) []));
   Save (Persist.set_dir root i ++ "/energy.npy") (Npy1 Float_32 []);
   Save (Persist.set_dir root i ++ "/coord.npy")
        (Npy2 Float_32 (mk_ndarray2 (ncols (Persist.coord d)) []));
   Save (Persist.set_dir root i ++ "/force.npy")
        (Npy2 Float_32 (mk_ndarray2 (ncols (Persist.force d)) []))].

(** The paths of the files opened, in order. *)
Definition opened (evs : list event) : list string :=
  flat_map (fun e => match e with OpenRead p => [p] | _ => [] end) evs.

(** What [read_cell_or_energy_data] prints. *)
Definition is_report (e : event) : Prop :=
  match e with
  | Print UnknownType | Print WarnRow | Print (WarnToken _)
  | Print (Matched _ _ _ _ _) | Print (NoTime _ _) => True
  | _ => False
  end.

(** The events of a run that stops before the coordinates of the first
    group [file]: its banner, the announcements and reports of the cell and
    energy readers, the opening of these two files; no position or force
    file is announced, opened or loaded, and nothing is written. *)
Definition before_coordinates (file : string) (e : event) : Prop :=
  match e with
  | Print (Processing f) => f = file
  | Print (Loading what) => what = "cell" \/ what = "energy"
  | OpenRead path =>
      path = (file ++ "-Cell.cell")%string
      \/ path = (file ++ "-Energy.en")%string
  | _ => is_report e
  end.

End ConverterSpec.

Module PositionSpec.
Import Utils FrameSpec.

(** What a line after a frame header contributes: its three coordinates
    when it has exactly four fields and the last three are floats. *)
Definition position_of_line (line : string) : option triple :=
  match PyStr.split line with
  | [_; x; y; z] =>
      match PyStr.float_of_string x, PyStr.float_of_string y,
            PyStr.float_of_string z with
      | Ok fx, Ok fy, Ok fz => Some (fx, fy, fz)
      | _, _, _ => None
      end
  | _ => None
  end.

(** A line the parser passes over: its number of fields is not four. *)
Definition skipped (line : string) : bool :=
  negb (length (PyStr.split line) =? 4)%nat.

(** A line of a frame: not a header, and either skipped or a position. *)
Definition position_line (line : string) : bool :=
  negb (is_position_header line)
  && (skipped line
      || match position_of_line line with Some _ => true | None => false end).

Definition body_positions (lines : list string) : frame :=
  flat_map (fun line => match position_of_line line with
                        | Some t => [t]
                        | None => []
                        end) lines.

(** The block starts with a header and lists exactly [A] positions. *)
Definition position_block_of (A : nat) (b : block) : Prop :=
  is_position_header (header b) = true
  /\ forallb position_line (body b) = true
  /\ length (body_positions (body b)) = A.

(** A trajectory file: lines without header, then the blocks. *)
Definition trajectory_file (preamble : list string) (blocks : list block)
  : list string :=
  preamble ++ flat_map (fun b => header b :: body b) blocks.

(** The state of the scan after the positions [ts] were read. *)
Definition add_positions (ts : frame) (st : position_state) : position_state :=
  mk_position_state (p_frames st) (current_frame st ++ ts) (frame_started st).



(** A line that adds no atom whatever the state of the scan: a header, or a
    line that is passed over. *)
Definition no_force_atom (line : string) : bool :=
  is_forces_header line || ignored line.

Definition no_position (line : string) : bool :=
  is_position_header line || skipped line.

(** The element last recorded for the kind [k]. *)
Definition last_element (k : Z) (pairs : list (Z * string)) : option string :=
  match find (fun ke => Z.eqb k (fst ke)) (rev pairs) with
  | Some ke => Some (snd ke)
  | None => None
  end.

(** The (kind, element) pairs of a force file in file order. *)
Definition listed_pairs (blocks : list block) : list (Z * string) :=
  flat_map (fun b => map fst (body_atoms (body b))) blocks.

(** The kinds [first], [first + 1], ..., [first + n - 1]. *)
Definition consecutive (first : Z) (n : nat) : list Z :=
  PyList.range_from first n.

End PositionSpec.

(** Small input files used to run the functions. *)
Module Samples.

(** Three frames of two atoms, kinds 1 = H and 2 = O, in the layout of a
    forces log: a banner, the header of the table, the atoms, the sum. *)
Definition forces_header : string :=
  " # Atom   Kind   Element          X              Y              Z".

Definition forces_block (z1 z2 : string) : FrameSpec.block :=
  FrameSpec.mk_block forces_header
    [("      1      1      H       0.5 -0.25 " ++ z1)%string;
     ("      2      2      O       1.5 2.5 " ++ z2)%string;
     " SUM OF ATOMIC FORCES   0.0 0.0 0.0 0.0";
     " ATOMIC FORCES in [a.u.]";
     ""].

Definition blocks_3x2 : list FrameSpec.block :=
  [forces_block "1.0" "-3.0"; forces_block "2.0" "-4.0";
   forces_block "3.0" "-5.0"].

Definition preamble_3x2 : list string := [" ATOMIC FORCES in [a.u.]"; ""].

Definition forces_3x2 : list string :=
  FrameSpec.force_file preamble_3x2 blocks_3x2.

(** Two frames of two atoms. *)
Definition xyz_2x2 : list string :=
  ["       2";
   " i =        1, time =        0.500, E =       -17.1";
   "  H  0.0 0.0 0.0";
   "  O  1.0 1.0 1.0";
   "       2";
   " i =        2, time =        1.000, E =       -17.1";
   "  H  0.0 0.0 0.5";
   "  O  1.0 1.0 1.5"].

Definition cell_header : string :=
  "#   Step   Time [fs]   Ax [Angstrom]   Ay [Angstrom]   Az [Angstrom]".

Definition cell_2 : list string :=
  [cell_header;
   " 1  0.5  10 0 0 0 10 0 0 0 10 1000";
   " 2  1.0  10 0 0 0 10 0 0 0 10 1000"].

(** A cell file whose third row has a time that is not a number. *)
Definition cell_bad_time : list string :=
  cell_2 ++ [" 3  x  10 0 0 0 10 0 0 0 10 1000"].

(** A cell file with its header and one row. *)
Definition cell_1 : list string :=
  [cell_header; " 1  0.5  10 0 0 0 10 0 0 0 10 1000"].

Definition energy_2 : list string :=
  ["#  Step Nr.  Time[fs]  Kin.[a.u.]  Temp[K]  Pot.[a.u.]  Cons Qty[a.u.]";
   " 1  0.5  0.1 300 -17.1 -17.0 1.5";
   " 2  1.0  0.1 300 -17.2 -17.0 1.5"].

(** 0.5 *)
Definition half : Float64.float := S754_finite false 4503599627370496 (-53).

(** The frames of [forces_3x2] and of [xyz_2x2], and the series of
    [cell_2], evaluated. *)
Definition frames_3x2 : list Utils.frame :=
  Eval vm_compute in
    match FrameSpec.forces_frames forces_3x2 with
    | Ok fr => fr
    | Raise _ => []
    end.

Definition frames_2x2 : list Utils.frame :=
  Eval vm_compute in
    match FrameSpec.position_frames xyz_2x2 with
    | Ok fr => fr
    | Raise _ => []
    end.

Definition series_cell_2 : Utils.series :=
  Eval vm_compute in
    SeriesSpec.rows_effect Utils.cell_columns [] (tl cell_2).

(** A row of [c] zeros, and an array of [r] such rows. *)
Definition blank (r c : nat) : ndarray2 := Utils.zeros r c.

(** Two groups of 10 and 5 steps whose force tensors have 11 and 6 rows. *)
Definition group_10 : Converter.group :=
  Converter.mk_group (blank 10 9) (repeat Float64.zero 10) (blank 10 6)
    (blank 11 6) [(1, "H"); (2, "O")] ["H"; "O"] [1; 2].

Definition group_5 : Converter.group :=
  Converter.mk_group (blank 5 9) (repeat Float64.zero 5) (blank 5 6)
    (blank 6 6) [(1, "H"); (2, "O")] ["H"; "O"] [1; 2].

(** A dataset of three steps. *)
Definition dataset_3 : Persist.dataset :=
  Persist.mk_dataset (blank 3 9) (repeat Float64.zero 3) (blank 3 6)
    (blank 3 6) Persist.all_float64.

(** A directory with the four files of the group [d/run]. *)
Definition files_run : Converter.file_system :=
  fun path =>
    if String.eqb path "d/run-Cell.cell" then Some cell_2
    else if String.eqb path "d/run-Energy.en" then Some energy_2
    else if String.eqb path "d/run-Trajectory.xyz" then Some xyz_2x2
    else if String.eqb path "d/run-Forces.for" then Some forces_3x2
    else None.

Definition args_run (zero_data : bool) : Converter.args :=
  Converter.mk_args ["run"] (Some "d") None [2] 1 half zero_data false 10.

(** The floats 0.8 and 0.7, and the float of a small integer. *)
Definition fraction_08 : Float64.float :=
  Eval vm_compute in
    match PyStr.float_of_string "0.8" with Ok x => x | Raise _ => Float64.zero end.

Definition fraction_07 : Float64.float :=
  Eval vm_compute in
    match PyStr.float_of_string "0.7" with Ok x => x | Raise _ => Float64.zero end.

Definition num (n : Z) : Float64.float :=
  match Float64.of_int n with Ok x => x | Raise _ => Float64.zero end.

(** Ten steps of one atom; step [i] holds the number [i] everywhere. *)
Definition dataset_10 : Persist.dataset :=
  Eval vm_compute in
    let steps := map Z.of_nat (seq 0 10) in
    Persist.mk_dataset
      (mk_ndarray2 9 (map (fun i => repeat (num i) 9) steps))
      (map num steps)
      (mk_ndarray2 3 (map (fun i => repeat (num i) 3) steps))
      (mk_ndarray2 3 (map (fun i => repeat (num i) 3) steps))
      Persist.all_float64.

Definition args_split_08 : Splitter.args :=
  Splitter.mk_args ["run"] None (Some "deepmd") fraction_08 false 42
    false false 5.


(** A stand-in for the random permutation. *)
Definition identity_permutation (seed : Z) (n : nat) : list nat := seq 0 n.

Definition args_split_5 : Converter.args :=
  Converter.mk_args ["run"] None (Some "out") [3] 1 half false true 5.

End Samples.

Module ReaderSpec.

(** The name of the time column the report looks for (lines 63-68). *)
Definition time_name (type : string) : string :=
  if String.eqb type "cell" then "Time [fs]" else "Time[fs]".

(** The name of the step column the report reads (lines 63-68). *)
Definition step_name (type : string) : string :=
  if String.eqb type "cell" then "Step" else "Step Nr.".

(** The number of steps the report prints is [int(last - first) + 1] of
    the step column: this is whether the conversion to [int] succeeds. *)
Definition step_span_converts (steps : list Float64.float) : bool :=
  is_ok (Float64.to_int
           (Float64.sub (last steps Float64.zero) (hd Float64.zero steps))).

(** The nine components of the cell vectors. *)
Definition box_columns : list string :=
  ["Ax [Angstrom]"; "Ay [Angstrom]"; "Az [Angstrom]";
   "Bx [Angstrom]"; "By [Angstrom]"; "Bz [Angstrom]";
   "Cx [Angstrom]"; "Cy [Angstrom]"; "Cz [Angstrom]"].

(** What the reader does with a file of a type other than cell and energy
    when no column list is given. *)
Definition unknown_type_run (file : list string) : M Utils.series :=
  match file with
  | [] => ([Print UnknownType], Raise StopIteration)
  | [_] => ([Print UnknownType], Raise UnboundLocalError)
  | _ :: _ :: _ => ([Print UnknownType], Raise TypeError)
  end.

End ReaderSpec.

Module ChunkSpec.
Import Persist.

(** The [n] rows from row [lo] on (fewer at the end of the list). *)
Definition rows_between {A} (lo n : nat) (l : list A) : list A :=
  firstn n (skipn lo l).

(** The subset [i] when each subset gets [n] rows. *)
Definition chunk_rows (n i : nat) (d : dataset) : dataset :=
  mk_dataset
    (mk_ndarray2 (ncols (box d)) (rows_between (i * n) n (rows (box d))))
    (rows_between (i * n) n (energy d))
    (mk_ndarray2 (ncols (coord d)) (rows_between (i * n) n (rows (coord d))))
    (mk_ndarray2 (ncols (force d)) (rows_between (i * n) n (rows (force d))))
    (stored_as d).

Definition chunks (n c : nat) (d : dataset) : list dataset :=
  map (fun i => chunk_rows n i d) (seq 0 c).

(** What is written for the subset [i]: its four arrays as float32. *)
Definition chunk_events (root : string) (d : dataset) (n i : nat)
  : list event :=
  let dir := set_dir root (Z.of_nat i) in
  let c := chunk_rows n i d in
  [Save (dir ++ "/box.npy") (Np.astype_f32_2 (box c));
   Save (dir ++ "/energy.npy") (Np.astype_f32_1 (energy c));
   Save (dir ++ "/coord.npy") (Np.astype_f32_2 (coord c));
   Save (dir ++ "/force.npy") (Np.astype_f32_2 (force c))].

(** The number of steps the groups declare: the sum of
    [floor(nsteps / STDPRINT)]. *)
Definition declared_steps (STDPRINT : Z) (work : list (string * Z)) : Z :=
  fold_right (fun fn acc => snd fn / STDPRINT + acc) 0 work.

(** [SAVE_PATH] after lines 87-88. *)
Definition save_path_of (a : Converter.args) : option string :=
  match Converter.SAVE_PATH a, Converter.PATH a with
  | None, Some p => Some p
  | sp, _ => sp
  end.

End ChunkSpec.

Module ShuffleSpec.

(** The entries of [l] at the positions [idx], in the order of [idx]. *)
Definition reorder {A} (dflt : A) (idx : list nat) (l : list A) : list A :=
  map (fun i => nth i l dflt) idx.

(** The row at which [l[:k]] ends and [l[k:]] starts, for a list of [N]
    rows and any integer [k]. *)
Definition split_point (N : nat) (k : Z) : nat :=
  Z.to_nat (PyList.clamp (Z.of_nat N) k).

(** The paths the splitter tests before it loads a configuration. *)
Definition set0 (a : Splitter.args) (config : string) : string :=
  (config ++ "/" ++ Splitter.show (Splitter.FOLDER a) ++ "/set.000")%string.

(** What is done with the side file [name] of a configuration: it is
    copied to the train and to the test folder when it exists, and reported
    missing otherwise. *)
Definition side_file_events (st : Splitter.store) (a : Splitter.args)
           (config name : string) : list event :=
  let folder := (config ++ "/" ++ Splitter.show (Splitter.FOLDER a))%string in
  let src := (folder ++ "/" ++ name)%string in
  if Splitter.path_exists st src
  then [Copy src (config ++ "/train"); Copy src (config ++ "/test")]
  else [Print (SideFileMissing name folder)].

(** What is written for a group that is not split into subsets: its four
    arrays under [set.000], with the element types [t]. *)
Definition whole_events (root : string) (t : Persist.dtypes)
           (d : Persist.dataset) : list event :=
  let dir := (root ++ "/set.000")%string in
  [Save (dir ++ "/box.npy") (Npy2 (Persist.box_dtype t) (Persist.box d));
   Save (dir ++ "/energy.npy")
        (Npy1 (Persist.energy_dtype t) (Persist.energy d));
   Save (dir ++ "/coord.npy") (Npy2 (Persist.coord_dtype t) (Persist.coord d));
   Save (dir ++ "/force.npy") (Npy2 (Persist.force_dtype t) (Persist.force d))].

End ShuffleSpec.

(** Further input files. *)
Module Cases.

(** The two frames of [Samples.xyz_2x2] as blocks: each starts at its
    comment line; the atom count of the next frame closes the block. *)
Definition xyz_preamble : list string := ["       2"].

Definition xyz_blocks_2x2 : list FrameSpec.block :=
  [FrameSpec.mk_block
     " i =        1, time =        0.500, E =       -17.1"
     ["  H  0.0 0.0 0.0"; "  O  1.0 1.0 1.0"; "       2"];
   FrameSpec.mk_block
     " i =        2, time =        1.000, E =       -17.1"
     ["  H  0.0 0.0 0.5"; "  O  1.0 1.0 1.5"]].

(** What the two parsers return for the sample files. *)
Definition forces_3x2_tensor : ndarray2 :=
  Eval vm_compute in
    match outcome (Utils.read_forces_data Samples.forces_3x2 2 1) with
    | Ok (_, _, _, data) => data
    | Raise _ => Utils.zeros 0 0
    end.

Definition xyz_2x2_tensor : ndarray2 :=
  Eval vm_compute in
    match outcome (Utils.read_position_data Samples.xyz_2x2 2 1) with
    | Ok data => data
    | Raise _ => Utils.zeros 0 0
    end.

(** Two frames, the second of which lists one atom only. *)
Definition forces_ragged : list string :=
  [Samples.forces_header;
   "      1      1      H       0.5 -0.25 1.0";
   "      2      2      O       1.5 2.5 -3.0";
   Samples.forces_header;
   "      1      1      H       0.5 -0.25 2.0"].

Definition xyz_ragged : list string :=
  ["       2";
   " i =        1, time =        0.500, E =       -17.1";
   "  H  0.0 0.0 0.0";
   "  O  1.0 1.0 1.0";
   "       1";
   " i =        2, time =        1.000, E =       -17.1";
   "  H  0.0 0.0 0.5"].

Definition frames_forces_ragged : list Utils.frame :=
  Eval vm_compute in
    match FrameSpec.forces_frames forces_ragged with
    | Ok fr => fr
    | Raise _ => []
    end.

Definition frames_xyz_ragged : list Utils.frame :=
  Eval vm_compute in
    match FrameSpec.position_frames xyz_ragged with
    | Ok fr => fr
    | Raise _ => []
    end.



(** A cell file none of whose rows has twelve fields. *)
Definition cell_unmatched : list string :=
  [Samples.cell_header; " 1  0.5  10 0 0"; ""].

(** The series of [Samples.energy_2] and of [Samples.cell_bad_time], and
    an energy file of its header alone. *)
Definition series_energy_2 : Utils.series :=
  Eval vm_compute in
    SeriesSpec.rows_effect Utils.energy_columns [] (tl Samples.energy_2).

Definition series_cell_bad_time : Utils.series :=
  Eval vm_compute in
    SeriesSpec.rows_effect Utils.cell_columns [] (tl Samples.cell_bad_time).

Definition energy_header_only : list string :=
  ["#  Step Nr.  Time[fs]  Kin.[a.u.]  Temp[K]  Pot.[a.u.]  Cons Qty[a.u.]"].

(** The converter asked for three subsets, and for none. *)
Definition args_split_3 : Converter.args :=
  Converter.mk_args ["run"] None (Some "out") [10] 1 Samples.half false true 3.

Definition args_split_minus : Converter.args :=
  Converter.mk_args ["run"] None (Some "out") [10] 1 Samples.half false true (-2).

(** What the loop of the converter binds for the group [d/run]. *)
Definition group_run : Converter.group :=
  Eval vm_compute in
    match outcome (Converter.load_group Samples.files_run
                     (Samples.args_run false) "d/run" 2) with
    | Ok g => g
    | Raise _ => Samples.group_5
    end.

Definition dataset_run : Persist.dataset :=
  Eval vm_compute in
    match Converter.concatenate_groups [group_run] with
    | Ok d => d
    | Raise _ => Samples.dataset_3
    end.

(** Splitter arguments: a negative fraction, shuffling, two
    configurations the second of which does not exist. *)
Definition fraction_minus_02 : Float64.float :=
  Eval vm_compute in
    match PyStr.float_of_string "-0.2" with
    | Ok x => x
    | Raise _ => Float64.zero
    end.

Definition reversal (seed : Z) (n : nat) : list nat := rev (seq 0 n).

Definition args_shuffle : Splitter.args :=
  Splitter.mk_args ["run"] None (Some "deepmd") Samples.fraction_08 true 42
    false false 5.

Definition args_two : Splitter.args :=
  Splitter.mk_args ["run"; "gone"] None (Some "deepmd") Samples.fraction_08
    false 42 false false 5.

Definition store_run : Splitter.store :=
  Splitter.mk_store
    (fun path => negb (PyStr.contains "gone" path))
    (fun path =>
       if String.eqb path "run/deepmd/set.000/box.npy"
       then Some (Float_64, Persist.box Samples.dataset_10)
       else if String.eqb path "run/deepmd/set.000/coord.npy"
       then Some (Float_64, Persist.coord Samples.dataset_10)
       else if String.eqb path "run/deepmd/set.000/force.npy"
       then Some (Float_64, Persist.force Samples.dataset_10)
       else None)
    (fun path =>
       if String.eqb path "run/deepmd/set.000/energy.npy"
       then Some (Float_64, Persist.energy Samples.dataset_10)
       else None).

(** A directory without any file, and converter arguments with the
    zero-based-offset flag set and no step count for the one group. *)
Definition no_files : Converter.file_system := fun _ => None.

Definition args_unpaired : Converter.args :=
  Converter.mk_args ["run"] (Some "d") None [] 1 Samples.half true false 10.

(** Files with headers and no atom. *)
Definition forces_headers_only : list string :=
  [" ATOMIC FORCES in [a.u.]"; Samples.forces_header;
   " SUM OF ATOMIC FORCES   0.0 0.0 0.0 0.0"; Samples.forces_header].

Definition xyz_headers_only : list string :=
  ["       2"; " i =        1, time =        0.500, E =       -17.1";
   "  H  0.0 0.0"].

(** A file in which kind 1 is first listed as H, then as D. *)
Definition blocks_renamed : list FrameSpec.block :=
  [FrameSpec.mk_block Samples.forces_header
     ["      1      1      H       0.5 -0.25 1.0";
      "      2      2      O       1.5 2.5 -3.0"];
   FrameSpec.mk_block Samples.forces_header
     ["      1      1      D       0.5 -0.25 2.0";
      "      2      2      O       1.5 2.5 -4.0"]].

End Cases.

(* ===================================================================== *)
(** * Facts about the effect monad *)
(* ===================================================================== *)

Section MonadFacts.
Context {A B : Type}.

Lemma outcome_bind (m : M A) (f : A -> M B) :
  outcome (bind m f) = rbind (outcome m) (fun a => outcome (f a)).
Proof.
  destruct m as [l [a | e]]; simpl; [ | reflexivity ].
  destruct (f a); reflexivity.
Qed.

Lemma events_bind_ok (m : M A) (f : A -> M B) (a : A) :
  outcome m = Ok a -> events (bind m f) = events m ++ events (f a).
Proof.
  destruct m as [l [a' | e]]; simpl; intros H; [ | discriminate ].
  injection H as ->. destruct (f a); reflexivity.
Qed.

Lemma events_bind_raise (m : M A) (f : A -> M B) (e : exn) :
  outcome m = Raise e -> events (bind m f) = events m.
Proof.
  destruct m as [l [a' | e']]; simpl; intros H; [ discriminate | reflexivity ].
Qed.

Lemma events_bind (m : M A) (f : A -> M B) :
  events (bind m f)
  = events m ++ match outcome m with
                | Ok a => events (f a)
                | Raise _ => []
                end.
Proof.
  destruct m as [l [a | e]]; simpl; [ | rewrite app_nil_r; reflexivity ].
  destruct (f a); reflexivity.
Qed.

Lemma outcome_lift (r : result A) : outcome (lift r) = r.
Proof. reflexivity. Qed.

Lemma outcome_ret (a : A) : outcome (ret a) = Ok a.
Proof. reflexivity. Qed.

Lemma outcome_raise (e : exn) : outcome (@raise A e) = Raise e.
Proof. reflexivity. Qed.
End MonadFacts.

Lemma outcome_assert (c : bool) :
  outcome (assert c) = if c then Ok tt else Raise AssertionError.
Proof. destruct c; reflexivity. Qed.

Lemma outcome_print (m : msg) : outcome (print m) = Ok tt.
Proof. reflexivity. Qed.

Lemma outcome_emit (e : event) : outcome (emit e) = Ok tt.
Proof. reflexivity. Qed.

(* ===================================================================== *)
(** * Dictionaries *)
(* ===================================================================== *)

Section DictFacts.
Context {K V : Type}.
Variable eqb : K -> K -> bool.
Hypothesis eqb_spec : forall a b, reflect (a = b) (eqb a b).

Lemma dict_get_set_same (k : K) (v : V) (d : list (K * V)) :
  dict_get eqb k (dict_set eqb k v d) = Some v.
Proof.
  induction d as [ | [k' v'] d IH]; simpl.
  - destruct (eqb_spec k k); [ reflexivity | congruence ].
  - destruct (eqb_spec k k') as [E | E]; simpl.
    + destruct (eqb_spec k k'); [ reflexivity | congruence ].
    + destruct (eqb_spec k k'); [ congruence | exact IH ].
Qed.

Lemma dict_get_set_other (k k0 : K) (v : V) (d : list (K * V)) :
  k0 <> k -> dict_get eqb k0 (dict_set eqb k v d) = dict_get eqb k0 d.
Proof.
  intros Hne. induction d as [ | [k' v'] d IH]; simpl.
  - destruct (eqb_spec k0 k); [ congruence | reflexivity ].
  - destruct (eqb_spec k k') as [E | E]; simpl.
    + subst k'. destruct (eqb_spec k0 k); [ congruence | reflexivity ].
    + destruct (eqb_spec k0 k'); [ reflexivity | exact IH ].
Qed.

Lemma dict_set_keys (k : K) (v : V) (d : list (K * V)) :
  dict_keys (dict_set eqb k v d)
  = if dict_mem eqb k d then dict_keys d else dict_keys d ++ [k].
Proof.
  unfold dict_keys, dict_mem. induction d as [ | [k' v'] d IH]; simpl.
  - reflexivity.
  - destruct (eqb_spec k k') as [E | E]; simpl; [ reflexivity | ].
    rewrite IH. destruct (dict_get eqb k d); reflexivity.
Qed.

Lemma dict_get_none_keys (k : K) (d : list (K * V)) :
  dict_get eqb k d = None <-> ~ In k (dict_keys d).
Proof.
  unfold dict_keys. induction d as [ | [k' v'] d IH]; simpl.
  - tauto.
  - destruct (eqb_spec k k') as [E | E].
    + split; [ discriminate | ]. intros H. exfalso. apply H. left. congruence.
    + rewrite IH. split; [ intros H [H1 | H1]; [ congruence | tauto ] | tauto ].
Qed.

Lemma dict_get_in (k : K) (v : V) (d : list (K * V)) :
  NoDup (dict_keys d) -> In (k, v) d -> dict_get eqb k d = Some v.
Proof.
  unfold dict_keys. induction d as [ | [k' v'] d IH]; simpl; intros Hnd Hin.
  - contradiction.
  - inversion Hnd as [ | ? ? Hnotin Hnd']; subst.
    destruct Hin as [E | Hin].
    + injection E as -> ->. destruct (eqb_spec k k); [ reflexivity | congruence ].
    + destruct (eqb_spec k k') as [E | E].
      * subst k'. exfalso. apply Hnotin.
        change k with (fst (k, v)). apply in_map. exact Hin.
      * apply IH; assumption.
Qed.

Lemma dict_set_nodup (k : K) (v : V) (d : list (K * V)) :
  NoDup (dict_keys d) -> NoDup (dict_keys (dict_set eqb k v d)).
Proof.
  intros Hnd. rewrite dict_set_keys. unfold dict_mem.
  destruct (dict_get eqb k d) eqn:E; [ exact Hnd | ].
  apply dict_get_none_keys in E.
  apply NoDup_app; [ exact Hnd | constructor; [ intros [] | constructor ] | ].
  intros x Hx [<- | []]. exact (E Hx).
Qed.

End DictFacts.

(* ===================================================================== *)
(** * Slices *)
(* ===================================================================== *)

Module SliceFacts.
Import PyList.

Lemma slice_from {A} (l : list A) (k : Z) :
  0 <= k -> slice l (Some k) None = skipn (Z.to_nat k) l.
Proof.
  intros Hk. unfold slice, clamp.
  destruct (Z.ltb_spec k 0) as [ | _]; [ lia | ].
  set (n := Z.of_nat (length l)).
  destruct (Z.le_gt_cases k n) as [Hle | Hgt].
  - rewrite Z.min_l by exact Hle.
    apply firstn_all2. rewrite length_skipn. lia.
  - rewrite Z.min_r by lia. replace (n - n) with 0 by lia.
    rewrite (skipn_all2 (n := Z.to_nat k)) by lia. reflexivity.
Qed.

Lemma slice_to {A} (l : list A) (k : Z) :
  0 <= k -> slice l None (Some k) = firstn (Z.to_nat k) l.
Proof.
  intros Hk. unfold slice, clamp.
  destruct (Z.ltb_spec k 0) as [ | _]; [ lia | ].
  set (n := Z.of_nat (length l)). rewrite Z.sub_0_r. cbn [Z.to_nat skipn].
  destruct (Z.le_gt_cases k n) as [Hle | Hgt].
  - rewrite Z.min_l by exact Hle. reflexivity.
  - rewrite Z.min_r by lia.
    rewrite !firstn_all2 by lia. reflexivity.
Qed.

Lemma slice_empty {A} (l : list A) (i : Z) :
  slice l (Some i) (Some i) = [].
Proof.
  unfold slice. rewrite Z.sub_diag. reflexivity.
Qed.

Lemma slice_tail {A} (l : list A) : slice l (Some 1) None = tl l.
Proof.
  rewrite slice_from by lia. destruct l; reflexivity.
Qed.

(** The two halves of a split make up the list. *)
Lemma slice_partition {A} (l : list A) (k : Z) :
  0 <= k -> slice l None (Some k) ++ slice l (Some k) None = l.
Proof.
  intros Hk. rewrite slice_to, slice_from by exact Hk. apply firstn_skipn.
Qed.

End SliceFacts.

(* ===================================================================== *)
(** * Concatenation and persistence *)
(* ===================================================================== *)

Module ArrayFacts.

Lemma concatenate2_ok (a : ndarray2) (rest : list ndarray2) :
  Forall (fun b => ncols b = ncols a) rest ->
  Np.concatenate2 (a :: rest)
  = Ok (mk_ndarray2 (ncols a) (concat (map rows (a :: rest)))).
Proof.
  intros H. unfold Np.concatenate2.
  replace (forallb (fun b => (ncols b =? ncols a)%nat) rest) with true;
    [ reflexivity | ].
  symmetry. apply forallb_forall. intros b Hb.
  rewrite Forall_forall in H. apply Nat.eqb_eq. apply H. exact Hb.
Qed.

Lemma length_concat_tails {A} (l : list (list A)) :
  Forall (fun r => (1 <= length r)%nat) l ->
  Z.of_nat (length (concat (map (@tl A) l)))
  = fold_right (fun r acc => Z.of_nat (length r) - 1 + acc) 0 l.
Proof.
  induction 1 as [ | r l Hr _ IH]; [ reflexivity | ].
  cbn [map concat fold_right]. rewrite length_app, Nat2Z.inj_add, IH.
  destruct r as [ | x r]; [ simpl in Hr; lia | ].
  cbn [tl length]. rewrite Nat2Z.inj_succ. lia.
Qed.

Lemma save_chunk_empty (root : string) (d : Persist.dataset) (i : Z) :
  Persist.save_chunk root d 0 i = (ConverterSpec.empty_chunk root d i, Ok tt).
Proof.
  unfold Persist.save_chunk, ConverterSpec.empty_chunk, Np.slice2, Np.astype_f32_2,
    Np.astype_f32_1.
  rewrite !Z.mul_0_r, !SliceFacts.slice_empty. reflexivity.
Qed.

Lemma save_chunks_empty (root : string) (d : Persist.dataset) (l : list Z) :
  for_each (fun i => Persist.save_chunk root d 0 i ;; ret tt) l
  = (flat_map (ConverterSpec.empty_chunk root d) l, Ok tt).
Proof.
  induction l as [ | i l IH]; [ reflexivity | ].
  cbn [for_each flat_map]. rewrite save_chunk_empty, IH. reflexivity.
Qed.

End ArrayFacts.

(* ===================================================================== *)
(** * The scalar series reader *)
(* ===================================================================== *)

Module SeriesFacts.
Import Utils SeriesSpec.

Lemma get_set_same (k : string) (v : list Float64.float) (d : series) :
  dict_get String.eqb k (dict_set String.eqb k v d) = Some v.
Proof. apply dict_get_set_same, String.eqb_spec. Qed.

Lemma get_set_other (k k0 : string) (v : list Float64.float) (d : series) :
  k0 <> k ->
  dict_get String.eqb k0 (dict_set String.eqb k v d) = dict_get String.eqb k0 d.
Proof. apply dict_get_set_other, String.eqb_spec. Qed.

Lemma store_value_outcome (col value : string) (data : series) :
  outcome (store_value col value data) = Ok (value_effect col value data).
Proof.
  unfold store_value, value_effect, col_of, dict_mem.
  destruct (dict_get String.eqb col data) as [l | ] eqn:Hget.
  - destruct (PyStr.float_of_string value); [ | reflexivity ].
    rewrite Hget. reflexivity.
  - destruct (PyStr.float_of_string value); [ | reflexivity ].
    rewrite get_set_same. reflexivity.
Qed.

Lemma store_values_outcome (cs : list string) :
  forall (vs : list string) (data : series),
    length vs = length cs ->
    outcome (store_values cs vs data) = Ok (values_effect cs vs data).
Proof.
  induction cs as [ | c cs IH]; intros [ | v vs] data Hlen;
    cbn [store_values values_effect length] in *;
    try discriminate; try reflexivity.
  rewrite outcome_bind, store_value_outcome. cbn [rbind].
  apply IH. lia.
Qed.

Lemma read_row_outcome (cols : list string) (data : series) (row : string) :
  outcome (read_row (Some cols) data row) = Ok (row_effect cols data row).
Proof.
  unfold read_row, row_effect, matches, row_values.
  destruct (Nat.eqb_spec (length (PyStr.split (PyStr.strip row))) (length cols))
    as [E | E]; cbn [negb].
  - apply store_values_outcome. exact E.
  - reflexivity.
Qed.

(** With a schema, the row loop never raises. *)
Lemma read_rows_outcome (cols : list string) (rows : list string) :
  forall data : series,
    outcome (read_rows (Some cols) data rows) = Ok (rows_effect cols data rows).
Proof.
  induction rows as [ | row rows IH]; intros data; cbn [read_rows];
    [ reflexivity | ].
  rewrite outcome_bind, read_row_outcome. cbn [rbind]. apply IH.
Qed.

(** ** The columns after one token, one row, all the rows *)

Lemma value_effect_get (c v c' : string) (data : series) :
  dict_get String.eqb c' (value_effect c v data)
  = if String.eqb c' c then Some (col_of c data ++ converted v)
    else dict_get String.eqb c' data.
Proof.
  unfold value_effect, converted, col_of, dict_mem.
  destruct (String.eqb_spec c' c) as [-> | Hne].
  - destruct (dict_get String.eqb c data) as [l | ] eqn:Hget.
    + destruct (PyStr.float_of_string v).
      * rewrite get_set_same, Hget. reflexivity.
      * rewrite Hget, app_nil_r. reflexivity.
    + destruct (PyStr.float_of_string v); rewrite !get_set_same; reflexivity.
  - destruct (dict_get String.eqb c data) as [l | ] eqn:Hget;
      destruct (PyStr.float_of_string v);
      rewrite ?get_set_other by exact Hne; reflexivity.
Qed.

Lemma value_effect_keys (c v : string) (data : series) :
  NoDup (dict_keys data) ->
  NoDup (dict_keys (value_effect c v data))
  /\ incl (dict_keys (value_effect c v data)) (c :: dict_keys data).
Proof.
  intros Hnd. unfold value_effect.
  set (data1 := if dict_mem String.eqb c data then data
                else dict_set String.eqb c [] data).
  assert (H1 : NoDup (dict_keys data1)
               /\ incl (dict_keys data1) (c :: dict_keys data)).
  { subst data1. destruct (dict_mem String.eqb c data) eqn:Hm.
    - split; [ exact Hnd | apply incl_tl, incl_refl ].
    - split; [ apply dict_set_nodup; [ apply String.eqb_spec | exact Hnd ] | ].
      rewrite (dict_set_keys String.eqb String.eqb_spec), Hm.
      intros x Hx. apply in_app_or in Hx. destruct Hx as [Hx | [<- | []]];
        [ right; exact Hx | left; reflexivity ]. }
  assert (Hmem : dict_mem String.eqb c data1 = true).
  { subst data1. unfold dict_mem.
    destruct (dict_get String.eqb c data) eqn:Hg; [ rewrite Hg; reflexivity | ].
    rewrite get_set_same. reflexivity. }
  destruct (PyStr.float_of_string v); [ | exact H1 ].
  destruct H1 as [Hnd1 Hincl1]. split.
  - apply dict_set_nodup; [ apply String.eqb_spec | exact Hnd1 ].
  - rewrite (dict_set_keys String.eqb String.eqb_spec), Hmem. exact Hincl1.
Qed.

Lemma values_effect_get (cs : list string) :
  forall (vs : list string) (data : series) (c' : string),
    NoDup cs ->
    dict_get String.eqb c' (values_effect cs vs data)
    = match dict_get String.eqb c' (combine cs vs) with
      | Some v => Some (col_of c' data ++ converted v)
      | None => dict_get String.eqb c' data
      end.
Proof.
  induction cs as [ | c cs IH]; intros [ | v vs] data c' Hnd; simpl;
    try reflexivity.
  inversion Hnd as [ | ? ? Hnotin Hnd']; subst.
  rewrite IH by exact Hnd'. unfold col_of at 1.
  rewrite !value_effect_get.
  destruct (String.eqb_spec c' c) as [-> | Hne].
  - destruct (dict_get String.eqb c (combine cs vs)) as [v' | ] eqn:Hg;
      [ | reflexivity ].
    exfalso. apply Hnotin.
    assert (Hin : In c (dict_keys (combine cs vs))).
    { destruct (in_dec string_dec c (dict_keys (combine cs vs))) as [H | H];
        [ exact H | ].
      apply (dict_get_none_keys String.eqb String.eqb_spec) in H. congruence. }
    unfold dict_keys in Hin. apply in_map_iff in Hin.
    destruct Hin as [[k w] [Hk Hin]]. simpl in Hk. subst k.
    eapply in_combine_l. exact Hin.
  - reflexivity.
Qed.

Lemma values_effect_keys (cs : list string) :
  forall (vs : list string) (data : series),
    NoDup (dict_keys data) ->
    NoDup (dict_keys (values_effect cs vs data))
    /\ incl (dict_keys (values_effect cs vs data)) (cs ++ dict_keys data).
Proof.
  induction cs as [ | c cs IH]; intros [ | v vs] data Hnd; simpl;
    try (split; [ exact Hnd | ]);
    try (intros x Hx; try right; try apply in_or_app; try right; exact Hx).
  destruct (value_effect_keys c v data Hnd) as [Hnd1 Hincl1].
  destruct (IH vs _ Hnd1) as [Hnd2 Hincl2]. split; [ exact Hnd2 | ].
  intros x Hx. apply Hincl2 in Hx. apply in_app_or in Hx.
  destruct Hx as [Hx | Hx].
  - right. apply in_or_app. left. exact Hx.
  - apply Hincl1 in Hx. destruct Hx as [<- | Hx];
      [ left; reflexivity | right; apply in_or_app; right; exact Hx ].
Qed.

Lemma row_effect_col (cols : list string) (data : series) (row name : string) :
  NoDup cols ->
  length (col_of name (row_effect cols data row))
  = (length (col_of name data)
     + if contributes cols name row then 1 else 0)%nat.
Proof.
  intros Hnd. unfold row_effect, contributes, token_of.
  destruct (matches cols row); cbn [andb]; [ | lia ].
  unfold col_of at 1. rewrite values_effect_get by exact Hnd.
  destruct (dict_get String.eqb name (combine cols (row_values row)))
    as [tok | ].
  - rewrite length_app. unfold converted, converts.
    destruct (PyStr.float_of_string tok); reflexivity.
  - fold (col_of name data). lia.
Qed.

Lemma row_effect_keys (cols : list string) (data : series) (row : string) :
  NoDup (dict_keys data) -> incl (dict_keys data) cols ->
  NoDup (dict_keys (row_effect cols data row))
  /\ incl (dict_keys (row_effect cols data row)) cols.
Proof.
  intros Hnd Hincl. unfold row_effect.
  destruct (matches cols row); [ | split; assumption ].
  destruct (values_effect_keys cols (row_values row) data Hnd) as [H1 H2].
  split; [ exact H1 | ].
  intros x Hx. apply H2 in Hx. apply in_app_or in Hx.
  destruct Hx as [Hx | Hx]; [ exact Hx | apply Hincl; exact Hx ].
Qed.

Lemma rows_effect_col (cols : list string) (name : string) (rows : list string) :
  forall data : series,
    NoDup cols ->
    length (col_of name (rows_effect cols data rows))
    = (length (col_of name data) + converted_rows cols name rows)%nat.
Proof.
  unfold rows_effect, converted_rows.
  induction rows as [ | row rows IH]; intros data Hnd; simpl; [ lia | ].
  rewrite IH by exact Hnd. rewrite row_effect_col by exact Hnd.
  destruct (contributes cols name row); simpl; lia.
Qed.

Lemma rows_effect_keys (cols : list string) (rows : list string) :
  forall data : series,
    NoDup (dict_keys data) -> incl (dict_keys data) cols ->
    NoDup (dict_keys (rows_effect cols data rows))
    /\ incl (dict_keys (rows_effect cols data rows)) cols.
Proof.
  unfold rows_effect.
  induction rows as [ | row rows IH]; intros data Hnd Hincl; simpl.
  - split; assumption.
  - destruct (row_effect_keys cols data row Hnd Hincl) as [H1 H2].
    apply IH; assumption.
Qed.

(** When every token of every matched row converts, a column of the schema
    gets one value per matched row. *)
Lemma token_of_some (cols : list string) (row name : string) :
  In name cols -> matches cols row = true ->
  exists tok, token_of cols row name = Some tok /\ In tok (row_values row).
Proof.
  unfold matches, token_of. intros Hin Hm.
  apply Nat.eqb_eq in Hm. revert Hm Hin.
  generalize (row_values row) as vs.
  induction cols as [ | c cols IH]; intros [ | v vs] Hlen Hin; simpl in *;
    try contradiction; try discriminate.
  destruct (String.eqb_spec name c) as [-> | Hne].
  - exists v. split; [ reflexivity | left; reflexivity ].
  - destruct Hin as [E | Hin]; [ congruence | ].
    destruct (IH vs ltac:(lia) Hin) as [tok [H1 H2]].
    exists tok. split; [ exact H1 | right; exact H2 ].
Qed.

Lemma converted_rows_all (cols : list string) (name : string)
      (rows : list string) :
  In name cols ->
  (forall row tok, In row rows -> matches cols row = true ->
                   In tok (row_values row) -> converts tok = true) ->
  converted_rows cols name rows = matched_rows cols rows.
Proof.
  intros Hin Hall. unfold converted_rows, matched_rows. f_equal.
  apply filter_ext_in. intros row Hrow. unfold contributes.
  destruct (matches cols row) eqn:Hm; [ | reflexivity ]. cbn [andb].
  destruct (token_of_some cols row name Hin Hm) as [tok [H1 H2]].
  rewrite H1. eapply Hall; eassumption.
Qed.

Lemma converted_rows_le (cols : list string) (name : string)
      (rows : list string) :
  (converted_rows cols name rows <= matched_rows cols rows)%nat.
Proof.
  unfold converted_rows, matched_rows.
  induction rows as [ | row rows IH]; simpl; [ lia | ].
  unfold contributes at 1.
  destruct (matches cols row); cbn [andb]; [ | exact IH ].
  destruct (match token_of cols row name with
            | Some tok => converts tok
            | None => false
            end); simpl; lia.
Qed.

(** ** The whole function *)

Lemma schema_nodup (type : string) : NoDup (schema type).
Proof.
  unfold schema.
  destruct (String.eqb type "cell");
    repeat (constructor; [ simpl; intuition discriminate | ]); constructor.
Qed.

(** A call that returns has read the rows after the header with the schema
    of its type. *)
Lemma read_cell_or_energy_data_returns
      (file : list string) (nsteps STDPRINT : Z) (TIMESTEP : Float64.float)
      (type : string) (data : series) :
  type = "cell" \/ type = "energy" ->
  outcome (read_cell_or_energy_data file nsteps STDPRINT TIMESTEP None type)
  = Ok data ->
  exists header rows,
    file = header :: rows /\ data = rows_effect (schema type) [] rows.
Proof.
  intros Htype H. unfold read_cell_or_energy_data in H.
  assert (Hcols : default_columns None type = ret (Some (schema type))).
  { unfold default_columns, schema. destruct Htype as [-> | ->]; reflexivity. }
  rewrite Hcols in H. rewrite outcome_bind in H. cbn [outcome ret snd rbind] in H.
  destruct file as [ | header rows]; [ discriminate | ].
  exists header, rows. split; [ reflexivity | ].
  rewrite outcome_bind, read_rows_outcome in H. cbn [rbind] in H.
  rewrite outcome_bind in H.
  destruct (outcome (diagnostic type nsteps TIMESTEP _)); cbn [rbind] in H;
    [ | discriminate ].
  injection H as <-. reflexivity.
Qed.

End SeriesFacts.

(* ===================================================================== *)
(** * The events of the readers and of the first loading steps *)
(* ===================================================================== *)

Module TraceFacts.
Import Utils ConverterSpec.

Lemma forall_events_bind {A B} (P : event -> Prop) (m : M A) (f : A -> M B) :
  Forall P (events m) ->
  (forall a, outcome m = Ok a -> Forall P (events (f a))) ->
  Forall P (events (bind m f)).
Proof.
  intros Hm Hf. rewrite events_bind. apply Forall_app. split; [ exact Hm | ].
  destruct (outcome m) as [a | e]; [ apply Hf; reflexivity | constructor ].
Qed.

Lemma forall_events_lift {A} (P : event -> Prop) (r : result A) :
  Forall P (events (lift r)).
Proof. constructor. Qed.

Lemma forall_events_print (P : event -> Prop) (m : msg) :
  P (Print m) -> Forall P (events (print m)).
Proof. intros H. repeat constructor. exact H. Qed.

Ltac report_step :=
  first
    [ apply forall_events_lift
    | apply forall_events_print; exact I
    | apply forall_events_bind; [ | intros ? _ ]
    | constructor ].

Lemma report_store_value (col value : string) (data : series) :
  Forall is_report (events (store_value col value data)).
Proof.
  unfold store_value.
  destruct (PyStr.float_of_string value).
  - destruct (dict_get String.eqb col _); constructor.
  - repeat report_step.
Qed.

Lemma report_store_values (cs : list string) :
  forall (vs : list string) (data : series),
    Forall is_report (events (store_values cs vs data)).
Proof.
  induction cs as [ | c cs IH]; intros [ | v vs] data; cbn [store_values];
    try (constructor; fail).
  apply forall_events_bind; [ apply report_store_value | intros ? _; apply IH ].
Qed.

Lemma report_read_row (columns : option (list string)) (data : series)
      (row : string) :
  Forall is_report (events (read_row columns data row)).
Proof.
  unfold read_row. destruct columns as [cols | ]; [ | constructor ].
  destruct (negb _).
  - repeat report_step.
  - apply report_store_values.
Qed.

Lemma report_read_rows (columns : option (list string)) (rows : list string) :
  forall data : series, Forall is_report (events (read_rows columns data rows)).
Proof.
  induction rows as [ | row rows IH]; intros data; cbn [read_rows];
    [ constructor | ].
  apply forall_events_bind; [ apply report_read_row | intros ? _; apply IH ].
Qed.

Lemma report_diagnostic (type : string) (nsteps : Z) (TIMESTEP : Float64.float)
      (data : series) :
  Forall is_report (events (diagnostic type nsteps TIMESTEP data)).
Proof.
  unfold diagnostic. apply forall_events_bind.
  - unfold step_time_names.
    destruct (String.eqb type "cell"); [ constructor | ].
    destruct (String.eqb type "energy"); constructor.
  - intros [step time] _.
    destruct (dict_get String.eqb time data); repeat report_step.
Qed.

Lemma report_read_cell_or_energy_data
      (file : list string) (nsteps STDPRINT : Z) (TIMESTEP : Float64.float)
      (columns : option (list string)) (type : string) :
  Forall is_report
    (events (read_cell_or_energy_data file nsteps STDPRINT TIMESTEP columns type)).
Proof.
  unfold read_cell_or_energy_data. apply forall_events_bind.
  - unfold default_columns. destruct columns; [ constructor | ].
    destruct (String.eqb type "cell"); [ constructor | ].
    destruct (String.eqb type "energy"); [ constructor | ].
    repeat report_step.
  - intros columns1 _. destruct file as [ | header rows]; [ constructor | ].
    apply forall_events_bind; [ apply report_read_rows | intros ? _ ].
    apply forall_events_bind; [ apply report_diagnostic | intros ? _ ].
    constructor.
Qed.

Lemma is_report_before (file : string) (e : event) :
  is_report e -> before_coordinates file e.
Proof.
  destruct e as [m | | | | ]; try contradiction.
  destruct m; simpl; tauto.
Qed.

Lemma before_open_read (fs : Converter.file_system) (file path : string) :
  path = (file ++ "-Cell.cell")%string \/ path = (file ++ "-Energy.en")%string ->
  Forall (before_coordinates file) (events (Converter.open_read fs path)).
Proof.
  intros H. unfold Converter.open_read. apply forall_events_bind.
  - constructor; [ exact H | constructor ].
  - intros _ _. destruct (fs path); constructor.
Qed.

Lemma before_read_cell_or_energy_data
      (f : string) (file : list string) (nsteps STDPRINT : Z)
      (TIMESTEP : Float64.float) (type : string) :
  Forall (before_coordinates f)
    (events (read_cell_or_energy_data file nsteps STDPRINT TIMESTEP None type)).
Proof.
  eapply Forall_impl; [ apply is_report_before | ].
  apply report_read_cell_or_energy_data.
Qed.

Lemma before_load_scalars (fs : Converter.file_system) (a : Converter.args)
      (file : string) (nsteps : Z) :
  Forall (before_coordinates file)
         (events (Converter.load_scalars fs a file nsteps)).
Proof.
  unfold Converter.load_scalars.
  apply forall_events_bind;
    [ constructor; [ reflexivity | constructor ] | intros _ _ ].
  apply forall_events_bind;
    [ constructor; [ left; reflexivity | constructor ] | intros _ _ ].
  apply forall_events_bind;
    [ apply before_open_read; left; reflexivity | intros cell_lines _ ].
  apply forall_events_bind;
    [ apply before_read_cell_or_energy_data | intros cell_series _ ].
  apply forall_events_bind; [ constructor | intros cell _ ].
  apply forall_events_bind;
    [ constructor; [ right; reflexivity | constructor ] | intros _ _ ].
  apply forall_events_bind;
    [ apply before_open_read; right; reflexivity | intros energy_lines _ ].
  apply forall_events_bind;
    [ apply before_read_cell_or_energy_data | intros energy_series _ ].
  apply forall_events_bind; [ constructor | intros energy _ ].
  constructor.
Qed.

(** With [ZERO_DATA] set, a pass of the loop stops at line 62. *)
Lemma load_group_zero_data (fs : Converter.file_system) (a : Converter.args)
      (file : string) (nsteps : Z) :
  Converter.ZERO_DATA a = true ->
  Converter.load_group fs a file nsteps
  = (events (Converter.load_scalars fs a file nsteps),
     match outcome (Converter.load_scalars fs a file nsteps) with
     | Ok _ => Raise TypeError
     | Raise e => Raise e
     end).
Proof.
  intros Hz. unfold Converter.load_group. rewrite Hz.
  destruct (Converter.load_scalars fs a file nsteps) as [l [[cell energy] | e]];
    cbn [bind raise events outcome fst snd]; [ | reflexivity ].
  rewrite app_nil_r. reflexivity.
Qed.

Lemma main_zero_data (fs : Converter.file_system) (a : Converter.args)
      (file : string) (files : list string) (n : Z) (ns : list Z) :
  Converter.ZERO_DATA a = true ->
  Converter.input_files a = file :: files ->
  Converter.NSTEPS a = n :: ns ->
  length (Converter.FILES a) = length (Converter.NSTEPS a) ->
  Converter.main fs a
  = (events (Converter.load_scalars fs a file n),
     match outcome (Converter.load_scalars fs a file n) with
     | Ok _ => Raise TypeError
     | Raise e => Raise e
     end).
Proof.
  intros Hz Hfiles Hn Hlen. unfold Converter.main.
  rewrite Hlen, Nat.eqb_refl, Hfiles, Hn.
  cbn [combine Converter.load_groups].
  rewrite load_group_zero_data by exact Hz.
  destruct (Converter.load_scalars fs a file n) as [l [x | e]];
    cbn [bind assert ret events outcome fst snd app]; reflexivity.
Qed.

End TraceFacts.

(* ===================================================================== *)
(** * Printing and reading back an integer *)
(* ===================================================================== *)

Module DecimalFacts.
Import PyStr TextSpec.

Lemma strip_no_space (s : string) : no_space s = true -> strip s = s.
Proof.
  intros H. unfold strip.
  assert (Hl : lstrip s = s).
  { destruct s as [ | c s']; [ reflexivity | ].
    simpl in H. apply andb_prop in H. destruct H as [Hc _].
    cbn [lstrip]. destruct (is_space c); [ discriminate | reflexivity ]. }
  rewrite Hl. clear Hl.
  induction s as [ | c s' IH]; [ reflexivity | ].
  simpl in H. apply andb_prop in H. destruct H as [Hc Hs].
  cbn [rstrip]. rewrite (IH Hs).
  destruct (is_space c); [ discriminate | reflexivity ].
Qed.

Lemma digit_run_digit (c : ascii) (s : string) (acc : N) (cnt : nat) (b : bool) :
  is_digit c = true ->
  digit_run (String c s) acc cnt b
  = digit_run s (10 * acc + digit_val c)%N (S cnt) true.
Proof. intros H. cbn [digit_run]. rewrite H. reflexivity. Qed.

Ltac eval_digit :=
  match goal with
  | |- context [digit_val ?c] =>
      let v := eval vm_compute in (digit_val c) in
      change (digit_val c) with v
  end.

Lemma digit_run_acc (d : Decimal.uint) :
  forall (p : positive) (cnt : nat) (b : bool),
    digit_run (NilEmpty.string_of_uint d) (Npos p) cnt b
    = (Npos (Pos.of_uint_acc d p), (cnt + Decimal.nb_digits d)%nat, "").
Proof.
  induction d; intros p cnt b;
    cbn [NilEmpty.string_of_uint Pos.of_uint_acc Decimal.nb_digits];
    try (rewrite Nat.add_0_r; reflexivity);
    rewrite digit_run_digit by reflexivity; eval_digit;
    match goal with
    | |- digit_run _ ?a _ _ = (Npos (Pos.of_uint_acc _ ?q), _, _) =>
        replace a with (Npos q) by lia
    end;
    rewrite IHd; f_equal; f_equal; lia.
Qed.

Lemma digit_run_uint (d : Decimal.uint) :
  forall (cnt : nat) (b : bool),
    digit_run (NilEmpty.string_of_uint d) 0%N cnt b
    = (Pos.of_uint d, (cnt + Decimal.nb_digits d)%nat, "").
Proof.
  induction d; intros cnt b;
    cbn [NilEmpty.string_of_uint Pos.of_uint Decimal.nb_digits];
    try (rewrite Nat.add_0_r; reflexivity);
    rewrite digit_run_digit by reflexivity; eval_digit;
    cbn [N.mul N.add];
    rewrite ?IHd, ?digit_run_acc; f_equal; f_equal; lia.
Qed.

Lemma uint_string_shape (d : Decimal.uint) :
  d <> Decimal.Nil ->
  no_space (NilEmpty.string_of_uint d) = true
  /\ sign (NilEmpty.string_of_uint d) = (false, NilEmpty.string_of_uint d)
  /\ (0 < Decimal.nb_digits d)%nat.
Proof.
  intros Hd.
  assert (Hns : forall d', no_space (NilEmpty.string_of_uint d') = true)
    by (induction d'; cbn [NilEmpty.string_of_uint no_space]; rewrite ?IHd';
        reflexivity).
  split; [ apply Hns | ].
  destruct d; try congruence; cbn [NilEmpty.string_of_uint Decimal.nb_digits];
    (split; [ reflexivity | lia ]).
Qed.

Lemma int_of_uint_string (neg : bool) (d : Decimal.uint) :
  d <> Decimal.Nil ->
  (let '(v, cnt, rest) := digits (NilEmpty.string_of_uint d) in
   if (0 <? cnt)%nat && is_empty rest
   then Ok (cond_Zopp neg (Z.of_N v))
   else Raise ValueError)
  = Ok (cond_Zopp neg (Z.of_N (Pos.of_uint d))).
Proof.
  intros Hd. unfold digits. rewrite digit_run_uint.
  destruct (uint_string_shape d Hd) as (_ & _ & Hn).
  cbn [is_empty Nat.add]. destruct (Nat.ltb_spec 0 (Decimal.nb_digits d));
    [ reflexivity | lia ].
Qed.

(** Reading back what [str] prints gives the integer. *)
Lemma int_of_string_of_int (z : Z) :
  int_of_string (string_of_int z) = Ok z.
Proof.
  unfold string_of_int, int_of_string.
  destruct z as [ | p | p]; [ reflexivity | | ].
  - cbn [Z.to_int NilZero.string_of_int NilZero.string_of_uint].
    pose proof (DecimalPos.Unsigned.to_uint_nonnil p) as Hd.
    destruct (uint_string_shape _ Hd) as (Hns & Hsign & _).
    assert (Hs : NilZero.string_of_uint (Pos.to_uint p)
                 = NilEmpty.string_of_uint (Pos.to_uint p))
      by (unfold NilZero.string_of_uint; destruct (Pos.to_uint p);
          [ congruence | reflexivity .. ]).
    rewrite Hs, strip_no_space, Hsign by exact Hns.
    rewrite int_of_uint_string by exact Hd.
    rewrite DecimalPos.Unsigned.of_to. reflexivity.
  - cbn [Z.to_int NilZero.string_of_int].
    pose proof (DecimalPos.Unsigned.to_uint_nonnil p) as Hd.
    destruct (uint_string_shape _ Hd) as (Hns & _ & _).
    assert (Hs : NilZero.string_of_uint (Pos.to_uint p)
                 = NilEmpty.string_of_uint (Pos.to_uint p))
      by (unfold NilZero.string_of_uint; destruct (Pos.to_uint p);
          [ congruence | reflexivity .. ]).
    rewrite Hs, strip_no_space by (cbn [no_space]; rewrite Hns; reflexivity).
    cbn [sign].
    rewrite int_of_uint_string by exact Hd.
    rewrite DecimalPos.Unsigned.of_to. reflexivity.
Qed.

End DecimalFacts.

(* ===================================================================== *)
(** * Rounding to nearest stays below a representable integer *)
(* ===================================================================== *)

Module FloatFacts.
Import FloatSpec.

Lemma digits_bounds (p : positive) :
  2 ^ (Zpos (digits2_pos p) - 1) <= Zpos p < 2 ^ Zpos (digits2_pos p).
Proof.
  induction p as [p IH | p IH | ]; cbn [digits2_pos];
    rewrite ?Pos2Z.inj_succ.
  - replace (Z.succ (Zpos (digits2_pos p)) - 1) with (Z.succ (Zpos (digits2_pos p) - 1)) by lia.
    rewrite !Z.pow_succ_r by lia. lia.
  - replace (Z.succ (Zpos (digits2_pos p)) - 1) with (Z.succ (Zpos (digits2_pos p) - 1)) by lia.
    rewrite !Z.pow_succ_r by lia. lia.
  - cbn. lia.
Qed.

Lemma iter_pos_invariant {A} (f : A -> A) (Inv : Z -> A -> Prop) :
  (forall k x, 0 <= k -> Inv k x -> Inv (k + 1) (f x)) ->
  forall (n : positive) (k : Z) (x : A),
    0 <= k -> Inv k x -> Inv (k + Zpos n) (iter_pos f n x).
Proof.
  intros Hstep. induction n as [n IH | n IH | ]; intros k x Hk Hx; cbn [iter_pos].
  - replace (k + Zpos n~1) with (k + 1 + Zpos n + Zpos n) by lia.
    apply IH; [ lia | ]. apply IH; [ lia | ]. apply Hstep; assumption.
  - replace (k + Zpos n~0) with (k + Zpos n + Zpos n) by lia.
    apply IH; [ lia | ]. apply IH; assumption.
  - apply Hstep; assumption.
Qed.

Lemma shr_1_nonneg (m : Z) (r s : bool) :
  0 <= m ->
  shr_1 (Build_shr_record m r s) = Build_shr_record (m / 2) (Z.odd m) (r || s).
Proof.
  intros Hm. rewrite <- Z.div2_div.
  destruct m as [ | [p | p | ] | p]; try reflexivity. lia.
Qed.

Lemma shr_inv_step (M k : Z) (mrs : shr_record) :
  0 <= M -> 0 <= k -> shr_inv M k mrs -> shr_inv M (k + 1) (shr_1 mrs).
Proof.
  intros HM Hk [Hm Hflags]. destruct mrs as [m r s]. cbn [shr_m shr_r shr_s] in *.
  assert (Hp : 0 < 2 ^ k) by (apply Z.pow_pos_nonneg; lia).
  assert (Hm0 : 0 <= m) by (subst m; apply Z.div_pos; lia).
  rewrite shr_1_nonneg by exact Hm0. unfold shr_inv. cbn [shr_m shr_r shr_s].
  rewrite Z.pow_add_r, Z.pow_1_r by lia.
  split.
  - subst m. rewrite Z.div_div by lia. reflexivity.
  - intros Hmod.
    assert (Hdiv : exists c, M = c * (2 ^ k * 2)).
    { exists (M / (2 ^ k * 2)).
      rewrite (Z.div_mod M (2 ^ k * 2)) at 1 by lia. lia. }
    destruct Hdiv as [c Hc].
    assert (Hmodk : M mod 2 ^ k = 0).
    { rewrite Hc. replace (c * (2 ^ k * 2)) with (c * 2 * 2 ^ k) by ring.
      apply Z.mod_mul. lia. }
    destruct (Hflags Hmodk) as [-> ->].
    assert (Hmc : m = 2 * c).
    { subst m. rewrite Hc. replace (c * (2 ^ k * 2)) with (2 * c * 2 ^ k) by ring.
      apply Z.div_mul. lia. }
    rewrite Hmc, Z.odd_mul. split; reflexivity.
Qed.

Lemma shr_spec (M E : Z) (n : positive) :
  0 <= M ->
  let '(mrs, e) := shr (Build_shr_record M false false) E (Zpos n) in
  e = E + Zpos n /\ shr_inv M (Zpos n) mrs.
Proof.
  intros HM. cbn [shr]. split; [ reflexivity | ].
  apply (iter_pos_invariant shr_1 (shr_inv M)
           (fun k x Hk Hx => shr_inv_step M k x HM Hk Hx) n 0).
  - lia.
  - split; cbn [shr_m shr_r shr_s].
    + rewrite Z.pow_0_r, Z.div_1_r. reflexivity.
    + intros _. split; reflexivity.
Qed.

Lemma round_nearest_even_bounds (mrs : shr_record) :
  shr_m mrs <= round_nearest_even (shr_m mrs) (loc_of_shr_record mrs)
               <= shr_m mrs + 1
  /\ (shr_r mrs = false -> shr_s mrs = false ->
      round_nearest_even (shr_m mrs) (loc_of_shr_record mrs) = shr_m mrs).
Proof.
  destruct mrs as [m [ | ] [ | ]]; cbn [shr_m shr_r shr_s loc_of_shr_record round_nearest_even];
    try destruct (Z.even m); split; try lia; try reflexivity; intros; discriminate.
Qed.

Lemma shr_exact (M E : Z) (n : positive) (mrs : shr_record) (e : Z) :
  0 <= M ->
  shr (Build_shr_record M false false) E (Zpos n) = (mrs, e) ->
  e = E + Zpos n /\ shr_inv M (Zpos n) mrs.
Proof.
  intros HM H. pose proof (shr_spec M E n HM) as Hs. rewrite H in Hs. exact Hs.
Qed.

Lemma fexp_eq (e : Z) : fexp 53 1024 e = Z.max (e - 53) (-1074).
Proof. reflexivity. Qed.

Lemma pow2_pos (k : Z) : 0 <= k -> 0 < 2 ^ k.
Proof. intros; apply Z.pow_pos_nonneg; lia. Qed.

Lemma pow2_split (a b : Z) : 0 <= a -> 0 <= b -> 2 ^ (a + b) = 2 ^ a * 2 ^ b.
Proof. intros; apply Z.pow_add_r; assumption. Qed.

(** First shift and rounding. *)
Lemma first_round_bound (B E K : Z) (p : positive) (mrs : shr_record) (e' : Z) :
  1074 <= B -> 0 <= E + B -> 0 <= K < 2 ^ 53 ->
  Zpos p * 2 ^ (E + B) <= K * 2 ^ B ->
  shr_fexp 53 1024 (Zpos p) E loc_Exact = (mrs, e') ->
  let m2 := round_nearest_even (shr_m mrs) (loc_of_shr_record mrs) in
  0 <= m2 /\ E <= e' /\ m2 * 2 ^ (e' + B) <= K * 2 ^ B.
Proof.
  intros HB HE HK Hle Hshr. cbv zeta.
  unfold shr_fexp in Hshr. cbn [shr_record_of_loc Zdigits2] in Hshr.
  rewrite fexp_eq in Hshr.
  pose proof (digits_bounds p) as Hd.
  set (d := Zpos (digits2_pos p)) in *.
  assert (Hdpos : 1 <= d) by (subst d; lia).
  assert (HpE : 0 < 2 ^ (E + B)) by (apply pow2_pos; lia).
  assert (HpB : 0 < 2 ^ B) by (apply pow2_pos; lia).
  assert (HK1 : 1 <= K) by nia.
  destruct (Z.max (d + E - 53) (-1074) - E) as [ | n | n] eqn:Hs.
  - (* no shift *)
    cbn [shr] in Hshr. injection Hshr as <- <-.
    cbn [shr_m loc_of_shr_record round_nearest_even]. repeat split; lia.
  - (* shift by [Zpos n] *)
    apply shr_exact in Hshr; [ | lia ]. destruct Hshr as [-> [Hm Hflags]].
    pose proof (round_nearest_even_bounds mrs) as [Hrne Hexact].
    set (m2 := round_nearest_even (shr_m mrs) (loc_of_shr_record mrs)) in *.
    set (s := Zpos n) in *.
    assert (Hs0 : 0 < s) by (subst s; lia).
    assert (Hps : 0 < 2 ^ s) by (apply pow2_pos; lia).
    assert (Hm1 : 0 <= Zpos p / 2 ^ s) by (apply Z.div_pos; lia).
    split; [ lia | ]. split; [ lia | ].
    destruct (Z.le_gt_cases (d + E - 53) (-1074)) as [Hsub | Hnorm].
    + (* subnormal range *)
      rewrite Z.max_r in Hs by lia.
      assert (He' : E + s = -1074) by lia. rewrite He'.
      assert (Hlt : Zpos p / 2 ^ s < 2 ^ 53).
      { apply Z.div_lt_upper_bound; [ lia | ].
        rewrite <- pow2_split by lia.
        apply Z.lt_le_trans with (2 ^ d); [ lia | ].
        apply Z.pow_le_mono_r; lia. }
      assert (Hm2 : m2 <= 2 ^ 53) by lia.
      apply Z.le_trans with (2 ^ 53 * 2 ^ (-1074 + B)).
      { apply Z.mul_le_mono_nonneg_r; [ apply Z.pow_nonneg; lia | exact Hm2 ]. }
      rewrite <- pow2_split by lia.
      apply Z.le_trans with (2 ^ B); [ apply Z.pow_le_mono_r; lia | nia ].
    + (* normal range *)
      rewrite Z.max_l in Hs by lia.
      assert (Hsd : s = d - 53) by lia.
      assert (He0 : d + E - 53 <= 0).
      { assert (H1 : 2 ^ (d - 1 + (E + B)) < 2 ^ (53 + B)).
        { rewrite (pow2_split (d - 1) (E + B)), (pow2_split 53 B) by lia.
          apply Z.le_lt_trans with (Zpos p * 2 ^ (E + B)).
          - apply Z.mul_le_mono_nonneg_r; lia.
          - apply Z.le_lt_trans with (K * 2 ^ B); [ exact Hle | ].
            apply Z.mul_lt_mono_pos_r; lia. }
        apply Z.pow_lt_mono_r_iff in H1; lia. }
      set (t := - (E + s)).
      assert (Ht : 0 <= t) by (subst t; lia).
      assert (HEts : E + B = B - t - s) by (subst t; lia).
      set (c := K * 2 ^ t).
      assert (Hpt : 0 < 2 ^ t) by (apply pow2_pos; lia).
      assert (HMc : Zpos p <= c * 2 ^ s).
      { rewrite HEts in Hle.
        assert (HBs : 2 ^ B = 2 ^ t * 2 ^ s * 2 ^ (B - t - s)).
        { rewrite <- !pow2_split by lia. f_equal. lia. }
        assert (Hpq : 0 < 2 ^ (B - t - s)) by (apply pow2_pos; lia).
        subst c. rewrite HBs in Hle. nia. }
      assert (Hm2c : m2 <= c).
      { destruct (Z.eq_dec (Zpos p mod 2 ^ s) 0) as [Hz | Hnz].
        - destruct (Hflags Hz) as [Hr Hst].
          rewrite (Hexact Hr Hst), Hm.
          apply Z.div_le_upper_bound; [ lia | nia ].
        - assert (Hne : Zpos p <> c * 2 ^ s).
          { intros Heq. apply Hnz. rewrite Heq. apply Z.mod_mul. lia. }
          assert (Hlt : Zpos p / 2 ^ s < c).
          { apply Z.div_lt_upper_bound; [ lia | nia ]. }
          lia. }
      replace (E + s + B) with (B - t) by (subst t; lia).
      assert (HBt : 2 ^ B = 2 ^ t * 2 ^ (B - t)).
      { rewrite <- pow2_split by lia. f_equal. lia. }
      assert (Hpq : 0 < 2 ^ (B - t)) by (apply pow2_pos; lia).
      rewrite HBt. subst c. nia.
  - cbn [shr] in Hshr. injection Hshr as <- <-.
    cbn [shr_m loc_of_shr_record round_nearest_even]. repeat split; lia.
Qed.

(** Second shift, after rounding. *)
Lemma second_shift_bound (B K m2 e' : Z) (mrs : shr_record) (e'' : Z) :
  0 <= B -> 0 <= m2 -> 0 <= e' + B -> 0 <= K < 2 ^ 53 ->
  m2 * 2 ^ (e' + B) <= K * 2 ^ B ->
  shr_fexp 53 1024 m2 e' loc_Exact = (mrs, e'') ->
  0 <= shr_m mrs /\ e' <= e''
  /\ shr_m mrs * 2 ^ (e'' + B) <= K * 2 ^ B
  /\ (0 < shr_m mrs -> e'' <= 971).
Proof.
  intros HB Hm2 He HK Hle Hshr.
  unfold shr_fexp in Hshr. cbn [shr_record_of_loc] in Hshr.
  rewrite fexp_eq in Hshr.
  assert (HpE : 0 < 2 ^ (e' + B)) by (apply pow2_pos; lia).
  assert (Hsmall : 0 < m2 -> Zdigits2 m2 + e' <= 53).
  { intros Hpos. destruct m2 as [ | q | q]; try lia. cbn [Zdigits2].
    pose proof (digits_bounds q) as Hd.
    set (d := Zpos (digits2_pos q)) in *.
    assert (H1 : 2 ^ (d - 1 + (e' + B)) < 2 ^ (53 + (e' + B - e'))).
    { replace (e' + B - e') with B by lia.
      rewrite (pow2_split (d - 1) (e' + B)), (pow2_split 53 B) by lia.
      apply Z.le_lt_trans with (Zpos q * 2 ^ (e' + B)).
      - apply Z.mul_le_mono_nonneg_r; lia.
      - apply Z.le_lt_trans with (K * 2 ^ B); [ exact Hle | ].
        apply Z.mul_lt_mono_pos_r; [ apply pow2_pos; lia | lia ]. }
    apply Z.pow_lt_mono_r_iff in H1; lia. }
  assert (Hnoshift : 0 < m2 -> e' <= 971).
  { intros Hpos. specialize (Hsmall Hpos).
    assert (1 <= Zdigits2 m2); [ | lia ].
    destruct m2 as [ | q | q]; try lia. cbn [Zdigits2]. lia. }
  destruct (Z.max (Zdigits2 m2 + e' - 53) (-1074) - e') as [ | n | n] eqn:Hs.
  - cbn [shr] in Hshr. injection Hshr as <- <-. cbn [shr_m].
    repeat split; first [ lia | exact Hnoshift ].
  - apply shr_exact in Hshr; [ | exact Hm2 ]. destruct Hshr as [-> [Hm _]].
    set (s := Zpos n) in *.
    assert (Hs0 : 0 < s) by (subst s; lia).
    assert (Hps : 0 < 2 ^ s) by (apply pow2_pos; lia).
    assert (Hm3 : 0 <= m2 / 2 ^ s) by (apply Z.div_pos; lia).
    assert (Hmul : m2 / 2 ^ s * 2 ^ s <= m2).
    { rewrite Z.mul_comm. apply Z.mul_div_le. exact Hps. }
    rewrite Hm. split; [ exact Hm3 | ]. split; [ lia | ]. split.
    + replace (e' + s + B) with (s + (e' + B)) by lia.
      rewrite pow2_split by lia.
      apply Z.le_trans with (m2 * 2 ^ (e' + B)); [ | exact Hle ].
      rewrite Z.mul_assoc. apply Z.mul_le_mono_nonneg_r; lia.
    + intros Hpos.
      assert (Hm2pos : 0 < m2).
      { destruct (Z.eq_dec m2 0) as [-> | ]; [ | lia ].
        rewrite Z.div_0_l in Hpos; lia. }
      specialize (Hsmall Hm2pos). lia.
  - cbn [shr] in Hshr. injection Hshr as <- <-. cbn [shr_m].
    repeat split; first [ lia | exact Hnoshift ].
Qed.

(** Rounding a positive value that is at most the integer [K < 2^53] gives a
    value that is at most [K]. *)
Lemma round_bound (B E K : Z) (p : positive) :
  1074 <= B -> 0 <= E + B -> 0 <= K < 2 ^ 53 ->
  Zpos p * 2 ^ (E + B) <= K * 2 ^ B ->
  bounded_by B K (binary_round_aux 53 1024 false (Zpos p) E loc_Exact).
Proof.
  intros HB HE HK Hle. unfold binary_round_aux.
  destruct (shr_fexp 53 1024 (Zpos p) E loc_Exact) as [mrs' e'] eqn:H1.
  pose proof (first_round_bound B E K p mrs' e' HB HE HK Hle H1) as (Hm2 & He' & Hle2).
  cbv zeta in Hm2, He', Hle2.
  destruct (shr_fexp 53 1024 _ e' loc_Exact) as [mrs'' e''] eqn:H2.
  pose proof (second_shift_bound B K _ e' mrs'' e'' ltac:(lia) Hm2 ltac:(lia) HK Hle2 H2)
    as (Hm3 & He'' & Hle3 & Hfin).
  destruct (shr_m mrs'') as [ | m | m] eqn:Hm.
  - left. reflexivity.
  - right. specialize (Hfin ltac:(lia)).
    destruct (Z.leb_spec e'' (1024 - 53)) as [_ | Hgt]; [ | lia ].
    exists m, e''. repeat split; [ lia | exact Hle3 ].
  - lia.
Qed.

Lemma iter_xO (p n : positive) : Zpos (Pos.iter xO p n) = Zpos p * 2 ^ Zpos n.
Proof.
  induction n as [ | n IH] using Pos.peano_ind.
  - cbn [Pos.iter]. lia.
  - rewrite Pos.iter_succ, Pos2Z.inj_xO, IH, Pos2Z.inj_succ, Z.pow_succ_r by lia.
    ring.
Qed.


(** [float(N)] for a count below [2^53] is at most [N]. *)
Lemma of_int_bounded (B N : Z) :
  1074 <= B -> 0 <= N < 2 ^ 53 ->
  exists n, Float64.of_int N = Ok n /\ bounded_by B N n.
Proof.
  intros HB HN. unfold Float64.of_int.
  destruct N as [ | p | p]; [ | | lia ].
  - exists (S754_zero false). split; [ reflexivity | left; reflexivity ].
  - cbn [binary_normalize]. unfold binary_round.
    assert (Hb : bounded_by B (Zpos p)
                   (let '(mz, ez) :=
                      shl_align p 0
                        (fexp Float64.prec Float64.emax
                           (Zpos (digits2_pos p) + 0)) in
                    binary_round_aux Float64.prec Float64.emax false
                      (Zpos mz) ez loc_Exact)).
    { unfold shl_align.
      change (fexp Float64.prec Float64.emax (Zpos (digits2_pos p) + 0))
        with (Z.max (Zpos (digits2_pos p) + 0 - 53) (-1074)).
      assert (HpB : 0 < 2 ^ B) by (apply pow2_pos; lia).
      destruct (Z.max (Zpos (digits2_pos p) + 0 - 53) (-1074) - 0)
        as [ | n | n] eqn:Hs.
      - apply round_bound; try lia. rewrite Z.add_0_l. lia.
      - apply round_bound; try lia. rewrite Z.add_0_l. lia.
      - apply round_bound; try lia.
        rewrite iter_xO.
        assert (Hn : Zpos n <= 1074) by lia.
        replace (Z.max (Zpos (digits2_pos p) + 0 - 53) (-1074))
          with (- Zpos n) by lia.
        assert (HBn : 2 ^ B = 2 ^ Zpos n * 2 ^ (- Zpos n + B)).
        { rewrite <- pow2_split by lia. f_equal. lia. }
        rewrite HBn. lia. }
    destruct Hb as [Hz | (m & e & Hf & He & Hle)].
    + rewrite Hz. exists (S754_zero false).
      split; [ reflexivity | left; reflexivity ].
    + rewrite Hf. exists (S754_finite false m e).
      split; [ reflexivity | right; exists m, e; auto ].
Qed.


(** ** The quotient [int(nsteps / STDPRINT)] *)

(** The number of binary digits is fixed by the two powers of two around
    the number. *)
Lemma digits_unique (p : positive) (d : Z) :
  2 ^ (d - 1) <= Zpos p < 2 ^ d -> 1 <= d -> Zpos (digits2_pos p) = d.
Proof.
  intros [Hlo Hhi] Hd. pose proof (digits_bounds p) as [Hl Hh].
  set (d' := Zpos (digits2_pos p)) in *.
  assert (Hd' : 1 <= d') by (subst d'; lia).
  destruct (Z.lt_trichotomy d' d) as [Hlt | [Heq | Hgt]]; [ | exact Heq | ].
  - assert (2 ^ d' <= 2 ^ (d - 1)) by (apply Z.pow_le_mono_r; lia). lia.
  - assert (2 ^ d <= 2 ^ (d' - 1)) by (apply Z.pow_le_mono_r; lia). lia.
Qed.

(** Rounding the quotient [q] with the remainder [r] of a division by [b]
    goes up only when the remainder is at least half the divisor. *)
Lemma round_quotient (b q r : Z) :
  0 < b -> 0 <= r < b ->
  let mrs := shr_record_of_loc q (new_location b r) in
  round_nearest_even (shr_m mrs) (loc_of_shr_record mrs) = q
  \/ (round_nearest_even (shr_m mrs) (loc_of_shr_record mrs) = q + 1
      /\ b <= 2 * r).
Proof.
  intros Hb Hr. cbv zeta. unfold new_location, new_location_even, new_location_odd.
  destruct (Z.even b) eqn:Hev.
  - destruct (Z.eqb_spec r 0) as [-> | Hr0]; [ left; reflexivity | ].
    destruct (Z.compare_spec (2 * r) b) as [He | Hl | Hg];
      cbn [shr_record_of_loc shr_m loc_of_shr_record round_nearest_even].
    + destruct (Z.even q); [ left; reflexivity | right; split; [ reflexivity | lia ] ].
    + left; reflexivity.
    + right; split; [ reflexivity | lia ].
  - destruct (Z.eqb_spec r 0) as [-> | Hr0]; [ left; reflexivity | ].
    destruct (Z.compare_spec (2 * r + 1) b) as [He | Hl | Hg];
      cbn [shr_record_of_loc shr_m loc_of_shr_record round_nearest_even].
    + left; reflexivity.
    + left; reflexivity.
    + right; split; [ reflexivity | lia ].
Qed.

(** The same after one more right shift of the quotient. *)
Lemma round_half_quotient (b q r : Z) :
  0 <= q ->
  let mrs := shr_1 (shr_record_of_loc q (new_location b r)) in
  shr_m mrs = q / 2
  /\ (round_nearest_even (shr_m mrs) (loc_of_shr_record mrs) = q / 2
      \/ (round_nearest_even (shr_m mrs) (loc_of_shr_record mrs) = q / 2 + 1
          /\ Z.odd q = true)).
Proof.
  intros Hq. cbv zeta.
  destruct (shr_record_of_loc q (new_location b r)) as [m r0 s0] eqn:Hrec.
  assert (Hm : m = q).
  { destruct (new_location b r) as [ | [ | | ]]; cbn in Hrec; congruence. }
  subst m. rewrite <- Z.div2_div.
  assert (Hs : shr_1 {| shr_m := q; shr_r := r0; shr_s := s0 |}
               = {| shr_m := Z.div2 q; shr_r := Z.odd q; shr_s := r0 || s0 |}).
  { destruct q as [ | [p | p | ] | p]; try reflexivity. lia. }
  rewrite Hs. cbn [shr_m]. split; [ reflexivity | ].
  destruct (Z.odd q), (r0 || s0);
    cbn [loc_of_shr_record shr_r shr_s round_nearest_even];
    try (left; reflexivity); try (right; split; reflexivity).
  destruct (Z.even (Z.div2 q)); [ left | right; split ]; reflexivity.
Qed.

(** The integer part survives the rounding: [a * 2^t = Q * b + R], the
    rounded quotient [m] is [Q] or, when the remainder is at least half of
    [b], [Q + 1], and [b] has at most [t + 1] digits. *)
Lemma floor_after_rounding (a b t Q R m : Z) :
  0 <= a -> 0 < b -> 0 <= t -> b < 2 ^ (t + 1) ->
  a * 2 ^ t = b * Q + R -> 0 <= R < b ->
  (m = Q \/ (m = Q + 1 /\ b <= 2 * R)) ->
  m / 2 ^ t = a / b.
Proof.
  intros Ha Hb Ht Hbt Heq HR Hm.
  assert (Hp : 0 < 2 ^ t) by (apply pow2_pos; lia).
  rewrite Z.pow_add_r, Z.pow_1_r in Hbt by lia.
  pose proof (Z.div_mod a b ltac:(lia)) as Hab.
  pose proof (Z.mod_pos_bound a b Hb) as Hrho.
  set (k := a / b) in *. set (rho := a mod b) in *.
  assert (Hk : 0 <= k) by (subst k; apply Z.div_pos; lia).
  symmetry. apply Z.div_unique with (r := m - k * 2 ^ t).
  - left. 
    assert (HQlo : k * 2 ^ t <= Q) by nia.
    assert (HQhi : Q < (k + 1) * 2 ^ t) by nia.
    destruct Hm as [-> | [-> Hhalf]]; [ lia | ].
    split; [ lia | ].
    assert (Hne : Q + 1 <> (k + 1) * 2 ^ t).
    { intros Hc.
      assert (H1 : 2 ^ t * (b - rho) = b - R) by nia.
      assert (H2 : 2 ^ t <= b - R) by nia.
      lia. }
    lia.
  - lia.
Qed.

(** The second stage of the rounding, on a mantissa of 53 digits or on
    [2^53], and the truncation of the result. *)
Lemma renormalize_floor (s : bool) (m1 e1 : Z) :
  2 ^ 52 <= m1 <= 2 ^ 53 -> -1074 <= e1 <= 0 ->
  exists mrs e2 m,
    shr_fexp 53 1024 m1 e1 loc_Exact = (mrs, e2)
    /\ shr_m mrs = Zpos m
    /\ e2 <= 1
    /\ Float64.to_int (S754_finite s m e2)
       = Ok (cond_Zopp s (m1 / 2 ^ (- e1))).
Proof.
  intros Hm He. unfold shr_fexp. rewrite (fexp_eq (Zdigits2 m1 + e1)).
  destruct m1 as [ | p | p]; [ lia | | lia ].
  cbn [Zdigits2 shr_record_of_loc].
  destruct (Z.eq_dec (Zpos p) (2 ^ 53)) as [Heq | Hne].
  - injection Heq as ->.
    change (Zpos (digits2_pos 9007199254740992)) with 54.
    replace (Z.max (54 + e1 - 53) (-1074) - e1) with 1 by lia.
    cbn [shr iter_pos shr_1].
    do 3 eexists. split; [ reflexivity | ]. cbn [shr_m].
    split; [ reflexivity | ]. split; [ lia | ].
    cbn [Float64.to_int]. f_equal. f_equal.
    destruct (Z.leb_spec 0 (e1 + 1)) as [Hp | Hn].
    + assert (Hc : e1 = 0 \/ e1 = -1) by lia.
      destruct Hc as [-> | ->]; reflexivity.
    + replace (- e1) with (1 + - (e1 + 1)) by lia.
      rewrite Z.pow_add_r, Z.pow_1_r by lia.
      change (Zpos 9007199254740992) with (2 * Zpos 4503599627370496).
      rewrite Z.div_mul_cancel_l; [ reflexivity | | lia ].
      apply Z.pow_nonzero; lia.
  - assert (Hd : Zpos (digits2_pos p) = 53)
      by (apply digits_unique; [ change (53 - 1) with 52; lia | lia ]).
    rewrite Hd.
    replace (Z.max (53 + e1 - 53) (-1074) - e1) with 0 by lia.
    cbn [shr]. do 3 eexists. split; [ reflexivity | ]. cbn [shr_m].
    split; [ reflexivity | ]. split; [ lia | ].
    cbn [Float64.to_int]. f_equal. f_equal.
    destruct (Z.leb_spec 0 e1) as [Hp | Hn]; [ | reflexivity ].
    assert (e1 = 0) as -> by lia. cbn. rewrite Z.div_1_r. lia.
Qed.

(** The quotient of two positive ints below [2^53], rounded to a binary64
    of sign [s] and truncated, is their integer quotient with that sign:
    the quotient is computed with 53 or 54 digits, and its rounding cannot
    reach the next integer. *)
Lemma divide_floor (s : bool) (a b : positive) :
  Zpos a < 2 ^ 53 -> Zpos b < 2 ^ 53 ->
  rbind (let '(mz, ez, lz) :=
           SFdiv_core_binary Float64.prec Float64.emax (Zpos a) 0 (Zpos b) 0 in
         match binary_round_aux Float64.prec Float64.emax s mz ez lz with
         | S754_infinity _ => Raise OverflowError
         | x => Ok x
         end) Float64.to_int
  = Ok (cond_Zopp s (Zpos a / Zpos b)).
Proof.
  intros Ha Hb. unfold SFdiv_core_binary. cbn [Zdigits2].
  pose proof (digits_bounds a) as Hda. pose proof (digits_bounds b) as Hdb.
  set (d1 := Zpos (digits2_pos a)) in *. set (d2 := Zpos (digits2_pos b)) in *.
  assert (Hd1 : 1 <= d1 <= 53).
  { split; [ subst d1; lia | ].
    assert (H : 2 ^ (d1 - 1) < 2 ^ 53) by lia.
    apply Z.pow_lt_mono_r_iff in H; lia. }
  assert (Hd2 : 1 <= d2 <= 53).
  { split; [ subst d2; lia | ].
    assert (H : 2 ^ (d2 - 1) < 2 ^ 53) by lia.
    apply Z.pow_lt_mono_r_iff in H; lia. }
  change (fexp Float64.prec Float64.emax (d1 + 0 - (d2 + 0)))
    with (Z.max (d1 + 0 - (d2 + 0) - 53) (-1074)).
  replace (Z.min (Z.max (d1 + 0 - (d2 + 0) - 53) (-1074)) (0 - 0))
    with (d1 - d2 - 53) by lia.
  destruct (0 - 0 - (d1 - d2 - 53)) as [ | n | n] eqn:Hs; [ lia | | lia ].
  rewrite Z.shiftl_mul_pow2 by lia.
  set (sz := Zpos n) in *.
  assert (Hsz : sz = 53 + d2 - d1) by lia.
  pose proof (Z_div_mod (Zpos a * 2 ^ sz) (Zpos b) ltac:(lia)) as Hdiv.
  destruct (Z.div_eucl (Zpos a * 2 ^ sz) (Zpos b)) as [q r].
  destruct Hdiv as [Hqr Hr].
  replace (d1 - d2 - 53) with (- sz) by lia.
  (* the quotient has 53 or 54 digits *)
  assert (Hq : 2 ^ 52 <= q < 2 ^ 54).
  { assert (H1 : 2 ^ (d1 - 1) * 2 ^ sz = 2 ^ 53 * 2 ^ (d2 - 1)).
    { rewrite <- !pow2_split by lia. f_equal. lia. }
    assert (H2 : 2 ^ d1 = 2 * 2 ^ (d1 - 1)).
    { rewrite <- Z.pow_succ_r by lia. f_equal. lia. }
    assert (H3 : 2 ^ d2 = 2 * 2 ^ (d2 - 1)).
    { rewrite <- Z.pow_succ_r by lia. f_equal. lia. }
    assert (Hp1 : 0 < 2 ^ (d1 - 1)) by (apply pow2_pos; lia).
    assert (Hp2 : 0 < 2 ^ (d2 - 1)) by (apply pow2_pos; lia).
    assert (Hps : 0 < 2 ^ sz) by (apply pow2_pos; lia).
    change (2 ^ 54) with (2 * 2 ^ 53). change (2 ^ 53) with (2 * 2 ^ 52) in *.
    set (c := 2 ^ 52) in *. 
    assert (Hc : 0 < c) by (subst c; lia). clearbody c.
    split; nia. }
  assert (Hb1 : Zpos b < 2 ^ (sz + 1)).
  { apply Z.lt_le_trans with (2 ^ d2); [ lia | apply Z.pow_le_mono_r; lia ]. }
  unfold binary_round_aux, Float64.prec, Float64.emax.
  destruct q as [ | pq | pq]; [ lia | | lia ].
  destruct (Z.lt_ge_cases (Zpos pq) (2 ^ 53)) as [Hlt | Hge].
  - (* a quotient of 53 digits is rounded as it is *)
    assert (Hd : Zpos (digits2_pos pq) = 53)
      by (apply digits_unique; [ change (53 - 1) with 52; lia | lia ]).
    assert (H1 : shr_fexp 53 1024 (Zpos pq) (- sz) (new_location (Zpos b) r)
                 = (shr_record_of_loc (Zpos pq) (new_location (Zpos b) r), - sz)).
    { unfold shr_fexp. rewrite fexp_eq. cbn [Zdigits2]. rewrite Hd.
      replace (Z.max (53 + - sz - 53) (-1074) - - sz) with 0 by lia.
      reflexivity. }
    rewrite H1.
    pose proof (round_quotient (Zpos b) (Zpos pq) r ltac:(lia) Hr) as Hround.
    cbv zeta in Hround.
    set (m1 := round_nearest_even _ _) in *.
    destruct (renormalize_floor s m1 (- sz))
      as (mrs & e2 & m & Hshr & Hm & He2 & Hint);
      [ lia | lia | ].
    rewrite Hshr, Hm.
    destruct (Z.leb_spec e2 (1024 - 53)) as [_ | Hbig]; [ | lia ].
    cbn [rbind]. rewrite Hint. f_equal. f_equal. rewrite Z.opp_involutive.
    apply (floor_after_rounding (Zpos a) (Zpos b) sz (Zpos pq) r m1);
      try lia; assumption.
  - (* a quotient of 54 digits is shifted once *)
    assert (Hd : Zpos (digits2_pos pq) = 54)
      by (apply digits_unique; [ change (54 - 1) with 53; lia | lia ]).
    assert (H1 : shr_fexp 53 1024 (Zpos pq) (- sz) (new_location (Zpos b) r)
                 = (shr_1 (shr_record_of_loc (Zpos pq) (new_location (Zpos b) r)),
                    - sz + 1)).
    { unfold shr_fexp. rewrite fexp_eq. cbn [Zdigits2]. rewrite Hd.
      replace (Z.max (54 + - sz - 53) (-1074) - - sz) with 1 by lia.
      reflexivity. }
    rewrite H1.
    pose proof (round_half_quotient (Zpos b) (Zpos pq) r ltac:(lia)) as Hround.
    cbv zeta in Hround. destruct Hround as [Hhalf Hround].
    rewrite Hhalf in *.
    set (m1 := round_nearest_even _ _) in *.
    pose proof (Z.div_mod (Zpos pq) 2 ltac:(lia)) as Hpq.
    pose proof (Z.mod_pos_bound (Zpos pq) 2 ltac:(lia)) as Hbit.
    rewrite Zodd_mod in Hround.
    set (Q := Zpos pq / 2) in *. set (o := Zpos pq mod 2) in *.
    destruct (renormalize_floor s m1 (- sz + 1))
      as (mrs & e2 & m & Hshr & Hm & He2 & Hint); [ lia | lia | ].
    rewrite Hshr, Hm.
    destruct (Z.leb_spec e2 (1024 - 53)) as [_ | Hbig]; [ | lia ].
    cbn [rbind]. rewrite Hint. f_equal. f_equal.
    replace (- (- sz + 1)) with (sz - 1) by lia.
    assert (Hpow : 2 ^ sz = 2 * 2 ^ (sz - 1)).
    { rewrite <- Z.pow_succ_r by lia. f_equal. lia. }
    rewrite Hpow in Hqr.
    apply (floor_after_rounding (Zpos a) (Zpos b) (sz - 1) Q
             (Zpos a * 2 ^ (sz - 1) - Zpos b * Q) m1); try lia.
    + replace (sz - 1 + 1) with sz by lia.
      apply Z.lt_le_trans with (2 ^ d2); [ lia | apply Z.pow_le_mono_r; lia ].
    + nia.
Qed.

(** The true division of two positive ints below [2^53], truncated, is
    their integer quotient. *)
Lemma true_divide_floor (a b : positive) :
  Zpos a < 2 ^ 53 -> Zpos b < 2 ^ 53 ->
  rbind (Float64.true_divide (Zpos a) (Zpos b)) Float64.to_int
  = Ok (Zpos a / Zpos b).
Proof. intros Ha Hb. exact (divide_floor false a b Ha Hb). Qed.

(** For a step count and a positive stride below [2^53], the truncated
    binary64 quotient is the integer quotient. *)
Lemma printed_steps_exact (nsteps STDPRINT : Z) :
  0 <= nsteps < 2 ^ 53 -> 0 < STDPRINT < 2 ^ 53 ->
  Utils.printed_steps nsteps STDPRINT = Ok (nsteps / STDPRINT).
Proof.
  intros Hn Hs. unfold Utils.printed_steps.
  destruct STDPRINT as [ | b | b]; [ lia | | lia ].
  destruct nsteps as [ | a | a]; [ reflexivity | | lia ].
  apply true_divide_floor; lia.
Qed.

(** ** The split index [int(TRAIN_SIZE * nfiles)] *)









End FloatFacts.

(* ===================================================================== *)
(** * The splitter *)
(* ===================================================================== *)

Module SplitFacts.
Import Persist SplitterSpec.

Lemma consistent_lengths (d : dataset) (N : nat) :
  consistent d N ->
  nrows (box d) = N /\ length (energy d) = N
  /\ nrows (coord d) = N /\ nrows (force d) = N
  /\ ncols (coord d) = ncols (force d).
Proof.
  intros [Hs Hc]. unfold steps in Hs. injection Hs as H1 H2 H3 H4. auto.
Qed.

Lemma consistency_check_passes (d : dataset) (N : nat) :
  consistent d N -> consistency_check d = ([], Ok tt).
Proof.
  intros H. destruct (consistent_lengths d N H) as (H1 & H2 & H3 & H4 & H5).
  unfold consistency_check. rewrite H1, H2, H3, H4, H5, !Nat.eqb_refl.
  reflexivity.
Qed.



Lemma take_in_range {A} (l : list A) (idx : list nat) :
  (forall i, In i idx -> (i < length l)%nat) ->
  exists l', Splitter.take l idx = Ok l' /\ length l' = length idx.
Proof.
  induction idx as [ | i idx IH]; intros H.
  - exists []. split; reflexivity.
  - destruct IH as (l' & Hl' & Hlen); [ intros j Hj; apply H; right; exact Hj | ].
    destruct (nth_error l i) as [x | ] eqn:Hx.
    + exists (x :: l'). cbn [Splitter.take]. rewrite Hx, Hl'.
      split; [ reflexivity | cbn [length]; lia ].
    + apply nth_error_None in Hx. specialize (H i (or_introl eq_refl)). lia.
Qed.


End SplitFacts.

(* ===================================================================== *)
(** * The frame parsers *)
(* ===================================================================== *)

Module FrameFacts.
Import Utils.
Import FrameSpec.

Lemma read_forces_data_outcome (file : list string) (nsteps STDPRINT : Z) :
  outcome (read_forces_data file nsteps STDPRINT) =
  rbind (forces_scan forces_init file) (fun st =>
  let frames1 := flush (frames st) (current_frames st) in
  let per_frame := (length (arrangement st) / length frames1)%nat in
  rbind (tensor_of_frames frames1 nsteps STDPRINT 1) (fun data =>
  Ok (kind_to_element st,
      map snd (firstn per_frame (arrangement st)),
      map fst (firstn per_frame (arrangement st)),
      data))).
Proof.
  unfold read_forces_data, tensor_of_frames.
  rewrite outcome_bind, outcome_lift.
  destruct (forces_scan forces_init file) as [st | e]; cbn [rbind]; [ | reflexivity ].
  rewrite outcome_bind, outcome_lift.
  destruct (PyList.index _ 0) as [f0 | e]; cbn [rbind]; [ | reflexivity ].
  rewrite outcome_bind, outcome_assert.
  destruct (_ =? _)%nat; cbn [rbind]; [ | reflexivity ].
  rewrite outcome_bind, outcome_lift.
  destruct (printed_steps nsteps STDPRINT) as [q | e]; cbn [rbind]; [ | reflexivity ].
  rewrite outcome_bind, outcome_assert.
  destruct (_ =? _); cbn [rbind]; [ | reflexivity ].
  rewrite outcome_bind, outcome_print; cbn [rbind].
  rewrite outcome_bind, outcome_lift.
  destruct (fill _ 0 _); reflexivity.
Qed.

Lemma read_position_data_outcome (file : list string) (nsteps STDPRINT : Z) :
  outcome (read_position_data file nsteps STDPRINT) =
  rbind (position_scan position_init file) (fun st =>
  tensor_of_frames (flush (p_frames st) (current_frame st)) nsteps STDPRINT 0).
Proof.
  unfold read_position_data, tensor_of_frames.
  rewrite outcome_bind, outcome_lift.
  destruct (position_scan position_init file) as [st | e]; cbn [rbind]; [ | reflexivity ].
  rewrite outcome_bind, outcome_lift.
  destruct (PyList.index _ 0) as [f0 | e]; cbn [rbind]; [ | reflexivity ].
  rewrite outcome_bind, outcome_assert.
  destruct (_ =? _)%nat; cbn [rbind]; [ | reflexivity ].
  rewrite outcome_bind, outcome_lift.
  destruct (printed_steps nsteps STDPRINT) as [q | e]; cbn [rbind]; [ | reflexivity ].
  rewrite outcome_bind, outcome_assert. rewrite Z.add_0_r.
  destruct (_ =? _); cbn [rbind]; [ | reflexivity ].
  rewrite outcome_bind, outcome_print; cbn [rbind].
  reflexivity.
Qed.

(** ** Filling the tensor *)

Lemma flatten_length (f : frame) : length (flatten f) = (length f * 3)%nat.
Proof.
  induction f as [ | [[x y] z] f IH]; [ reflexivity | ].
  change (flatten ((x, y, z) :: f)) with (x :: y :: z :: flatten f).
  cbn [length]. rewrite IH. reflexivity.
Qed.

(** The flattened frame holds the frame. *)
Lemma flatten_holds (f : frame) : holds_frame (flatten f) f.
Proof.
  split; [ rewrite flatten_length; lia | ].
  induction f as [ | [[a b] c] f IH]; intros j x y z Hj.
  - destruct j; discriminate Hj.
  - change (flatten ((a, b, c) :: f)) with (a :: b :: c :: flatten f).
    destruct j as [ | j].
    + cbn [nth_error] in Hj. injection Hj as <- <- <-.
      repeat split; reflexivity.
    + cbn [nth_error] in Hj. destruct (IH j x y z Hj) as (Hx & Hy & Hz).
      replace (3 * S j)%nat with (S (S (S (3 * j)))) by lia.
      cbn [Nat.add nth_error].
      rewrite Nat.add_comm in Hy. rewrite Nat.add_comm in Hz.
      cbn [Nat.add] in Hy, Hz. auto.
Qed.

Lemma flatten_holds_frames (c : nat) (fr : list frame) :
  holds_frames (mk_ndarray2 c (map flatten fr)) fr.
Proof.
  unfold holds_frames. cbn [rows].
  induction fr as [ | f fr IH]; cbn [map]; constructor;
    [ apply flatten_holds | exact IH ].
Qed.

Lemma replace_nth_split {A} (i : nat) (x : A) (l : list A) :
  (i < length l)%nat ->
  replace_nth i x l = firstn i l ++ x :: skipn (S i) l.
Proof.
  revert i; induction l as [ | y l IH]; intros [ | i] H; simpl in *;
    try lia; [ reflexivity | ].
  rewrite IH by lia. reflexivity.
Qed.

Lemma set_row_exact (data : ndarray2) (i : nat) (v : list Float64.float) :
  (i < nrows data)%nat -> length v = ncols data ->
  set_row data i v =
  Ok (mk_ndarray2 (ncols data)
        (firstn i (rows data) ++ v :: skipn (S i) (rows data))).
Proof.
  intros Hi Hv. unfold set_row.
  destruct (Nat.leb_spec (nrows data) i) as [Hle | _]; [ lia | ].
  rewrite Hv, Nat.eqb_refl.
  rewrite replace_nth_split by exact Hi. reflexivity.
Qed.

(** The loop writes the flattened frames into the rows [i], [i+1], ... *)
Lemma fill_exact (fs : list frame) :
  forall (data : ndarray2) (i : nat),
    Forall (fun f => (length f * 3)%nat = ncols data) fs ->
    (i + length fs <= nrows data)%nat ->
    fill data i fs =
    Ok (mk_ndarray2 (ncols data)
          (firstn i (rows data) ++ map flatten fs
             ++ skipn (i + length fs) (rows data))).
Proof.
  induction fs as [ | f fs IH]; intros data i Hall Hlen; simpl.
  - rewrite Nat.add_0_r, firstn_skipn. destruct data; reflexivity.
  - inversion Hall as [ | ? ? Hf Hfs]; subst.
    simpl in Hlen.
    rewrite set_row_exact by (rewrite ?flatten_length; unfold nrows in *; lia).
    cbn [rbind].
    rewrite IH; cbn [ncols rows nrows]; [ | exact Hfs | ].
    + f_equal. f_equal.
      assert (Hi : length (firstn i (rows data)) = i)
        by (rewrite length_firstn; unfold nrows in *; lia).
      replace (S i) with (length (firstn i (rows data)) + 1)%nat at 1 by lia.
      rewrite firstn_app_2. cbn [firstn].
      rewrite <- app_assoc. cbn [app]. f_equal. f_equal. f_equal.
      replace (S i + length fs)%nat
        with (length (firstn i (rows data)) + (1 + length fs))%nat by lia.
      rewrite skipn_app.
      rewrite skipn_all2 by lia. cbn [app].
      replace (length (firstn i (rows data)) + (1 + length fs)
               - length (firstn i (rows data)))%nat
        with (S (length fs)) by lia.
      rewrite skipn_cons, skipn_skipn. f_equal. lia.
    + unfold nrows in *. cbn [rows].
      rewrite length_app, length_firstn. cbn [length].
      rewrite length_skipn. lia.
Qed.

Lemma set_row_not_assertion (data : ndarray2) (i : nat)
      (v : list Float64.float) :
  set_row data i v <> Raise AssertionError.
Proof.
  unfold set_row.
  destruct (_ <=? _)%nat; [ discriminate | ].
  destruct (_ =? _)%nat; [ discriminate | ].
  destruct v as [ | x [ | y v]]; discriminate.
Qed.

Lemma fill_not_assertion (fs : list frame) :
  forall (data : ndarray2) (i : nat), fill data i fs <> Raise AssertionError.
Proof.
  induction fs as [ | f fs IH]; intros data i; simpl; [ discriminate | ].
  destruct (set_row data i (flatten f)) as [d | e] eqn:E; cbn [rbind].
  - apply IH.
  - intros H. apply (set_row_not_assertion data i (flatten f)). congruence.
Qed.

Lemma zeros_rows (r c : nat) : nrows (zeros r c) = r.
Proof. unfold nrows, zeros; simpl. apply repeat_length. Qed.

Lemma tensor_of_frames_assertion
      (fr : list frame) (nsteps STDPRINT extra q : Z) :
  fr <> [] -> printed_steps nsteps STDPRINT = Ok q ->
  (tensor_of_frames fr nsteps STDPRINT extra = Raise AssertionError
   <-> Z.of_nat (length fr) <> q + extra).
Proof.
  intros Hne Hq. destruct fr as [ | f0 fr']; [ congruence | ].
  unfold tensor_of_frames.
  change (PyList.index (f0 :: fr') 0) with (Ok (A:=frame) f0). cbn [rbind].
  cbn [zeros ncols]. rewrite Nat.eqb_refl. cbn [rbind].
  rewrite Hq. cbn [rbind].
  destruct (Z.eqb_spec (Z.of_nat (length (f0 :: fr')))
              (q + extra)) as [E | E]; cbn [rbind].
  - split; [ intros H | intros H; congruence ].
    exfalso. exact (fill_not_assertion _ _ _ H).
  - split; [ intros _; exact E | reflexivity ].
Qed.

Lemma tensor_of_frames_ok
      (fr : list frame) (nsteps STDPRINT extra q : Z) (A : nat) :
  fr <> [] -> printed_steps nsteps STDPRINT = Ok q ->
  Z.of_nat (length fr) = q + extra ->
  Forall (fun f => length f = A) fr ->
  tensor_of_frames fr nsteps STDPRINT extra =
  Ok (mk_ndarray2 (A * 3) (map flatten fr)).
Proof.
  intros Hne Hq Hcount Hall. destruct fr as [ | f0 fr']; [ congruence | ].
  unfold tensor_of_frames.
  change (PyList.index (f0 :: fr') 0) with (Ok (A:=frame) f0). cbn [rbind].
  cbn [zeros ncols]. rewrite Nat.eqb_refl. cbn [rbind].
  rewrite Hq. cbn [rbind]. rewrite Hcount, Z.eqb_refl. cbn [rbind].
  assert (H0 : length f0 = A) by (inversion Hall; assumption).
  rewrite fill_exact.
  - cbn [ncols rows firstn app]. rewrite H0. f_equal. f_equal.
    rewrite skipn_all2, app_nil_r; [ reflexivity | ].
    fold (nrows (zeros (length (f0 :: fr')) (A * 3))).
    rewrite zeros_rows. lia.
  - unfold zeros; cbn [ncols].
    eapply Forall_impl; [ | exact Hall ]. cbn beta. intros f Hf. lia.
  - rewrite zeros_rows. lia.
Qed.

(** ** What the scan of a force file keeps *)

Lemma scan_inv_init : scan_inv forces_init.
Proof. split; reflexivity. Qed.

Lemma forces_step_inv (st st1 : forces_state) (line : string) :
  scan_inv st -> forces_step st line = Ok st1 -> scan_inv st1.
Proof.
  intros [Hlen Hk] Hstep. unfold forces_step in Hstep.
  destruct (is_forces_header line).
  - injection Hstep as <-.
    destruct (current_frames st) as [ | t cur] eqn:Hcur; cbn [nonempty];
      split; cbn [arrangement frames current_frames kind_to_element];
      try assumption.
    rewrite Hlen, concat_app, length_app. cbn [concat length app].
    rewrite app_nil_r. cbn [length]. lia.
  - destruct (negb (header_found st) || PyStr.contains "ATOMIC FORCES" line).
    { injection Hstep as <-. split; assumption. }
    destruct (PyStr.split line) as [ | a [ | k [ | e [ | x [ | y [ | z r]]]]]];
      try (injection Hstep as <-; split; assumption).
    destruct (PyStr.int_of_string k) as [kv | ]; cbn [rbind] in Hstep;
      [ | discriminate ].
    destruct (PyStr.float_of_string x) as [fx | ]; cbn [rbind] in Hstep;
      [ | discriminate ].
    destruct (PyStr.float_of_string y) as [fy | ]; cbn [rbind] in Hstep;
      [ | discriminate ].
    destruct (PyStr.float_of_string z) as [fz | ]; cbn [rbind] in Hstep;
      [ | discriminate ].
    injection Hstep as <-.
    split; cbn [arrangement frames current_frames kind_to_element].
    + rewrite !length_app, Hlen. cbn [length]. lia.
    + unfold assign_all. rewrite fold_left_app. cbn [fold_left fst snd].
      fold (assign_all (arrangement st) []). rewrite <- Hk. reflexivity.
Qed.

Lemma forces_scan_inv (file : list string) :
  forall st st1, scan_inv st -> forces_scan st file = Ok st1 -> scan_inv st1.
Proof.
  induction file as [ | line file IH]; intros st st1 Hinv Hscan; simpl in Hscan.
  - injection Hscan as <-. exact Hinv.
  - destruct (forces_step st line) as [st' | e] eqn:Hstep; cbn [rbind] in Hscan;
      [ | discriminate ].
    eapply IH; [ | exact Hscan ].
    eapply forces_step_inv; eassumption.
Qed.

Lemma flush_concat_length (fr : list frame) (cur : frame) :
  length (concat (flush fr cur)) = (length (concat fr) + length cur)%nat.
Proof.
  unfold flush. destruct cur as [ | t cur]; cbn [nonempty].
  - cbn [length]. lia.
  - rewrite concat_app, length_app. cbn [concat]. rewrite app_nil_r. reflexivity.
Qed.

Lemma concat_length_uniform (fr : list frame) (A : nat) :
  Forall (fun f => length f = A) fr ->
  length (concat fr) = (length fr * A)%nat.
Proof.
  induction 1 as [ | f fr Hf _ IH]; [ reflexivity | ].
  cbn [concat length]. rewrite length_app, IH, Hf. lia.
Qed.

(** ** Files without a frame header *)

Lemma forces_scan_no_header (file : list string) :
  Forall (fun line => is_forces_header line = false) file ->
  forces_scan forces_init file = Ok forces_init.
Proof.
  induction 1 as [ | line file Hl _ IH]; [ reflexivity | ].
  simpl. unfold forces_step. rewrite Hl. cbn [header_found forces_init negb orb rbind].
  exact IH.
Qed.

Lemma position_scan_no_header (file : list string) :
  Forall (fun line => is_position_header line = false) file ->
  position_scan position_init file = Ok position_init.
Proof.
  induction 1 as [ | line file Hl _ IH]; [ reflexivity | ].
  simpl. unfold position_step. rewrite Hl. cbn [frame_started position_init rbind].
  exact IH.
Qed.

(** ** Force files laid out in blocks *)

Lemma forces_scan_app (l1 : list string) :
  forall (st : forces_state) (l2 : list string),
    forces_scan st (l1 ++ l2)
    = rbind (forces_scan st l1) (fun st1 => forces_scan st1 l2).
Proof.
  induction l1 as [ | line l1 IH]; intros st l2; [ reflexivity | ].
  cbn [app forces_scan].
  destruct (forces_step st line) as [st1 | e]; cbn [rbind]; [ apply IH | reflexivity ].
Qed.

Lemma add_atoms_nil (st : forces_state) : add_atoms [] st = st.
Proof.
  destruct st. unfold add_atoms, assign_all.
  cbn [map fold_left kind_to_element arrangement frames current_frames
       header_found].
  rewrite !app_nil_r. reflexivity.
Qed.

Lemma add_atoms_app (a1 a2 : list atom) (st : forces_state) :
  add_atoms (a1 ++ a2) st = add_atoms a2 (add_atoms a1 st).
Proof.
  unfold add_atoms, assign_all.
  cbn [kind_to_element arrangement frames current_frames header_found].
  rewrite !map_app, fold_left_app, !app_assoc. reflexivity.
Qed.

(** A line of a frame adds its atom, if it has one. *)
Lemma forces_step_frame_line (st : forces_state) (line : string) :
  header_found st = true -> frame_line line = true ->
  forces_step st line
  = Ok (match atom_of_line line with
        | Some a => add_atoms [a] st
        | None => st
        end).
Proof.
  intros Hh Hline. unfold frame_line in Hline.
  apply andb_prop in Hline. destruct Hline as [Hnh Hok].
  apply negb_true_iff in Hnh.
  unfold forces_step. rewrite Hnh, Hh. cbn [negb orb].
  unfold ignored, atom_of_line in *.
  destruct (PyStr.contains "ATOMIC FORCES" line); [ reflexivity | ].
  cbn [orb] in Hok.
  destruct (PyStr.split line) as [ | a [ | k [ | e [ | x [ | y [ | z r]]]]]];
    try reflexivity.
  cbn [length Nat.ltb Nat.leb orb] in Hok.
  destruct (PyStr.int_of_string k) as [kv | ]; [ | discriminate ].
  destruct (PyStr.float_of_string x) as [fx | ]; [ | discriminate ].
  destruct (PyStr.float_of_string y) as [fy | ]; [ | discriminate ].
  destruct (PyStr.float_of_string z) as [fz | ]; [ | discriminate ].
  cbn [rbind]. unfold add_atoms, assign_all.
  cbn [map fold_left fst snd]. rewrite Hh. reflexivity.
Qed.

Lemma forces_scan_body (lines : list string) :
  forall st : forces_state,
    header_found st = true -> forallb frame_line lines = true ->
    forces_scan st lines = Ok (add_atoms (body_atoms lines) st).
Proof.
  induction lines as [ | line lines IH]; intros st Hh Hall.
  - cbn [forces_scan body_atoms flat_map]. rewrite add_atoms_nil. reflexivity.
  - cbn [forallb] in Hall. apply andb_prop in Hall. destruct Hall as [Hl Hls].
    cbn [forces_scan]. rewrite (forces_step_frame_line st line Hh Hl).
    cbn [rbind]. unfold body_atoms. cbn [flat_map].
    fold (body_atoms lines). rewrite add_atoms_app.
    destruct (atom_of_line line) as [a | ].
    + apply IH; [ exact Hh | exact Hls ].
    + rewrite add_atoms_nil. apply IH; [ exact Hh | exact Hls ].
Qed.

Lemma forces_scan_block (st : forces_state) (b : block) (A : nat) :
  block_of A b ->
  forces_scan st (header b :: body b)
  = Ok (add_atoms (body_atoms (body b))
          (mk_forces_state (kind_to_element st) (arrangement st)
             (flush (frames st) (current_frames st)) [] true)).
Proof.
  intros (Hh & Hbody & _). cbn [forces_scan]. unfold forces_step. rewrite Hh.
  cbn [rbind].
  assert (Hflush :
            (if nonempty (current_frames st)
             then mk_forces_state (kind_to_element st) (arrangement st)
                    (frames st ++ [current_frames st]) [] true
             else mk_forces_state (kind_to_element st) (arrangement st)
                    (frames st) (current_frames st) true)
            = mk_forces_state (kind_to_element st) (arrangement st)
                (flush (frames st) (current_frames st)) [] true).
  { unfold flush. destruct (current_frames st); reflexivity. }
  rewrite Hflush. apply forces_scan_body; [ reflexivity | exact Hbody ].
Qed.

Lemma forces_scan_blocks (A : nat) (blocks : list block) :
  (1 <= A)%nat -> Forall (block_of A) blocks ->
  forall st : forces_state,
  exists st',
    forces_scan st (flat_map (fun b => header b :: body b) blocks) = Ok st'
    /\ flush (frames st') (current_frames st')
       = flush (frames st) (current_frames st) ++ map block_frame blocks
    /\ arrangement st'
       = arrangement st
         ++ flat_map (fun b => map fst (body_atoms (body b))) blocks.
Proof.
  intros HA Hall. induction Hall as [ | b bs Hb _ IH]; intros st.
  - exists st. cbn [flat_map map forces_scan]. rewrite !app_nil_r. auto.
  - cbn [flat_map map].
    change (header b :: body b ++ flat_map (fun b0 => header b0 :: body b0) bs)
      with ((header b :: body b)
            ++ flat_map (fun b0 => header b0 :: body b0) bs).
    rewrite forces_scan_app, (forces_scan_block st b A Hb). cbn [rbind].
    set (st1 := add_atoms _ _).
    destruct (IH st1) as (st' & Hscan & Hfr & Harr).
    exists st'. split; [ exact Hscan | ]. split.
    + rewrite Hfr. subst st1. unfold add_atoms.
      cbn [frames current_frames app].
      fold (block_frame b).
      assert (Hne : nonempty (block_frame b) = true).
      { destruct Hb as (_ & _ & Hlen). unfold block_frame.
        destruct (body_atoms (body b)); [ simpl in Hlen; lia | reflexivity ]. }
      unfold flush at 1. rewrite Hne, <- app_assoc. reflexivity.
    + rewrite Harr. subst st1. unfold add_atoms. cbn [arrangement].
      rewrite <- app_assoc. reflexivity.
Qed.

(** A file laid out in blocks of [A >= 1] atoms parses to the frames of its
    blocks, and the scan records the (kind, element) pairs block by
    block. *)
Lemma forces_scan_file (A : nat) (preamble : list string)
      (blocks : list block) :
  (1 <= A)%nat ->
  Forall (fun line => is_forces_header line = false) preamble ->
  Forall (block_of A) blocks ->
  exists st,
    forces_scan forces_init (force_file preamble blocks) = Ok st
    /\ flush (frames st) (current_frames st) = map block_frame blocks
    /\ arrangement st
       = flat_map (fun b => map fst (body_atoms (body b))) blocks.
Proof.
  intros HA Hpre Hblocks. unfold force_file.
  rewrite forces_scan_app, (forces_scan_no_header preamble Hpre). cbn [rbind].
  destruct (forces_scan_blocks A blocks HA Hblocks forces_init)
    as (st & Hscan & Hfr & Harr).
  exists st. split; [ exact Hscan | ]. split; assumption.
Qed.

(** ** The type map *)

Lemma dict_mem_keys (k : Z) (d : list (Z * string)) :
  dict_mem Z.eqb k d = existsb (Z.eqb k) (dict_keys d).
Proof.
  unfold dict_mem, dict_keys. induction d as [ | [k' e] d IH]; [ reflexivity | ].
  cbn [dict_get map existsb fst]. destruct (Z.eqb k k'); [ reflexivity | exact IH ].
Qed.

Lemma assign_all_keys (pairs : list (Z * string)) :
  forall d : list (Z * string),
    dict_keys (assign_all pairs d)
    = fold_left (fun acc k => if existsb (Z.eqb k) acc then acc else acc ++ [k])
                (map fst pairs) (dict_keys d).
Proof.
  unfold assign_all.
  induction pairs as [ | [k e] pairs IH]; intros d; [ reflexivity | ].
  cbn [fold_left map fst snd]. rewrite IH.
  rewrite (dict_set_keys Z.eqb Z.eqb_spec), dict_mem_keys. reflexivity.
Qed.

Lemma firstn_length_firstn {A} (n : nat) (l : list A) :
  firstn (length (firstn n l)) l = firstn n l.
Proof.
  rewrite length_firstn.
  destruct (Nat.le_gt_cases n (length l)) as [H | H].
  - rewrite Nat.min_l by exact H. reflexivity.
  - rewrite Nat.min_r by lia. rewrite !firstn_all2 by lia. reflexivity.
Qed.

End FrameFacts.

(* ===================================================================== *)
(** * Properties of the frame parsers *)
(* ===================================================================== *)

Import Utils FrameSpec.

(** C9: when the frame list parsed from the file is empty, both
    [read_forces_data] and [read_position_data] raise [IndexError] (at
    [frames[0]]), whatever the declared step count and stride. *)
Theorem C9_no_frame_raises_index_error
        (forces_file position_file : list string) (nsteps STDPRINT : Z) :
  forces_frames forces_file = Ok [] ->
  position_frames position_file = Ok [] ->
  outcome (read_forces_data forces_file nsteps STDPRINT) = Raise IndexError
  /\ outcome (read_position_data position_file nsteps STDPRINT) = Raise IndexError.
Proof.
  intros Hf Hp. split.
  - rewrite FrameFacts.read_forces_data_outcome.
    unfold forces_frames in Hf.
    destruct (forces_scan forces_init forces_file) as [st | e]; cbn [rbind] in *;
      [ | discriminate ].
    injection Hf as ->. reflexivity.
  - rewrite FrameFacts.read_position_data_outcome.
    unfold position_frames in Hp.
    destruct (position_scan position_init position_file) as [st | e];
      cbn [rbind] in *; [ | discriminate ].
    injection Hp as ->. reflexivity.
Qed.

(** A file without header line, and a file whose header is followed by no
    data line. *)
Lemma C9_witness :
  outcome (read_forces_data ["      1      1      H       0.5 -0.25 1.0"] 10 1)
  = Raise IndexError
  /\ outcome (read_position_data
                [" i =        1, time =        0.500, E =       -17.1"] 10 1)
     = Raise IndexError.
Proof.
  apply C9_no_frame_raises_index_error; vm_compute; reflexivity.
Defined.

(** C4, as stated, fails on a file without any frame: the frame count 0
    differs from [nsteps / STDPRINT + 1], and the call raises [IndexError],
    not the assertion. *)
Lemma C4_counterexample :
  forces_frames [] = Ok []
  /\ outcome (read_forces_data [] 10 1) = Raise IndexError
  /\ ~ (outcome (read_forces_data [] 10 1) = Raise AssertionError
        <-> Z.of_nat (length (@nil frame)) <> 10 / 1 + 1).
Proof.
  split; [ reflexivity | ]. split; [ reflexivity | ].
  intros [_ H].
  assert (Hne : Z.of_nat (length (@nil frame)) <> 10 / 1 + 1)
    by (vm_compute; discriminate).
  specialize (H Hne). vm_compute in H. discriminate.
Qed.

(** C4, amended: for a file that parses to at least one frame, a step count
    [0 <= nsteps < 2^53] and a stride [0 < STDPRINT < 2^53] (the ints for
    which the binary64 quotient [nsteps / STDPRINT], truncated, is the
    integer quotient), [read_forces_data] raises the assertion exactly when
    the number of frames differs from [floor(nsteps / STDPRINT) + 1], and
    returns when they agree and every frame lists as many atoms as the
    first; [read_position_data] does the same against
    [floor(nsteps / STDPRINT)]. *)
Theorem C4_frame_count_assertion
        (forces_file position_file : list string) (nsteps STDPRINT : Z)
        (fr pr : list frame) :
  0 <= nsteps < 2 ^ 53 -> 0 < STDPRINT < 2 ^ 53 ->
  forces_frames forces_file = Ok fr -> fr <> [] ->
  position_frames position_file = Ok pr -> pr <> [] ->
  (outcome (read_forces_data forces_file nsteps STDPRINT) = Raise AssertionError
   <-> Z.of_nat (length fr) <> nsteps / STDPRINT + 1)
  /\ (Z.of_nat (length fr) = nsteps / STDPRINT + 1 -> uniform fr ->
      is_ok (outcome (read_forces_data forces_file nsteps STDPRINT)) = true)
  /\ (outcome (read_position_data position_file nsteps STDPRINT)
      = Raise AssertionError
      <-> Z.of_nat (length pr) <> nsteps / STDPRINT)
  /\ (Z.of_nat (length pr) = nsteps / STDPRINT -> uniform pr ->
      is_ok (outcome (read_position_data position_file nsteps STDPRINT)) = true).
Proof.
  intros Hn Hs Hf Hfne Hp Hpne.
  pose proof (FloatFacts.printed_steps_exact nsteps STDPRINT Hn Hs) as Hq.
  rewrite FrameFacts.read_forces_data_outcome,
          FrameFacts.read_position_data_outcome.
  unfold forces_frames in Hf. unfold position_frames in Hp.
  destruct (forces_scan forces_init forces_file) as [st | e]; cbn [rbind] in *;
    [ | discriminate ].
  destruct (position_scan position_init position_file) as [pst | e];
    cbn [rbind] in *; [ | discriminate ].
  injection Hf as Hf. injection Hp as Hp. cbv zeta. rewrite Hf, Hp.
  pose proof (FrameFacts.tensor_of_frames_assertion fr nsteps STDPRINT 1 _
                Hfne Hq) as Hfa.
  pose proof (FrameFacts.tensor_of_frames_assertion pr nsteps STDPRINT 0 _
                Hpne Hq) as Hpa.
  rewrite Z.add_0_r in Hpa.
  repeat split.
  - intros H. apply Hfa.
    destruct (tensor_of_frames fr nsteps STDPRINT 1) as [d | e];
      cbn [rbind] in H; [ discriminate | ].
    injection H as ->. reflexivity.
  - intros H. apply Hfa in H. rewrite H. reflexivity.
  - intros Hc Hu. destruct fr as [ | f0 fr']; [ congruence | ].
    rewrite (FrameFacts.tensor_of_frames_ok _ nsteps STDPRINT 1 _ (length f0)
               Hfne Hq Hc Hu).
    reflexivity.
  - apply Hpa.
  - apply Hpa.
  - intros Hc Hu. destruct pr as [ | f0 pr']; [ congruence | ].
    rewrite (FrameFacts.tensor_of_frames_ok _ nsteps STDPRINT 0 _ (length f0)
               Hpne Hq);
      [ reflexivity | rewrite Z.add_0_r; exact Hc | exact Hu ].
Qed.

Lemma C4_witness :
  (outcome (read_forces_data Samples.forces_3x2 2 1) = Raise AssertionError
   <-> Z.of_nat (length Samples.frames_3x2) <> 2 / 1 + 1)
  /\ (Z.of_nat (length Samples.frames_3x2) = 2 / 1 + 1 ->
      uniform Samples.frames_3x2 ->
      is_ok (outcome (read_forces_data Samples.forces_3x2 2 1)) = true)
  /\ (outcome (read_position_data Samples.xyz_2x2 2 1) = Raise AssertionError
      <-> Z.of_nat (length Samples.frames_2x2) <> 2 / 1)
  /\ (Z.of_nat (length Samples.frames_2x2) = 2 / 1 ->
      uniform Samples.frames_2x2 ->
      is_ok (outcome (read_position_data Samples.xyz_2x2 2 1)) = true).
Proof.
  apply (C4_frame_count_assertion Samples.forces_3x2 Samples.xyz_2x2 2 1
           Samples.frames_3x2 Samples.frames_2x2).
  - split; [ discriminate | reflexivity ].
  - split; reflexivity.
  - vm_compute; reflexivity.
  - discriminate.
  - vm_compute; reflexivity.
  - discriminate.
Defined.

(** C5, as stated, fails on a file of three frames of two atoms when the
    declared step count is 10 and the stride 1: the frame count 3 differs
    from 11, and the call raises the assertion. *)
Lemma C5_counterexample :
  Forall (fun line => is_forces_header line = false) Samples.preamble_3x2
  /\ Forall (block_of 2) Samples.blocks_3x2
  /\ length Samples.blocks_3x2 = 3%nat
  /\ outcome (read_forces_data
                (force_file Samples.preamble_3x2 Samples.blocks_3x2) 10 1)
     = Raise AssertionError.
Proof.
  split; [ repeat constructor | ].
  split; [ repeat constructor; vm_compute; reflexivity | ].
  split; vm_compute; reflexivity.
Qed.

(** C5, amended: for a force file made of lines without header followed by
    [F >= 1] blocks, each a header line and lines that are ignored or list
    an atom, with exactly [A >= 1] atoms per block, a step count
    [0 <= nsteps < 2^53] and a stride [0 < STDPRINT < 2^53] with
    [F = floor(nsteps / STDPRINT) + 1], [read_forces_data] returns a tensor
    of shape [(F, 3A)] whose row [i] holds the forces of block [i]: the
    components x, y, z of its atom [j], in listing order, at the positions
    [3j], [3j + 1], [3j + 2]; and the two ordering lists have length [A]:
    they are the kinds and the elements of the atoms of the first block. *)
Theorem C5_forces_tensor_shape
        (preamble : list string) (blocks : list block) (nsteps STDPRINT : Z)
        (F A : nat) :
  Forall (fun line => is_forces_header line = false) preamble ->
  Forall (block_of A) blocks ->
  length blocks = F -> (1 <= F)%nat -> (1 <= A)%nat ->
  0 <= nsteps < 2 ^ 53 -> 0 < STDPRINT < 2 ^ 53 ->
  Z.of_nat F = nsteps / STDPRINT + 1 ->
  exists kind_to_element ordering_letter ordering_number data,
    outcome (read_forces_data (force_file preamble blocks) nsteps STDPRINT)
    = Ok (kind_to_element, ordering_letter, ordering_number, data)
    /\ shape data = (F, 3 * A)%nat
    /\ holds_frames data (map block_frame blocks)
    /\ well_shaped data
    /\ length ordering_letter = A
    /\ length ordering_number = A
    /\ (forall b, hd_error blocks = Some b ->
        ordering_number = map (fun a => fst (fst a)) (body_atoms (body b))
        /\ ordering_letter = map (fun a => snd (fst a)) (body_atoms (body b))).
Proof.
  intros Hpre Hblocks HF H1 HA Hn Hs Hcount.
  pose proof (FloatFacts.printed_steps_exact nsteps STDPRINT Hn Hs) as Hq.
  destruct (FrameFacts.forces_scan_file A preamble blocks HA Hpre Hblocks)
    as (st & Hscan & Hfr & Harr).
  rewrite FrameFacts.read_forces_data_outcome, Hscan. cbn [rbind]. cbv zeta.
  rewrite Hfr.
  assert (Hall : Forall (fun f => length f = A) (map block_frame blocks)).
  { apply Forall_map. eapply Forall_impl; [ | exact Hblocks ].
    intros b (_ & _ & Hlen). unfold block_frame. rewrite length_map. exact Hlen. }
  assert (Hne : map block_frame blocks <> [])
    by (destruct blocks; simpl in *; [ lia | discriminate ]).
  rewrite (FrameFacts.tensor_of_frames_ok _ nsteps STDPRINT 1 _ A Hne Hq)
    by (try assumption; rewrite length_map, HF; exact Hcount).
  cbn [rbind].
  assert (Hlen : length (arrangement st) = (F * A)%nat).
  { rewrite Harr, <- HF. clear - Hblocks.
    induction Hblocks as [ | c cs (_ & _ & Hc) _ IH]; [ reflexivity | ].
    cbn [flat_map length]. unfold atom in *.
    rewrite length_app, length_map, IH, Hc. lia. }
  assert (Hfirst : exists b rest, blocks = b :: rest)
    by (destruct blocks as [ | b rest]; simpl in *; [ lia | eauto ]).
  destruct Hfirst as (b & rest & ->).
  assert (Hb : length (body_atoms (body b)) = A)
    by (inversion Hblocks as [ | ? ? (_ & _ & Hlb) _]; exact Hlb).
  assert (Hper : (length (arrangement st) / length (map block_frame (b :: rest)))%nat
                 = A).
  { rewrite length_map, HF, Hlen, Nat.mul_comm. apply Nat.div_mul. lia. }
  rewrite Hper.
  assert (Htake : firstn A (arrangement st) = map fst (body_atoms (body b))).
  { rewrite Harr. cbn [flat_map]. unfold atom in *.
    rewrite firstn_app, length_map, Hb, Nat.sub_diag.
    rewrite firstn_all2 by (rewrite length_map; lia).
    cbn [firstn]. apply app_nil_r. }
  rewrite Htake.
  do 4 eexists. split; [ reflexivity | ].
  split; [ | split; [ | split; [ | split; [ | split ] ] ] ].
  - unfold shape, nrows; cbn [rows ncols]. rewrite !length_map, HF.
    f_equal. lia.
  - apply FrameFacts.flatten_holds_frames.
  - unfold well_shaped; cbn [rows ncols]. apply Forall_map.
    eapply Forall_impl; [ | exact Hall ]. cbn beta. intros f Hfa.
    rewrite FrameFacts.flatten_length, Hfa. reflexivity.
  - rewrite !length_map. exact Hb.
  - rewrite !length_map. exact Hb.
  - intros b' Hb'. cbn [hd_error] in Hb'. injection Hb' as <-.
    rewrite !map_map. split; reflexivity.
Qed.

Lemma C5_witness :
  exists kind_to_element ordering_letter ordering_number data,
    outcome (read_forces_data
               (force_file Samples.preamble_3x2 Samples.blocks_3x2) 2 1)
    = Ok (kind_to_element, ordering_letter, ordering_number, data)
    /\ shape data = (3, 3 * 2)%nat
    /\ holds_frames data (map block_frame Samples.blocks_3x2)
    /\ well_shaped data
    /\ length ordering_letter = 2%nat
    /\ length ordering_number = 2%nat
    /\ (forall b, hd_error Samples.blocks_3x2 = Some b ->
        ordering_number = map (fun a => fst (fst a)) (body_atoms (body b))
        /\ ordering_letter = map (fun a => snd (fst a)) (body_atoms (body b))).
Proof.
  apply (C5_forces_tensor_shape Samples.preamble_3x2 Samples.blocks_3x2
           2 1 3 2).
  - repeat constructor.
  - repeat constructor; vm_compute; reflexivity.
  - reflexivity.
  - lia.
  - lia.
  - split; [ discriminate | reflexivity ].
  - split; reflexivity.
  - reflexivity.
Defined.

(* ===================================================================== *)
(** * Properties of the scalar series reader *)
(* ===================================================================== *)

Import SeriesSpec.

(** C1, as stated, fails: in this cell file three rows have twelve tokens,
    the time of the third does not convert, and the returned columns have
    lengths 3 and 2. *)
Lemma C1_counterexample :
  exists data,
    outcome (read_cell_or_energy_data Samples.cell_bad_time 3 1 Samples.half
               None "cell") = Ok data
    /\ matched_rows cell_columns (tl Samples.cell_bad_time) = 3%nat
    /\ map (fun kc => (fst kc, length (snd kc))) data
       = [("Step", 3); ("Time [fs]", 2); ("Ax [Angstrom]", 3);
          ("Ay [Angstrom]", 3); ("Az [Angstrom]", 3); ("Bx [Angstrom]", 3);
          ("By [Angstrom]", 3); ("Bz [Angstrom]", 3); ("Cx [Angstrom]", 3);
          ("Cy [Angstrom]", 3); ("Cz [Angstrom]", 3);
          ("Volume [Angstrom^3]", 3)]%nat
    /\ ~ Forall (fun kc => length (snd kc)
                           = matched_rows cell_columns
                               (tl Samples.cell_bad_time)) data.
Proof.
  eexists. split; [ vm_compute; reflexivity | ].
  split; [ vm_compute; reflexivity | ].
  split; [ vm_compute; reflexivity | ].
  intros H. inversion H as [ | ? ? _ H2]. inversion H2 as [ | ? ? Hbad _].
  vm_compute in Hbad. discriminate.
Qed.

(** C1, amended: in the series returned for a cell or energy file, every
    column belongs to the schema and its length is the number of matched
    rows (rows with as many tokens as the schema has columns) whose token in
    that column converts to a float, hence at most the number of matched
    rows; when every token of every matched row converts, all the columns
    have the length of the number of matched rows. *)
Theorem C1_column_lengths
        (file : list string) (nsteps STDPRINT : Z) (TIMESTEP : Float64.float)
        (type : string) (data : series) :
  type = "cell" \/ type = "energy" ->
  outcome (read_cell_or_energy_data file nsteps STDPRINT TIMESTEP None type)
  = Ok data ->
  (forall name l, In (name, l) data ->
     In name (schema type)
     /\ length l = converted_rows (schema type) name (tl file)
     /\ (length l <= matched_rows (schema type) (tl file))%nat)
  /\ ((forall row tok, In row (tl file) -> matches (schema type) row = true ->
                      In tok (row_values row) -> converts tok = true) ->
      forall name l, In (name, l) data ->
        length l = matched_rows (schema type) (tl file)).
Proof.
  intros Htype Hret.
  destruct (SeriesFacts.read_cell_or_energy_data_returns
              file nsteps STDPRINT TIMESTEP type data Htype Hret)
    as (header & rows & -> & ->).
  cbn [tl].
  destruct (SeriesFacts.rows_effect_keys (schema type) rows []
              (NoDup_nil _) (incl_nil_l _)) as [Hnd Hincl].
  assert (Hcol : forall name l,
             In (name, l) (rows_effect (schema type) [] rows) ->
             In name (schema type)
             /\ length l = converted_rows (schema type) name rows).
  { intros name l Hin. split.
    - apply Hincl. unfold dict_keys.
      change name with (fst (name, l)). apply in_map. exact Hin.
    - pose proof (SeriesFacts.rows_effect_col (schema type) name rows []
                    (SeriesFacts.schema_nodup type)) as Hlen.
      unfold col_of at 1 in Hlen.
      rewrite (dict_get_in String.eqb String.eqb_spec name l _ Hnd Hin) in Hlen.
      exact Hlen. }
  split.
  - intros name l Hin. destruct (Hcol name l Hin) as [H1 H2].
    repeat split; [ exact H1 | exact H2 | ].
    rewrite H2. apply SeriesFacts.converted_rows_le.
  - intros Hall name l Hin. destruct (Hcol name l Hin) as [H1 H2].
    rewrite H2. apply SeriesFacts.converted_rows_all; assumption.
Qed.

Lemma C1_witness :
  Forall (fun kc => length (snd kc)
                    = matched_rows (schema "cell") (tl Samples.cell_2))
         Samples.series_cell_2.
Proof.
  assert (Hret : outcome (read_cell_or_energy_data Samples.cell_2 2 1
                            Samples.half None "cell")
                 = Ok Samples.series_cell_2)
    by (vm_compute; reflexivity).
  pose proof (C1_column_lengths Samples.cell_2 2 1 Samples.half "cell"
                Samples.series_cell_2 (or_introl eq_refl) Hret) as [_ H].
  apply Forall_forall. intros [name l] Hin. apply (H ltac:(
    intros row tok [<- | [<- | []]] _ Htok; vm_compute in Htok;
    repeat (destruct Htok as [<- | Htok]; [ vm_compute; reflexivity | ]);
    destruct Htok) name l Hin).
Defined.

(** C7 (the code departs from the claim): on a cell file made of its header
    and one well-formed row the report after the loop indexes the second
    time value and raises [IndexError]; on an empty file skipping the header
    raises [StopIteration]. *)
Theorem C7_single_row_raises :
  outcome (read_cell_or_energy_data Samples.cell_1 1 1 Samples.half None "cell")
  = Raise IndexError
  /\ outcome (read_cell_or_energy_data [] 1 1 Samples.half None "cell")
     = Raise StopIteration.
Proof.
  split; vm_compute; reflexivity.
Qed.

(* ===================================================================== *)
(** * Properties of the converter *)
(* ===================================================================== *)

(** C2: for [N >= 1] groups that agree on the column counts, the
    concatenation succeeds; box, energy and coordinates are the groups'
    arrays one after the other in list order, the force tensor is the groups'
    force tensors without their first rows, and its number of rows is the sum
    of the [k_i - 1]. *)
Theorem C2_concatenation (g : Converter.group) (gs : list Converter.group) :
  Forall (fun h => ncols (Converter.g_cell h) = ncols (Converter.g_cell g)
                   /\ ncols (Converter.g_coord h) = ncols (Converter.g_coord g)
                   /\ ncols (Converter.g_force h) = ncols (Converter.g_force g))
         gs ->
  Forall (fun h => (1 <= nrows (Converter.g_force h))%nat) (g :: gs) ->
  exists d,
    Converter.concatenate_groups (g :: gs) = Ok d
    /\ rows (Persist.box d)
       = concat (map (fun h => rows (Converter.g_cell h)) (g :: gs))
    /\ Persist.energy d = concat (map Converter.g_energy (g :: gs))
    /\ rows (Persist.coord d)
       = concat (map (fun h => rows (Converter.g_coord h)) (g :: gs))
    /\ rows (Persist.force d)
       = concat (map (fun h => tl (rows (Converter.g_force h))) (g :: gs))
    /\ Z.of_nat (nrows (Persist.force d))
       = fold_right
           (fun h acc => Z.of_nat (nrows (Converter.g_force h)) - 1 + acc)
           0 (g :: gs).
Proof.
  intros Hcols Hrows. unfold Converter.concatenate_groups.
  cbn [map].
  rewrite ArrayFacts.concatenate2_ok
    by (apply Forall_map; eapply Forall_impl; [ | exact Hcols ];
        cbn beta; tauto).
  cbn [rbind Np.concatenate1].
  rewrite ArrayFacts.concatenate2_ok
    by (apply Forall_map; eapply Forall_impl; [ | exact Hcols ];
        cbn beta; tauto).
  cbn [rbind].
  rewrite ArrayFacts.concatenate2_ok
    by (apply Forall_map, Forall_map; eapply Forall_impl; [ | exact Hcols ];
        cbn beta; unfold Converter.drop_first, Np.slice2; cbn [ncols]; tauto).
  cbn [rbind]. eexists. split; [ reflexivity | ].
  cbn [Persist.box Persist.energy Persist.coord Persist.force rows].
  assert (Hforce :
            concat (map rows (Converter.drop_first (Converter.g_force g)
                              :: map Converter.drop_first
                                   (map Converter.g_force gs)))
            = concat (map (fun h => tl (rows (Converter.g_force h))) (g :: gs))).
  { f_equal. change (Converter.drop_first (Converter.g_force g)
                     :: map Converter.drop_first (map Converter.g_force gs))
      with (map Converter.drop_first (map Converter.g_force (g :: gs))).
    rewrite !map_map. apply map_ext. intros h.
    unfold Converter.drop_first, Np.slice2. cbn [rows].
    apply SliceFacts.slice_tail. }
  repeat split.
  - f_equal. change (Converter.g_cell g :: map Converter.g_cell gs)
      with (map Converter.g_cell (g :: gs)). apply map_map.
  - f_equal. change (Converter.g_coord g :: map Converter.g_coord gs)
      with (map Converter.g_coord (g :: gs)). apply map_map.
  - exact Hforce.
  - unfold nrows. cbn [rows]. rewrite Hforce.
    rewrite <- (map_map (fun h => rows (Converter.g_force h)) (@tl _)).
    rewrite ArrayFacts.length_concat_tails.
    + clear. generalize (g :: gs) as l.
      induction l as [ | h l IH]; [ reflexivity | ].
      cbn [map fold_right]. rewrite IH. reflexivity.
    + apply Forall_map. exact Hrows.
Qed.

(** Raw frame counts 11 and 6 give 15 combined steps. *)
Lemma C2_witness :
  exists d,
    Converter.concatenate_groups [Samples.group_10; Samples.group_5] = Ok d
    /\ rows (Persist.box d)
       = concat (map (fun h => rows (Converter.g_cell h))
                     [Samples.group_10; Samples.group_5])
    /\ Persist.energy d
       = concat (map Converter.g_energy [Samples.group_10; Samples.group_5])
    /\ rows (Persist.coord d)
       = concat (map (fun h => rows (Converter.g_coord h))
                     [Samples.group_10; Samples.group_5])
    /\ rows (Persist.force d)
       = concat (map (fun h => tl (rows (Converter.g_force h)))
                     [Samples.group_10; Samples.group_5])
    /\ Z.of_nat (nrows (Persist.force d)) = (11 - 1) + ((6 - 1) + 0).
Proof.
  apply (C2_concatenation Samples.group_10 [Samples.group_5]).
  - repeat constructor.
  - repeat constructor; vm_compute; lia.
Defined.

(** C8: when [SPLIT_COUNT] exceeds the number of rows, the chunked branch
    returns normally and saves, for each of the [SPLIT_COUNT] subsets, four
    arrays without any row. *)
Theorem C8_more_subsets_than_rows
        (save_path : string) (a : Converter.args) (d : Persist.dataset) :
  Converter.SPLIT a = true ->
  Z.of_nat (nrows (Persist.box d)) < Converter.SPLIT_COUNT a ->
  outcome (Converter.persist save_path a d) = Ok tt
  /\ Z.of_nat (nrows (Persist.box d)) / Converter.SPLIT_COUNT a = 0
  /\ events (Converter.persist save_path a d)
     = flat_map (ConverterSpec.empty_chunk save_path d)
                (PyList.range (Converter.SPLIT_COUNT a))
  /\ length (events (Converter.persist save_path a d))
     = (4 * Z.to_nat (Converter.SPLIT_COUNT a))%nat
  /\ Forall (fun e => exists path x, e = Save path x /\ npy_rows x = 0%nat)
            (events (Converter.persist save_path a d)).
Proof.
  intros Hsplit Hlt.
  assert (Hdiv : Z.of_nat (nrows (Persist.box d)) / Converter.SPLIT_COUNT a = 0)
    by (apply Z.div_small; lia).
  assert (Hrun : Converter.persist save_path a d
                 = (flat_map (ConverterSpec.empty_chunk save_path d)
                             (PyList.range (Converter.SPLIT_COUNT a)), Ok tt)).
  { unfold Converter.persist, Persist.save_chunked. rewrite Hsplit.
    destruct (Z.eqb_spec (Converter.SPLIT_COUNT a) 0) as [E | _]; [ lia | ].
    rewrite Hdiv. apply ArrayFacts.save_chunks_empty. }
  rewrite Hrun. cbn [outcome events fst snd].
  repeat split; try assumption.
  - unfold PyList.range. generalize 0 at 1.
    induction (Z.to_nat (Converter.SPLIT_COUNT a)) as [ | n IH]; intros i;
      [ reflexivity | ].
    cbn [PyList.range_from flat_map]. rewrite length_app, IH.
    cbn [ConverterSpec.empty_chunk length]. lia.
  - apply Forall_flat_map. apply Forall_forall. intros i _.
    unfold ConverterSpec.empty_chunk.
    repeat (constructor; [ do 2 eexists; split; reflexivity | ]).
    constructor.
Qed.

Lemma C8_witness :
  outcome (Converter.persist "out" Samples.args_split_5 Samples.dataset_3)
  = Ok tt
  /\ 3 / 5 = 0
  /\ events (Converter.persist "out" Samples.args_split_5 Samples.dataset_3)
     = flat_map (ConverterSpec.empty_chunk "out" Samples.dataset_3)
                (PyList.range 5)
  /\ length (events (Converter.persist "out" Samples.args_split_5
                       Samples.dataset_3)) = 20%nat
  /\ Forall (fun e => exists path x, e = Save path x /\ npy_rows x = 0%nat)
            (events (Converter.persist "out" Samples.args_split_5
                       Samples.dataset_3)).
Proof.
  apply (C8_more_subsets_than_rows "out" Samples.args_split_5 Samples.dataset_3).
  - reflexivity.
  - vm_compute; reflexivity.
Defined.

(** C10, as stated, fails: with [ZERO_DATA] set and one input group, the run
    ends with [FileNotFoundError] when the cell file of the group cannot be
    opened, and with the assertion of line 43 when the two argument lists
    differ in length; no [TypeError] is raised. *)
Lemma C10_counterexample :
  Converter.ZERO_DATA (Samples.args_run true) = true
  /\ Converter.FILES (Samples.args_run true) <> []
  /\ outcome (Converter.main Cases.no_files (Samples.args_run true))
     = Raise FileNotFoundError
  /\ Converter.ZERO_DATA Cases.args_unpaired = true
  /\ Converter.FILES Cases.args_unpaired <> []
  /\ outcome (Converter.main Samples.files_run Cases.args_unpaired)
     = Raise AssertionError.
Proof.
  split; [ reflexivity | ]. split; [ discriminate | ].
  split; [ vm_compute; reflexivity | ].
  split; [ reflexivity | ]. split; [ discriminate | ].
  vm_compute. reflexivity.
Qed.

(** C10, amended: with [ZERO_DATA] set and at least one input group, the
    converter never returns normally; every event of the run belongs to the
    cell and energy loading of the first group, so that no position or force
    file is announced, opened or parsed and nothing is written; and when the
    two argument lists have one length and the cell and energy data frames
    of the first group load, the run ends with [TypeError]. *)
Theorem C10_zero_data_type_error
        (fs : Converter.file_system) (a : Converter.args) :
  Converter.ZERO_DATA a = true ->
  Converter.FILES a <> [] ->
  is_ok (outcome (Converter.main fs a)) = false
  /\ Forall (ConverterSpec.before_coordinates (hd "" (Converter.input_files a)))
            (events (Converter.main fs a))
  /\ (length (Converter.FILES a) = length (Converter.NSTEPS a) ->
      is_ok (outcome (Converter.load_scalars fs a
                        (hd "" (Converter.input_files a))
                        (hd 0 (Converter.NSTEPS a)))) = true ->
      outcome (Converter.main fs a) = Raise TypeError).
Proof.
  intros Hz Hne.
  destruct (Nat.eq_dec (length (Converter.FILES a)) (length (Converter.NSTEPS a)))
    as [Hlen | Hlen].
  - assert (Hfiles : exists file files,
               Converter.input_files a = file :: files).
    { unfold Converter.input_files.
      destruct (Converter.FILES a) as [ | f0 fs0]; [ congruence | ].
      destruct (Converter.PATH a); cbn [map]; eauto. }
    destruct Hfiles as (file & files & Hfiles).
    destruct (Converter.NSTEPS a) as [ | n ns] eqn:Hn.
    { destruct (Converter.FILES a); [ congruence | discriminate ]. }
    rewrite <- Hn in Hlen.
    rewrite (TraceFacts.main_zero_data fs a file files n ns Hz Hfiles Hn Hlen).
    rewrite Hfiles. cbn [hd outcome events fst snd].
    repeat split.
    + destruct (outcome (Converter.load_scalars fs a file n)); reflexivity.
    + apply TraceFacts.before_load_scalars.
    + intros _ Hok.
      destruct (outcome (Converter.load_scalars fs a file n));
        [ reflexivity | discriminate ].
  - assert (Hmain : Converter.main fs a = ([], Raise AssertionError)).
    { unfold Converter.main.
      destruct (Nat.eqb_spec (length (Converter.FILES a))
                  (length (Converter.NSTEPS a))); [ contradiction | ].
      reflexivity. }
    rewrite Hmain. cbn [outcome events fst snd is_ok].
    repeat split; [ constructor | intros H; contradiction ].
Qed.

Lemma C10_witness :
  is_ok (outcome (Converter.main Samples.files_run (Samples.args_run true)))
  = false
  /\ Forall (ConverterSpec.before_coordinates "d/run")
            (events (Converter.main Samples.files_run (Samples.args_run true)))
  /\ outcome (Converter.main Samples.files_run (Samples.args_run true))
     = Raise TypeError.
Proof.
  destruct (C10_zero_data_type_error Samples.files_run (Samples.args_run true)
              eq_refl ltac:(discriminate)) as (H1 & H2 & H3).
  split; [ exact H1 | split; [ exact H2 | ] ].
  apply H3; [ reflexivity | vm_compute; reflexivity ].
Defined.

(* ===================================================================== *)
(** * Properties of the splitter *)
(* ===================================================================== *)

Import SplitterSpec.




(** The split index is the truncated binary64 product: for the float 0.7 and
    ten rows the product rounds to 7.0, the ceiling of the exact product,
    and seven rows go to training. *)
Example split_index_rounded_product :
  Splitter.ntrain_of Samples.fraction_07 10 = Ok 7
  /\ FloatSpec.floor_product Samples.fraction_07 10 = 6
  /\ FloatSpec.ceil_product Samples.fraction_07 10 = 7.
Proof. repeat split; vm_compute; reflexivity. Qed.

(** Beyond [2^53] the truncated binary64 quotient can differ from the
    integer quotient: [(2^54 - 1) / 2^53] rounds to 2.0. *)
Example quotient_rounds_beyond_2_53 :
  Utils.printed_steps (2 ^ 54 - 1) (2 ^ 53) = Ok 2
  /\ (2 ^ 54 - 1) / 2 ^ 53 = 1
  /\ Utils.printed_steps (10 ^ 400) 1 = Raise OverflowError.
Proof. repeat split; vm_compute; reflexivity. Qed.

(* ===================================================================== *)
(** * Further facts about the frame parsers *)
(* ===================================================================== *)

Module ParserFacts.
Import Utils FrameSpec PositionSpec.

(** ** The conversions raise nothing but [ValueError] *)



(** ** Filling the tensor: when it returns, and when it cannot *)

Lemma replace_nth_length {A} (i : nat) (x : A) (l : list A) :
  length (replace_nth i x l) = length l.
Proof.
  revert i; induction l as [ | y l IH]; intros [ | i]; simpl; try reflexivity.
  rewrite IH. reflexivity.
Qed.

Lemma set_row_returns (data d1 : ndarray2) (i : nat) (v : list Float64.float) :
  set_row data i v = Ok d1 ->
  (i < nrows data)%nat
  /\ (length v = ncols data \/ length v = 1%nat)
  /\ ncols d1 = ncols data /\ nrows d1 = nrows data.
Proof.
  unfold set_row.
  destruct (Nat.leb_spec (nrows data) i) as [ | Hi]; [ discriminate | ].
  destruct (Nat.eqb_spec (length v) (ncols data)) as [Hv | Hv].
  - intros H; injection H as <-. unfold nrows; cbn [ncols rows].
    rewrite replace_nth_length. auto.
  - destruct v as [ | x [ | y v]]; try discriminate.
    intros H; injection H as <-. unfold nrows; cbn [ncols rows].
    rewrite replace_nth_length. auto.
Qed.

Lemma fill_returns (fs : list frame) :
  forall (data data' : ndarray2) (i : nat),
    fill data i fs = Ok data' ->
    Forall (fun f => (length f * 3)%nat = ncols data) fs.
Proof.
  induction fs as [ | f fs IH]; intros data data' i H; [ constructor | ].
  cbn [fill] in H.
  destruct (set_row data i (flatten f)) as [d1 | e] eqn:Hset; cbn [rbind] in H;
    [ | discriminate ].
  destruct (set_row_returns _ _ _ _ Hset) as (_ & Hlen & Hc & _).
  rewrite FrameFacts.flatten_length in Hlen.
  constructor; [ lia | ].
  rewrite <- Hc. eapply IH. exact H.
Qed.

Lemma fill_ragged (fs : list frame) :
  forall (data : ndarray2) (i : nat),
    (i + length fs <= nrows data)%nat ->
    ~ Forall (fun f => (length f * 3)%nat = ncols data) fs ->
    fill data i fs = Raise ValueError.
Proof.
  induction fs as [ | f fs IH]; intros data i Hlen Hnot.
  - exfalso. apply Hnot. constructor.
  - cbn [fill]. cbn [length] in Hlen.
    destruct (Nat.eq_dec (length f * 3) (ncols data)) as [Hf | Hf].
    + destruct (set_row data i (flatten f)) as [d1 | e] eqn:Hset.
      * destruct (set_row_returns _ _ _ _ Hset) as (_ & _ & Hc & Hr).
        cbn [rbind]. apply IH.
        -- rewrite Hr. lia.
        -- rewrite Hc. intros Hall. apply Hnot. constructor; assumption.
      * rewrite FrameFacts.set_row_exact in Hset;
          [ discriminate | lia | rewrite FrameFacts.flatten_length; exact Hf ].
    + unfold set_row.
      destruct (Nat.leb_spec (nrows data) i) as [ | _]; [ lia | ].
      rewrite FrameFacts.flatten_length.
      destruct (Nat.eqb_spec (length f * 3) (ncols data)) as [ | _];
        [ contradiction | ].
      pose proof (FrameFacts.flatten_length f) as Hl.
      destruct (flatten f) as [ | x [ | y v]]; cbn [length] in Hl;
        [ reflexivity | lia | reflexivity ].
Qed.

(** A returning call had at least one frame, a quotient
    [int(nsteps / STDPRINT)] that agrees with the number of frames, and
    frames of one size. *)
Lemma tensor_of_frames_returns (fr : list frame) (nsteps STDPRINT extra : Z)
      (data : ndarray2) :
  tensor_of_frames fr nsteps STDPRINT extra = Ok data ->
  exists f0 rest q,
    fr = f0 :: rest
    /\ printed_steps nsteps STDPRINT = Ok q
    /\ Z.of_nat (length fr) = q + extra
    /\ Forall (fun f => length f = length f0) fr
    /\ data = mk_ndarray2 (length f0 * 3) (map flatten fr).
Proof.
  intros H. destruct fr as [ | f0 rest].
  { discriminate H. }
  destruct (printed_steps nsteps STDPRINT) as [q | e] eqn:Hq.
  2:{ unfold tensor_of_frames in H.
      change (PyList.index (f0 :: rest) 0) with (Ok (A:=frame) f0) in H.
      cbn [rbind zeros ncols] in H. rewrite Nat.eqb_refl in H.
      cbn [rbind] in H. rewrite Hq in H. discriminate H. }
  exists f0, rest, q. split; [ reflexivity | ]. split; [ reflexivity | ].
  assert (Hcount : Z.of_nat (length (f0 :: rest)) = q + extra).
  { destruct (Z.eq_dec (Z.of_nat (length (f0 :: rest))) (q + extra))
      as [E | E]; [ exact E | ].
    apply (FrameFacts.tensor_of_frames_assertion
             (f0 :: rest) nsteps STDPRINT extra q) in E;
      [ congruence | discriminate | exact Hq ]. }
  assert (Hall : Forall (fun f => length f = length f0) (f0 :: rest)).
  { unfold tensor_of_frames in H.
    change (PyList.index (f0 :: rest) 0) with (Ok (A:=frame) f0) in H.
    cbn [rbind zeros ncols] in H. rewrite Nat.eqb_refl in H. cbn [rbind] in H.
    rewrite Hq in H.
    cbn [rbind] in H. rewrite Hcount, Z.eqb_refl in H. cbn [rbind] in H.
    apply fill_returns in H.
    eapply Forall_impl; [ | exact H ]. cbn beta. intros f Hf.
    unfold zeros in Hf. cbn [ncols] in Hf. lia. }
  split; [ exact Hcount | ]. split; [ exact Hall | ].
  rewrite (FrameFacts.tensor_of_frames_ok (f0 :: rest) nsteps STDPRINT extra q
             (length f0)) in H;
    [ congruence | discriminate | exact Hq | exact Hcount | exact Hall ].
Qed.

(** Frames of different sizes cannot be written into the tensor. *)
Lemma tensor_of_frames_ragged
      (fr : list frame) (nsteps STDPRINT extra q : Z) :
  printed_steps nsteps STDPRINT = Ok q ->
  Z.of_nat (length fr) = q + extra ->
  ~ uniform fr ->
  tensor_of_frames fr nsteps STDPRINT extra = Raise ValueError.
Proof.
  intros Hq Hcount Hnot. destruct fr as [ | f0 rest].
  { exfalso. apply Hnot. exact I. }
  unfold tensor_of_frames.
  change (PyList.index (f0 :: rest) 0) with (Ok (A:=frame) f0). cbn [rbind].
  cbn [zeros ncols]. rewrite Nat.eqb_refl. cbn [rbind].
  rewrite Hq.
  cbn [rbind]. rewrite Hcount, Z.eqb_refl. cbn [rbind].
  apply fill_ragged.
  - fold (zeros (length (f0 :: rest)) (length f0 * 3)).
    rewrite FrameFacts.zeros_rows. lia.
  - intros Hall. apply Hnot. unfold uniform.
    eapply Forall_impl; [ | exact Hall ]. cbn beta. intros f Hf.
    unfold zeros in Hf. cbn [ncols] in Hf. lia.
Qed.

Lemma tensor_of_frames_zero_stride (fr : list frame) (nsteps extra : Z) :
  fr <> [] -> tensor_of_frames fr nsteps 0 extra = Raise ZeroDivisionError.
Proof.
  intros Hne. destruct fr as [ | f0 rest]; [ congruence | ].
  unfold tensor_of_frames.
  change (PyList.index (f0 :: rest) 0) with (Ok (A:=frame) f0). cbn [rbind].
  cbn [zeros ncols]. rewrite Nat.eqb_refl. reflexivity.
Qed.

End ParserFacts.

Module LayoutFacts.
Import Utils FrameSpec PositionSpec.

(** ** Trajectory files laid out in blocks *)

Lemma position_scan_app (l1 : list string) :
  forall (st : position_state) (l2 : list string),
    position_scan st (l1 ++ l2)
    = rbind (position_scan st l1) (fun st1 => position_scan st1 l2).
Proof.
  induction l1 as [ | line l1 IH]; intros st l2; [ reflexivity | ].
  cbn [app position_scan].
  destruct (position_step st line) as [st1 | e]; cbn [rbind];
    [ apply IH | reflexivity ].
Qed.

Lemma add_positions_nil (st : position_state) : add_positions [] st = st.
Proof. destruct st. unfold add_positions. cbn. rewrite app_nil_r. reflexivity. Qed.

Lemma add_positions_app (t1 t2 : frame) (st : position_state) :
  add_positions (t1 ++ t2) st = add_positions t2 (add_positions t1 st).
Proof.
  unfold add_positions. cbn [p_frames current_frame frame_started].
  rewrite app_assoc. reflexivity.
Qed.

(** A line of a frame adds its position, if it has one. *)
Lemma position_step_line (st : position_state) (line : string) :
  frame_started st = true -> position_line line = true ->
  position_step st line
  = Ok (match position_of_line line with
        | Some t => add_positions [t] st
        | None => st
        end).
Proof.
  intros Hs Hline. unfold position_line in Hline.
  apply andb_prop in Hline. destruct Hline as [Hnh Hok].
  apply negb_true_iff in Hnh.
  unfold position_step. rewrite Hnh, Hs.
  unfold skipped, position_of_line in *.
  destruct (PyStr.split line) as [ | a [ | x [ | y [ | z [ | w r]]]]];
    try reflexivity.
  cbn [length Nat.eqb negb orb] in Hok.
  destruct (PyStr.float_of_string x) as [fx | ]; [ | discriminate ].
  destruct (PyStr.float_of_string y) as [fy | ]; [ | discriminate ].
  destruct (PyStr.float_of_string z) as [fz | ]; [ | discriminate ].
  cbn [rbind]. unfold add_positions. rewrite Hs. reflexivity.
Qed.

Lemma position_scan_body (lines : list string) :
  forall st : position_state,
    frame_started st = true -> forallb position_line lines = true ->
    position_scan st lines = Ok (add_positions (body_positions lines) st).
Proof.
  induction lines as [ | line lines IH]; intros st Hs Hall.
  - cbn [position_scan body_positions flat_map].
    rewrite add_positions_nil. reflexivity.
  - cbn [forallb] in Hall. apply andb_prop in Hall. destruct Hall as [Hl Hls].
    cbn [position_scan]. rewrite (position_step_line st line Hs Hl).
    cbn [rbind]. unfold body_positions. cbn [flat_map].
    fold (body_positions lines). rewrite add_positions_app.
    destruct (position_of_line line) as [t | ].
    + apply IH; [ exact Hs | exact Hls ].
    + rewrite add_positions_nil. apply IH; [ exact Hs | exact Hls ].
Qed.

Lemma position_scan_block (st : position_state) (b : block) (A : nat) :
  frame_started st = true \/ current_frame st = [] ->
  position_block_of A b ->
  position_scan st (header b :: body b)
  = Ok (add_positions (body_positions (body b))
          (mk_position_state (flush (p_frames st) (current_frame st)) [] true)).
Proof.
  intros Hst (Hh & Hbody & _). cbn [position_scan]. unfold position_step.
  rewrite Hh. cbn [rbind].
  assert (Hflush :
            (if frame_started st && nonempty (current_frame st)
             then mk_position_state (p_frames st ++ [current_frame st]) [] true
             else mk_position_state (p_frames st) (current_frame st) true)
            = mk_position_state (flush (p_frames st) (current_frame st)) [] true).
  { unfold flush. destruct Hst as [Hs | Hc].
    - rewrite Hs. destruct (current_frame st); reflexivity.
    - rewrite Hc. destruct (frame_started st); reflexivity. }
  rewrite Hflush. apply position_scan_body; [ reflexivity | exact Hbody ].
Qed.

Lemma position_scan_blocks (A : nat) (blocks : list block) :
  (1 <= A)%nat -> Forall (position_block_of A) blocks ->
  forall st : position_state,
    frame_started st = true \/ current_frame st = [] ->
    exists st',
      position_scan st (flat_map (fun b => header b :: body b) blocks) = Ok st'
      /\ flush (p_frames st') (current_frame st')
         = flush (p_frames st) (current_frame st)
           ++ map (fun b => body_positions (body b)) blocks.
Proof.
  intros HA Hall. induction Hall as [ | b bs Hb _ IH]; intros st Hst.
  - exists st. cbn [flat_map map position_scan]. rewrite app_nil_r. auto.
  - cbn [flat_map map].
    change (header b :: body b ++ flat_map (fun b0 => header b0 :: body b0) bs)
      with ((header b :: body b)
            ++ flat_map (fun b0 => header b0 :: body b0) bs).
    rewrite position_scan_app, (position_scan_block st b A Hst Hb). cbn [rbind].
    set (st1 := add_positions _ _).
    destruct (IH st1) as (st' & Hscan & Hfr).
    { left. reflexivity. }
    exists st'. split; [ exact Hscan | ].
    rewrite Hfr. subst st1. unfold add_positions.
    cbn [p_frames current_frame app].
    assert (Hne : nonempty (body_positions (body b)) = true).
    { destruct Hb as (_ & _ & Hlen).
      destruct (body_positions (body b)); [ simpl in Hlen; lia | reflexivity ]. }
    unfold flush at 1. rewrite Hne, <- app_assoc. reflexivity.
Qed.

Lemma position_scan_file (A : nat) (preamble : list string)
      (blocks : list block) :
  (1 <= A)%nat ->
  Forall (fun line => is_position_header line = false) preamble ->
  Forall (position_block_of A) blocks ->
  exists st,
    position_scan position_init (trajectory_file preamble blocks) = Ok st
    /\ flush (p_frames st) (current_frame st)
       = map (fun b => body_positions (body b)) blocks.
Proof.
  intros HA Hpre Hblocks. unfold trajectory_file.
  rewrite position_scan_app, (FrameFacts.position_scan_no_header preamble Hpre).
  cbn [rbind].
  destruct (position_scan_blocks A blocks HA Hblocks position_init)
    as (st & Hscan & Hfr).
  { right. reflexivity. }
  exists st. split; [ exact Hscan | exact Hfr ].
Qed.

(** ** Files that list no atom *)

Lemma forces_scan_no_atom (file : list string) :
  Forall (fun line => no_force_atom line = true) file ->
  forall st : forces_state,
    frames st = [] -> current_frames st = [] ->
    exists st',
      forces_scan st file = Ok st'
      /\ frames st' = [] /\ current_frames st' = [].
Proof.
  induction 1 as [ | line file Hl _ IH]; intros st Hf Hc.
  - exists st. auto.
  - cbn [forces_scan]. unfold forces_step.
    unfold no_force_atom, ignored in Hl.
    destruct (is_forces_header line).
    + rewrite Hc. cbn [nonempty rbind]. apply IH; [ exact Hf | reflexivity ].
    + cbn [orb] in Hl.
      destruct (negb (header_found st) || PyStr.contains "ATOMIC FORCES" line)
        eqn:Hskip.
      * cbn [rbind]. apply IH; assumption.
      * apply orb_false_iff in Hskip. destruct Hskip as [_ Hb].
        rewrite Hb in Hl. cbn [orb] in Hl.
        destruct (PyStr.split line) as [ | a [ | k [ | e [ | x [ | y [ | z r]]]]]];
          try (cbn [rbind]; apply IH; assumption).
        discriminate Hl.
Qed.

Lemma position_scan_no_position (file : list string) :
  Forall (fun line => no_position line = true) file ->
  forall st : position_state,
    p_frames st = [] -> current_frame st = [] ->
    exists st',
      position_scan st file = Ok st'
      /\ p_frames st' = [] /\ current_frame st' = [].
Proof.
  induction 1 as [ | line file Hl _ IH]; intros st Hf Hc.
  - exists st. auto.
  - cbn [position_scan]. unfold position_step.
    unfold no_position, skipped in Hl.
    destruct (is_position_header line).
    + rewrite Hc. cbn [nonempty]. rewrite andb_false_r. cbn [rbind].
      apply IH; [ exact Hf | reflexivity ].
    + cbn [orb] in Hl.
      destruct (frame_started st); [ | cbn [rbind]; apply IH; assumption ].
      destruct (PyStr.split line) as [ | a [ | x [ | y [ | z [ | w r]]]]];
        try (cbn [rbind]; apply IH; assumption).
      discriminate Hl.
Qed.

(** ** The scan stops at an unreadable line *)





(** ** Looking a kind up in the type map *)

Lemma assign_all_last (p : Z * string) (pairs d : list (Z * string)) :
  assign_all (pairs ++ [p]) d
  = dict_set Z.eqb (fst p) (snd p) (assign_all pairs d).
Proof. unfold assign_all. rewrite fold_left_app. reflexivity. Qed.

Lemma assign_all_get (k : Z) (pairs : list (Z * string)) :
  forall d : list (Z * string),
    dict_get Z.eqb k (assign_all pairs d)
    = match last_element k pairs with
      | Some e => Some e
      | None => dict_get Z.eqb k d
      end.
Proof.
  induction pairs as [ | p pairs IH] using rev_ind; intros d; [ reflexivity | ].
  rewrite assign_all_last. unfold last_element.
  rewrite rev_app_distr. cbn [rev app find].
  destruct (Z.eqb_spec k (fst p)) as [E | E].
  - rewrite E. apply (dict_get_set_same Z.eqb Z.eqb_spec).
  - rewrite (dict_get_set_other Z.eqb Z.eqb_spec) by exact E.
    rewrite IH. reflexivity.
Qed.

Lemma assign_all_nodup (pairs : list (Z * string)) :
  forall d : list (Z * string),
    NoDup (dict_keys d) -> NoDup (dict_keys (assign_all pairs d)).
Proof.
  unfold assign_all.
  induction pairs as [ | p pairs IH]; intros d Hd; [ exact Hd | ].
  cbn [fold_left]. apply IH. apply (dict_set_nodup Z.eqb Z.eqb_spec). exact Hd.
Qed.

(** In a dict whose keys are consecutive integers, a key stands at its
    offset from the first. *)
Lemma dict_get_consecutive (d : list (Z * string)) :
  forall (first : Z) (n : nat) (k : Z) (e : string),
    dict_keys d = consecutive first n ->
    dict_get Z.eqb k d = Some e ->
    first <= k /\ nth_error (dict_values d) (Z.to_nat (k - first)) = Some e.
Proof.
  induction d as [ | [k' e'] d IH]; intros first n k e Hkeys Hget;
    [ discriminate | ].
  destruct n as [ | n]; [ discriminate | ].
  cbn [dict_keys map fst consecutive PyList.range_from] in Hkeys.
  injection Hkeys as Hk' Hrest. subst k'.
  cbn [dict_get] in Hget.
  destruct (Z.eqb_spec k first) as [E | E].
  - injection Hget as <-. subst k. split; [ lia | ].
    rewrite Z.sub_diag. reflexivity.
  - destruct (IH (first + 1) n k e Hrest Hget) as [Hle Hnth].
    split; [ lia | ].
    replace (Z.to_nat (k - first)) with (S (Z.to_nat (k - (first + 1)))) by lia.
    exact Hnth.
Qed.

End LayoutFacts.

Module TextFacts.
Import Utils FrameSpec PositionSpec TextSpec.

(** ** Tokens hold no space *)

Lemma no_space_append (a b : string) :
  no_space (a ++ b) = no_space a && no_space b.
Proof.
  induction a as [ | c a IH]; [ reflexivity | ].
  cbn [String.append no_space]. rewrite IH. apply andb_assoc.
Qed.

Lemma split_aux_no_space (s : string) :
  forall cur : string,
    no_space cur = true ->
    Forall (fun tok => no_space tok = true) (PyStr.split_aux s cur).
Proof.
  induction s as [ | c s IH]; intros cur Hcur; cbn [PyStr.split_aux].
  - destruct (PyStr.is_empty cur); repeat constructor. exact Hcur.
  - destruct (PyStr.is_space c) eqn:Hc.
    + destruct (PyStr.is_empty cur); [ apply IH; reflexivity | ].
      constructor; [ exact Hcur | apply IH; reflexivity ].
    + apply IH. rewrite no_space_append, Hcur. cbn [no_space].
      rewrite Hc. reflexivity.
Qed.

Lemma split_no_space (s : string) :
  Forall (fun tok => no_space tok = true) (PyStr.split s).
Proof. apply split_aux_no_space. reflexivity. Qed.

(** The element of a listed atom is a token of its line. *)
Lemma atom_of_line_no_space (line : string) (k : Z) (e : string) (t : triple) :
  atom_of_line line = Some (k, e, t) -> no_space e = true.
Proof.
  unfold atom_of_line. pose proof (split_no_space line) as Htok.
  destruct (PyStr.contains "ATOMIC FORCES" line); [ discriminate | ].
  destruct (PyStr.split line) as [ | a [ | kind [ | el [ | x [ | y [ | z r]]]]]];
    try discriminate.
  destruct (PyStr.int_of_string kind); [ | discriminate ].
  destruct (PyStr.float_of_string x); [ | discriminate ].
  destruct (PyStr.float_of_string y); [ | discriminate ].
  destruct (PyStr.float_of_string z); [ | discriminate ].
  intros H; injection H as _ <- _.
  inversion Htok as [ | ? ? _ H1]. inversion H1 as [ | ? ? _ H2].
  inversion H2 as [ | ? ? He _]. exact He.
Qed.

Lemma body_atoms_no_space (lines : list string) :
  Forall (fun a : atom => no_space (snd (fst a)) = true) (body_atoms lines).
Proof.
  unfold body_atoms. induction lines as [ | line lines IH]; [ constructor | ].
  cbn [flat_map]. apply Forall_app. split; [ | exact IH ].
  destruct (atom_of_line line) as [[[k e] t] | ] eqn:Ha; repeat constructor.
  exact (atom_of_line_no_space _ _ _ _ Ha).
Qed.

Lemma listed_pairs_no_space (blocks : list block) :
  Forall (fun ke : Z * string => no_space (snd ke) = true) (listed_pairs blocks).
Proof.
  unfold listed_pairs. induction blocks as [ | b bs IH]; [ constructor | ].
  cbn [flat_map]. apply Forall_app. split; [ | exact IH ].
  apply Forall_map. eapply Forall_impl; [ | apply body_atoms_no_space ].
  cbn beta. auto.
Qed.

(** The text of an integer holds no space. *)
Lemma string_of_int_no_space (z : Z) : no_space (PyStr.string_of_int z) = true.
Proof.
  unfold PyStr.string_of_int.
  assert (Hu : forall p, no_space (NilZero.string_of_uint (Pos.to_uint p)) = true).
  { intros p. pose proof (DecimalPos.Unsigned.to_uint_nonnil p) as Hd.
    destruct (DecimalFacts.uint_string_shape _ Hd) as (Hns & _ & _).
    unfold NilZero.string_of_uint. destruct (Pos.to_uint p);
      [ reflexivity | exact Hns .. ]. }
  destruct z as [ | p | p]; [ reflexivity | apply Hu | ].
  cbn [Z.to_int NilZero.string_of_int no_space]. rewrite Hu. reflexivity.
Qed.

(** ** The lines of a written text *)

Lemma concat_cons (x : string) (l : list string) :
  String.concat "" (x :: l) = (x ++ String.concat "" l)%string.
Proof.
  destruct l as [ | y l]; cbn [String.concat]; [ | reflexivity ].
  induction x as [ | c x IH]; [ reflexivity | ].
  cbn [String.append]. rewrite <- IH. reflexivity.
Qed.

Lemma append_assoc (a b c : string) :
  ((a ++ b) ++ c = a ++ (b ++ c))%string.
Proof.
  induction a as [ | x a IH]; [ reflexivity | ].
  cbn [String.append]. rewrite IH. reflexivity.
Qed.

Lemma split_lines_line (item rest : string) :
  no_space item = true ->
  split_lines (item ++ nl ++ rest)
  = (item :: fst (split_lines rest), snd (split_lines rest)).
Proof.
  intros Hitem. induction item as [ | c item IH].
  - cbn [String.append nl split_lines].
    destruct (split_lines rest) as [lines tail]. reflexivity.
  - cbn [no_space] in Hitem. apply andb_prop in Hitem.
    destruct Hitem as [Hc Hitem]. apply negb_true_iff in Hc.
    cbn [String.append split_lines]. rewrite (IH Hitem).
    destruct (Ascii.eqb_spec c (ascii_of_nat 10)) as [-> | _];
      [ discriminate Hc | reflexivity ].
Qed.

(** A loop of [f.write(f"{item}\n")] over items that hold no space writes
    the items, one per line. *)
Lemma write_lines_has_lines (items : list string) :
  Forall (fun item => no_space item = true) items ->
  has_lines (Converter.write_lines items) items.
Proof.
  unfold has_lines, Converter.write_lines.
  induction 1 as [ | item items Hitem _ IH]; [ reflexivity | ].
  cbn [map]. rewrite concat_cons, append_assoc, split_lines_line by exact Hitem.
  rewrite IH. reflexivity.
Qed.

(** A text is fixed by its lines. *)
Lemma has_lines_unique (text : string) :
  forall (text' : string) (lines : list string),
    has_lines text lines -> has_lines text' lines -> text = text'.
Proof.
  assert (Hshape : forall t lines,
             has_lines t lines ->
             t = String.concat "" (map (fun l => (l ++ nl)%string) lines)).
  { unfold has_lines. induction t as [ | c t IH]; intros lines H.
    - cbn [split_lines] in H. injection H as <-. reflexivity.
    - cbn [split_lines] in H.
      destruct (split_lines t) as [ls tail] eqn:Ht.
      destruct (Ascii.eqb_spec c (ascii_of_nat 10)) as [-> | _].
      + injection H as <- ->. cbn [map]. rewrite concat_cons.
        rewrite <- (IH ls eq_refl). reflexivity.
      + destruct ls as [ | l ls]; [ discriminate H | ].
        injection H as <- ->. cbn [map]. rewrite concat_cons.
        specialize (IH (l :: ls) eq_refl). cbn [map] in IH.
        rewrite concat_cons in IH. rewrite IH. reflexivity. }
  intros text' lines H H'.
  rewrite (Hshape _ _ H), (Hshape _ _ H'). reflexivity.
Qed.

(** ** The type map of a file laid out in blocks *)

Lemma last_element_in (k : Z) (e : string) (pairs : list (Z * string)) :
  last_element k pairs = Some e -> In (k, e) pairs.
Proof.
  unfold last_element.
  destruct (find _ (rev pairs)) as [[k' e'] | ] eqn:Hf; [ | discriminate ].
  intros H; injection H as <-. apply find_some in Hf. destruct Hf as [Hin Hk].
  cbn [fst] in Hk. apply Z.eqb_eq in Hk. subst k'.
  apply in_rev. exact Hin.
Qed.

(** Every entry of the dict holds the element last recorded for its
    kind. *)
Lemma assign_all_entries (pairs : list (Z * string)) :
  Forall (fun ke => last_element (fst ke) pairs = Some (snd ke))
         (assign_all pairs []).
Proof.
  apply Forall_forall. intros [k e] Hin. cbn [fst snd].
  pose proof (LayoutFacts.assign_all_nodup pairs [] (NoDup_nil _)) as Hnd.
  pose proof (dict_get_in Z.eqb Z.eqb_spec k e _ Hnd Hin) as Hget.
  rewrite LayoutFacts.assign_all_get in Hget.
  destruct (last_element k pairs); [ exact Hget | discriminate Hget ].
Qed.

Lemma forall2_map_entries {A B C} (P : B -> C -> Prop) (f : A -> B)
      (g : A -> C) (l : list A) :
  Forall (fun x => P (f x) (g x)) l -> Forall2 P (map f l) (map g l).
Proof. induction 1; cbn [map]; constructor; assumption. Qed.

Lemma forall2_map_left {A B} (P : B -> A -> Prop) (f : A -> B) (l : list A) :
  Forall (fun x => P (f x) x) l -> Forall2 P (map f l) l.
Proof. induction 1; cbn [map]; constructor; assumption. Qed.

(** What [read_forces_data] returns for a file laid out in blocks. *)
Lemma read_forces_data_blocks
      (preamble : list string) (blocks : list block) (nsteps STDPRINT : Z)
      (F A : nat) :
  Forall (fun line => is_forces_header line = false) preamble ->
  Forall (block_of A) blocks ->
  length blocks = F -> (1 <= F)%nat -> (1 <= A)%nat ->
  0 <= nsteps < 2 ^ 53 -> 0 < STDPRINT < 2 ^ 53 ->
  Z.of_nat F = nsteps / STDPRINT + 1 ->
  outcome (read_forces_data (force_file preamble blocks) nsteps STDPRINT)
  = Ok (assign_all (listed_pairs blocks) [],
        map snd (firstn A (listed_pairs blocks)),
        map fst (firstn A (listed_pairs blocks)),
        mk_ndarray2 (A * 3) (map flatten (map block_frame blocks))).
Proof.
  intros Hpre Hblocks HF H1 HA Hn Hs Hcount.
  pose proof (FloatFacts.printed_steps_exact nsteps STDPRINT Hn Hs) as Hq.
  destruct (FrameFacts.forces_scan_file A preamble blocks HA Hpre Hblocks)
    as (st & Hscan & Hfr & Harr).
  rewrite FrameFacts.read_forces_data_outcome, Hscan. cbn [rbind]. cbv zeta.
  rewrite Hfr.
  assert (Hall : Forall (fun f => length f = A) (map block_frame blocks)).
  { apply Forall_map. eapply Forall_impl; [ | exact Hblocks ].
    intros b (_ & _ & Hlen). unfold block_frame. rewrite length_map. exact Hlen. }
  assert (Hne : map block_frame blocks <> [])
    by (destruct blocks; simpl in *; [ lia | discriminate ]).
  rewrite (FrameFacts.tensor_of_frames_ok _ nsteps STDPRINT 1 _ A Hne Hq)
    by (try assumption; rewrite length_map, HF; exact Hcount).
  cbn [rbind].
  destruct (FrameFacts.forces_scan_inv _ _ _ FrameFacts.scan_inv_init Hscan)
    as [_ Hk].
  assert (Hlen : length (arrangement st) = (F * A)%nat).
  { rewrite Harr, <- HF. clear - Hblocks.
    induction Hblocks as [ | c cs (_ & _ & Hc) _ IH]; [ reflexivity | ].
    cbn [flat_map length]. unfold atom in *.
    rewrite length_app, length_map, IH, Hc. lia. }
  assert (Hper : (length (arrangement st) / length (map block_frame blocks))%nat
                 = A).
  { rewrite length_map, HF, Hlen, Nat.mul_comm. apply Nat.div_mul. lia. }
  rewrite Hper, Hk, Harr. reflexivity.
Qed.

(** The first [A] listed pairs are those of the first block. *)
Lemma listed_pairs_first (A : nat) (b : block) (rest : list block) :
  length (body_atoms (body b)) = A ->
  firstn A (listed_pairs (b :: rest)) = map fst (body_atoms (body b)).
Proof.
  intros Hb. unfold listed_pairs. cbn [flat_map]. unfold atom in *.
  rewrite firstn_app, length_map, Hb, Nat.sub_diag.
  rewrite firstn_all2 by (rewrite length_map; lia).
  cbn [firstn]. apply app_nil_r.
Qed.

End TextFacts.

(* ===================================================================== *)
(** * Further properties of the frame parsers *)
(* ===================================================================== *)

Import PositionSpec.

(** C6: for a force file laid out in [F >= 1] blocks of [A >= 1] atoms, a
    step count [0 <= nsteps < 2^53] and a stride [0 < STDPRINT < 2^53] with
    [F = floor(nsteps / STDPRINT) + 1], the converter writes two texts from
    what [read_forces_data] returns.  The text of [type_map.raw] is
    made of one line per kind, in the order in which the kinds first appear
    in the file, and the line of a kind is the element symbol last listed
    for it.  The text of [type.raw] is made of one line per atom of the
    first block, in listing order, and the line of an atom of kind [k] is
    the decimal numeral of [k - 1], which [int] reads back as [k - 1]. *)
Theorem C6_type_files
        (preamble : list string) (blocks : list block) (nsteps STDPRINT : Z)
        (F A : nat) (save_path : string) :
  Forall (fun line => is_forces_header line = false) preamble ->
  Forall (block_of A) blocks ->
  length blocks = F -> (1 <= F)%nat -> (1 <= A)%nat ->
  0 <= nsteps < 2 ^ 53 -> 0 < STDPRINT < 2 ^ 53 ->
  Z.of_nat F = nsteps / STDPRINT + 1 ->
  exists kind_to_element ordering_letter ordering_number data
         type_map type type_map_lines type_lines,
    outcome (read_forces_data (force_file preamble blocks) nsteps STDPRINT)
    = Ok (kind_to_element, ordering_letter, ordering_number, data)
    /\ Converter.write_types save_path kind_to_element ordering_number
       = ([WriteText (save_path ++ "/type_map.raw") type_map;
           WriteText (save_path ++ "/type.raw") type], Ok tt)
    /\ TextSpec.has_lines type_map type_map_lines
    /\ Forall2 (fun line k => last_element k (listed_pairs blocks) = Some line)
               type_map_lines (first_seen (map fst (listed_pairs blocks)))
    /\ TextSpec.has_lines type type_lines
    /\ (forall b, hd_error blocks = Some b ->
        Forall2 (fun line (a : atom) =>
                   line = NilZero.string_of_int (Z.to_int (fst (fst a) - 1))
                   /\ PyStr.int_of_string line = Ok (fst (fst a) - 1))
                type_lines (body_atoms (body b))).
Proof.
  intros Hpre Hblocks HF H1 HA Hn Hs Hcount.
  pose proof (TextFacts.read_forces_data_blocks preamble blocks nsteps STDPRINT
                F A Hpre Hblocks HF H1 HA Hn Hs Hcount) as Hret.
  set (pairs := listed_pairs blocks) in *.
  exists (assign_all pairs []), (map snd (firstn A pairs)),
         (map fst (firstn A pairs)),
         (mk_ndarray2 (A * 3) (map flatten (map block_frame blocks))),
         (Converter.write_lines (Converter.type_map_lines (assign_all pairs []))),
         (Converter.write_lines (Converter.type_lines (map fst (firstn A pairs)))),
         (Converter.type_map_lines (assign_all pairs [])),
         (Converter.type_lines (map fst (firstn A pairs))).
  split; [ exact Hret | ]. split; [ reflexivity | ].
  pose proof (TextFacts.assign_all_entries pairs) as Hentries.
  split; [ | split; [ | split ] ].
  - apply TextFacts.write_lines_has_lines.
    unfold Converter.type_map_lines, dict_values. apply Forall_map.
    eapply Forall_impl; [ | exact Hentries ]. cbn beta. intros [k e] He.
    cbn [fst snd] in *. apply TextFacts.last_element_in in He.
    pose proof (TextFacts.listed_pairs_no_space blocks) as Hns.
    rewrite Forall_forall in Hns. exact (Hns _ He).
  - unfold Converter.type_map_lines, dict_values.
    replace (first_seen (map fst pairs))
      with (map fst (assign_all pairs []))
      by (apply (FrameFacts.assign_all_keys pairs [])).
    apply (TextFacts.forall2_map_entries
             (fun line k => last_element k pairs = Some line) snd fst).
    exact Hentries.
  - apply TextFacts.write_lines_has_lines.
    unfold Converter.type_lines. apply Forall_map. apply Forall_forall.
    intros k _. apply TextFacts.string_of_int_no_space.
  - intros b Hb. destruct blocks as [ | b0 rest]; [ discriminate Hb | ].
    cbn [hd_error] in Hb. injection Hb as ->.
    assert (HbA : length (body_atoms (body b)) = A)
      by (inversion Hblocks as [ | ? ? (_ & _ & Hlb) _]; exact Hlb).
    subst pairs. rewrite (TextFacts.listed_pairs_first A b rest HbA).
    unfold Converter.type_lines. rewrite !map_map.
    apply TextFacts.forall2_map_left.
    apply Forall_forall. intros a _. split; [ reflexivity | ].
    apply DecimalFacts.int_of_string_of_int.
Qed.

Lemma C6_witness :
  exists kind_to_element ordering_letter ordering_number data
         type_map type type_map_lines type_lines,
    outcome (read_forces_data
               (force_file Samples.preamble_3x2 Samples.blocks_3x2) 2 1)
    = Ok (kind_to_element, ordering_letter, ordering_number, data)
    /\ Converter.write_types "out" kind_to_element ordering_number
       = ([WriteText ("out" ++ "/type_map.raw") type_map;
           WriteText ("out" ++ "/type.raw") type], Ok tt)
    /\ TextSpec.has_lines type_map type_map_lines
    /\ Forall2 (fun line k =>
                  last_element k (listed_pairs Samples.blocks_3x2) = Some line)
               type_map_lines
               (first_seen (map fst (listed_pairs Samples.blocks_3x2)))
    /\ TextSpec.has_lines type type_lines
    /\ (forall b, hd_error Samples.blocks_3x2 = Some b ->
        Forall2 (fun line (a : atom) =>
                   line = NilZero.string_of_int (Z.to_int (fst (fst a) - 1))
                   /\ PyStr.int_of_string line = Ok (fst (fst a) - 1))
                type_lines (body_atoms (body b))).
Proof.
  apply (C6_type_files Samples.preamble_3x2 Samples.blocks_3x2 2 1 3 2 "out").
  - repeat constructor.
  - repeat constructor; vm_compute; reflexivity.
  - reflexivity.
  - lia.
  - lia.
  - split; [ discriminate | reflexivity ].
  - split; reflexivity.
  - reflexivity.
Defined.

(** Kinds 1 = H and 2 = O: the lines of [type_map.raw] are H and O, those
    of [type.raw] are 0 and 1. *)
Example type_files_of_two_kinds :
  exists type_map type,
    Converter.write_types "out" [(1, "H"); (2, "O")] [1; 2]
    = ([WriteText "out/type_map.raw" type_map;
        WriteText "out/type.raw" type], Ok tt)
    /\ TextSpec.has_lines type_map ["H"; "O"]
    /\ TextSpec.has_lines type ["0"; "1"].
Proof.
  do 2 eexists. split; [ reflexivity | ]. split; vm_compute; reflexivity.
Qed.

(** X1: for a trajectory file made of lines without frame header followed
    by [F >= 1] blocks, each a header line and lines that are skipped (their
    number of fields is not four) or give a position, with exactly [A >= 1]
    positions per block, a step count [0 <= nsteps < 2^53] and a stride
    [0 < STDPRINT < 2^53] with [F = floor(nsteps / STDPRINT)],
    [read_position_data] prints its one message and returns a tensor of shape
    [(F, 3A)] whose row [i] holds the positions of block [i]: the
    coordinates x, y, z of its atom [j], in listing order, at the positions
    [3j], [3j + 1], [3j + 2]. *)
Theorem X1_position_tensor_shape
        (preamble : list string) (blocks : list block) (nsteps STDPRINT : Z)
        (F A : nat) :
  Forall (fun line => is_position_header line = false) preamble ->
  Forall (position_block_of A) blocks ->
  length blocks = F -> (1 <= F)%nat -> (1 <= A)%nat ->
  0 <= nsteps < 2 ^ 53 -> 0 < STDPRINT < 2 ^ 53 ->
  Z.of_nat F = nsteps / STDPRINT ->
  exists data,
    read_position_data (trajectory_file preamble blocks) nsteps STDPRINT
    = ([Print (Loaded A F)], Ok data)
    /\ shape data = (F, 3 * A)%nat
    /\ holds_frames data (map (fun b => body_positions (body b)) blocks)
    /\ well_shaped data.
Proof.
  intros Hpre Hblocks HF H1 HA Hn Hs Hcount.
  pose proof (FloatFacts.printed_steps_exact nsteps STDPRINT Hn Hs) as Hq.
  destruct (LayoutFacts.position_scan_file A preamble blocks HA Hpre Hblocks)
    as (st & Hscan & Hfr).
  assert (Hall : Forall (fun f => length f = A)
                   (map (fun b => body_positions (body b)) blocks)).
  { apply Forall_map. eapply Forall_impl; [ | exact Hblocks ].
    intros b (_ & _ & Hlen). exact Hlen. }
  assert (Hfirst : exists b rest, blocks = b :: rest)
    by (destruct blocks as [ | b rest]; simpl in *; [ lia | eauto ]).
  destruct Hfirst as (b & rest & Hb).
  assert (HbA : length (body_positions (body b)) = A).
  { subst blocks. inversion Hblocks as [ | ? ? (_ & _ & Hlb) _]. exact Hlb. }
  exists (mk_ndarray2 (A * 3) (map flatten (map (fun b => body_positions (body b))
                                              blocks))).
  split; [ | split; [ | split ] ].
  - unfold read_position_data. rewrite Hscan.
    unfold lift at 1. unfold bind at 1. rewrite Hfr.
    assert (Hidx : PyList.index (map (fun b0 => body_positions (body b0)) blocks) 0
                   = Ok (body_positions (body b))) by (rewrite Hb; reflexivity).
    rewrite Hidx. unfold lift at 1. unfold bind at 1.
    rewrite HbA, length_map, HF.
    cbn [zeros ncols]. rewrite Nat.eqb_refl.
    unfold assert at 1, ret at 1. unfold bind at 1.
    rewrite Hq.
    unfold lift at 1. unfold bind at 1.
    rewrite <- Hcount, Z.eqb_refl.
    unfold assert at 1, ret at 1. unfold bind at 1.
    unfold print, emit. unfold bind at 1.
    fold (zeros F (A * 3)).
    rewrite (FrameFacts.fill_exact _ (zeros F (A * 3)) 0).
    + unfold lift. cbn [app firstn]. f_equal. f_equal.
      cbn [zeros ncols rows]. f_equal.
      rewrite skipn_all2, app_nil_r; [ reflexivity | ].
      rewrite repeat_length, length_map. cbn [Nat.add]. lia.
    + cbn [zeros ncols]. eapply Forall_impl; [ | exact Hall ].
      cbn beta. intros f Hf. lia.
    + rewrite FrameFacts.zeros_rows, !length_map. lia.
  - unfold shape, nrows; cbn [rows ncols]. rewrite !length_map, HF.
    f_equal. lia.
  - apply FrameFacts.flatten_holds_frames.
  - unfold well_shaped; cbn [rows ncols]. apply Forall_map.
    eapply Forall_impl; [ | exact Hall ]. cbn beta. intros f Hfa.
    rewrite FrameFacts.flatten_length, Hfa. reflexivity.
Qed.

Lemma X1_witness :
  exists data,
    read_position_data
      (trajectory_file Cases.xyz_preamble Cases.xyz_blocks_2x2) 2 1
    = ([Print (Loaded 2 2)], Ok data)
    /\ shape data = (2, 3 * 2)%nat
    /\ holds_frames data
         (map (fun b => body_positions (body b)) Cases.xyz_blocks_2x2)
    /\ well_shaped data.
Proof.
  apply (X1_position_tensor_shape Cases.xyz_preamble Cases.xyz_blocks_2x2
           2 1 2 2).
  - repeat constructor.
  - repeat constructor; vm_compute; reflexivity.
  - reflexivity.
  - lia.
  - lia.
  - split; [ discriminate | reflexivity ].
  - split; reflexivity.
  - reflexivity.
Defined.

(** What a returning call of [read_forces_data] has computed, in terms of
    the state the scan ended in. *)
Lemma read_forces_data_returns
      (file : list string) (nsteps STDPRINT : Z)
      (kind_to_element : list (Z * string)) (ordering_letter : list string)
      (ordering_number : list Z) (data : ndarray2) :
  outcome (read_forces_data file nsteps STDPRINT)
  = Ok (kind_to_element, ordering_letter, ordering_number, data) ->
  exists st f0 rest,
    forces_scan forces_init file = Ok st
    /\ flush (frames st) (current_frames st) = f0 :: rest
    /\ printed_steps nsteps STDPRINT
       = Ok (Z.of_nat (length (f0 :: rest)) - 1)
    /\ Forall (fun f => length f = length f0) (f0 :: rest)
    /\ data = mk_ndarray2 (length f0 * 3) (map flatten (f0 :: rest))
    /\ ordering_number = map fst (firstn (length f0) (arrangement st))
    /\ ordering_letter = map snd (firstn (length f0) (arrangement st))
    /\ length (arrangement st) = (length (f0 :: rest) * length f0)%nat.
Proof.
  rewrite FrameFacts.read_forces_data_outcome.
  destruct (forces_scan forces_init file) as [st | e] eqn:Hscan;
    cbn [rbind]; [ | discriminate ].
  cbv zeta.
  destruct (tensor_of_frames _ nsteps STDPRINT 1) as [t | e] eqn:Ht;
    cbn [rbind]; [ | discriminate ].
  intros H. injection H as <- <- <- <-.
  destruct (ParserFacts.tensor_of_frames_returns _ _ _ _ _ Ht)
    as (f0 & rest & q & Hfr & Hq & Hcount & Hall & ->).
  exists st, f0, rest.
  rewrite Hfr in *.
  replace (Z.of_nat (length (f0 :: rest)) - 1) with q by lia.
  destruct (FrameFacts.forces_scan_inv file _ _ FrameFacts.scan_inv_init Hscan)
    as [Hlen _].
  assert (Harr : length (arrangement st)
                 = (length (f0 :: rest) * length f0)%nat).
  { rewrite Hlen, <- FrameFacts.flush_concat_length, Hfr.
    apply FrameFacts.concat_length_uniform. exact Hall. }
  assert (Hper : (length (arrangement st) / length (f0 :: rest))%nat
                 = length f0).
  { rewrite Harr, Nat.mul_comm. apply Nat.div_mul. discriminate. }
  rewrite Hper. repeat (split; [ first [ reflexivity | assumption ] | ]).
  exact Harr.
Qed.

(** X2: whenever [read_forces_data] returns for a step count
    [0 <= nsteps < 2^53] and a stride [0 < STDPRINT < 2^53], the file parsed
    to at least one frame, the tensor has [floor(nsteps / STDPRINT) + 1]
    rows, row [i] holds frame [i] (the components x, y, z of its atom [j] at
    the positions [3j], [3j + 1], [3j + 2]), all the frames list as many
    atoms as the first, the tensor has three columns per atom, and the two
    ordering lists have one entry per atom. *)
Theorem X2_forces_data_postcondition
        (file : list string) (nsteps STDPRINT : Z)
        (kind_to_element : list (Z * string)) (ordering_letter : list string)
        (ordering_number : list Z) (data : ndarray2) :
  0 <= nsteps < 2 ^ 53 -> 0 < STDPRINT < 2 ^ 53 ->
  outcome (read_forces_data file nsteps STDPRINT)
  = Ok (kind_to_element, ordering_letter, ordering_number, data) ->
  exists fr f0,
    forces_frames file = Ok fr /\ hd_error fr = Some f0
    /\ Z.of_nat (nrows data) = nsteps / STDPRINT + 1
    /\ Forall (fun f => length f = length f0) fr
    /\ ncols data = (3 * length f0)%nat
    /\ holds_frames data fr
    /\ well_shaped data
    /\ length ordering_number = length f0
    /\ length ordering_letter = length f0.
Proof.
  intros Hn Hs H.
  destruct (read_forces_data_returns _ _ _ _ _ _ _ H)
    as (st & f0 & rest & Hscan & Hfr & Hq & Hall & -> & -> & -> & Harr).
  rewrite (FloatFacts.printed_steps_exact nsteps STDPRINT Hn Hs) in Hq.
  assert (Hcount : nsteps / STDPRINT = Z.of_nat (length (f0 :: rest)) - 1)
    by congruence.
  clear Hq.
  exists (f0 :: rest), f0.
  assert (Htake : length (firstn (length f0) (arrangement st)) = length f0).
  { rewrite length_firstn, Harr. cbn [length]. lia. }
  split; [ unfold forces_frames; rewrite Hscan; cbn [rbind]; rewrite Hfr;
           reflexivity | ].
  split; [ reflexivity | ].
  split; [ unfold nrows; cbn [rows]; rewrite length_map; lia | ].
  split; [ exact Hall | ].
  split; [ cbn [ncols]; lia | ].
  split; [ apply FrameFacts.flatten_holds_frames | ].
  split.
  - unfold well_shaped; cbn [rows ncols]. apply Forall_map.
    eapply Forall_impl; [ | exact Hall ]. cbn beta. intros f Hf.
    rewrite FrameFacts.flatten_length, Hf. reflexivity.
  - rewrite !length_map. split; exact Htake.
Qed.

Lemma X2_witness :
  exists fr f0,
    forces_frames Samples.forces_3x2 = Ok fr /\ hd_error fr = Some f0
    /\ Z.of_nat (nrows Cases.forces_3x2_tensor) = 2 / 1 + 1
    /\ Forall (fun f => length f = length f0) fr
    /\ ncols Cases.forces_3x2_tensor = (3 * length f0)%nat
    /\ holds_frames Cases.forces_3x2_tensor fr
    /\ well_shaped Cases.forces_3x2_tensor
    /\ length [1; 2] = length f0
    /\ length ["H"; "O"] = length f0.
Proof.
  apply (X2_forces_data_postcondition Samples.forces_3x2 2 1
           [(1, "H"); (2, "O")] ["H"; "O"] [1; 2] Cases.forces_3x2_tensor).
  - split; [ discriminate | reflexivity ].
  - split; reflexivity.
  - vm_compute. reflexivity.
Defined.

(** What a returning call of [read_position_data] has computed, in terms
    of the state the scan ended in. *)
Lemma read_position_data_returns
      (file : list string) (nsteps STDPRINT : Z) (data : ndarray2) :
  outcome (read_position_data file nsteps STDPRINT) = Ok data ->
  exists st f0 rest,
    position_scan position_init file = Ok st
    /\ flush (p_frames st) (current_frame st) = f0 :: rest
    /\ printed_steps nsteps STDPRINT = Ok (Z.of_nat (length (f0 :: rest)))
    /\ Forall (fun f => length f = length f0) (f0 :: rest)
    /\ data = mk_ndarray2 (length f0 * 3) (map flatten (f0 :: rest)).
Proof.
  rewrite FrameFacts.read_position_data_outcome.
  destruct (position_scan position_init file) as [st | e] eqn:Hscan;
    cbn [rbind]; [ | discriminate ].
  intros Ht.
  destruct (ParserFacts.tensor_of_frames_returns _ _ _ _ _ Ht)
    as (f0 & rest & q & Hfr & Hq & Hcount & Hall & ->).
  exists st, f0, rest. rewrite Hfr in *.
  replace (Z.of_nat (length (f0 :: rest))) with q by lia.
  split; [ reflexivity | ]. split; [ reflexivity | ]. split; [ exact Hq | ].
  split; [ exact Hall | reflexivity ].
Qed.

(** X3: whenever [read_position_data] returns for a step count
    [0 <= nsteps < 2^53] and a stride [0 < STDPRINT < 2^53], the file parsed
    to at least one frame, the tensor has [floor(nsteps / STDPRINT)] rows,
    row [i] holds frame [i] (the coordinates x, y, z of its atom [j] at the
    positions [3j], [3j + 1], [3j + 2]), all the frames list as many atoms
    as the first, and the tensor has three columns per atom. *)
Theorem X3_position_data_postcondition
        (file : list string) (nsteps STDPRINT : Z) (data : ndarray2) :
  0 <= nsteps < 2 ^ 53 -> 0 < STDPRINT < 2 ^ 53 ->
  outcome (read_position_data file nsteps STDPRINT) = Ok data ->
  exists fr f0,
    position_frames file = Ok fr /\ hd_error fr = Some f0
    /\ Z.of_nat (nrows data) = nsteps / STDPRINT
    /\ Forall (fun f => length f = length f0) fr
    /\ ncols data = (3 * length f0)%nat
    /\ holds_frames data fr
    /\ well_shaped data.
Proof.
  intros Hn Hs H.
  destruct (read_position_data_returns _ _ _ _ H)
    as (st & f0 & rest & Hscan & Hfr & Hq & Hall & ->).
  rewrite (FloatFacts.printed_steps_exact nsteps STDPRINT Hn Hs) in Hq.
  assert (Hcount : nsteps / STDPRINT = Z.of_nat (length (f0 :: rest)))
    by congruence.
  clear Hq.
  exists (f0 :: rest), f0.
  split; [ unfold position_frames; rewrite Hscan; cbn [rbind]; rewrite Hfr;
           reflexivity | ].
  split; [ reflexivity | ].
  split; [ unfold nrows; cbn [rows]; rewrite length_map; lia | ].
  split; [ exact Hall | ].
  split; [ cbn [ncols]; lia | ].
  split; [ apply FrameFacts.flatten_holds_frames | ].
  unfold well_shaped; cbn [rows ncols]. apply Forall_map.
  eapply Forall_impl; [ | exact Hall ]. cbn beta. intros f Hf.
  rewrite FrameFacts.flatten_length, Hf. reflexivity.
Qed.

Lemma X3_witness :
  exists fr f0,
    position_frames Samples.xyz_2x2 = Ok fr /\ hd_error fr = Some f0
    /\ Z.of_nat (nrows Cases.xyz_2x2_tensor) = 2 / 1
    /\ Forall (fun f => length f = length f0) fr
    /\ ncols Cases.xyz_2x2_tensor = (3 * length f0)%nat
    /\ holds_frames Cases.xyz_2x2_tensor fr
    /\ well_shaped Cases.xyz_2x2_tensor.
Proof.
  apply (X3_position_data_postcondition Samples.xyz_2x2 2 1
           Cases.xyz_2x2_tensor).
  - split; [ discriminate | reflexivity ].
  - split; reflexivity.
  - vm_compute. reflexivity.
Defined.

(** X4: for step counts of [0, 2^53) and a stride [0 < STDPRINT < 2^53],
    when the number of parsed frames agrees with the declared step count
    ([floor(nsteps / STDPRINT) + 1] frames of forces,
    [floor(nsteps / STDPRINT)] frames of positions) but some frame lists a
    number of atoms other than the first frame's, both parsers fail with
    [ValueError] (the row assignment cannot broadcast), not with the
    assertion. *)
Theorem X4_ragged_frames_value_error
        (forces_file position_file : list string)
        (forces_steps position_steps STDPRINT : Z) (fr pr : list frame) :
  forces_frames forces_file = Ok fr ->
  position_frames position_file = Ok pr ->
  0 <= forces_steps < 2 ^ 53 -> 0 <= position_steps < 2 ^ 53 ->
  0 < STDPRINT < 2 ^ 53 ->
  Z.of_nat (length fr) = forces_steps / STDPRINT + 1 ->
  Z.of_nat (length pr) = position_steps / STDPRINT ->
  (~ uniform fr ->
   outcome (read_forces_data forces_file forces_steps STDPRINT)
   = Raise ValueError)
  /\ (~ uniform pr ->
      outcome (read_position_data position_file position_steps STDPRINT)
      = Raise ValueError).
Proof.
  intros Hf Hp Hfn Hpn Hs Hfc Hpc.
  pose proof (FloatFacts.printed_steps_exact forces_steps STDPRINT Hfn Hs)
    as Hfq.
  pose proof (FloatFacts.printed_steps_exact position_steps STDPRINT Hpn Hs)
    as Hpq.
  split; intros Hnot.
  - rewrite FrameFacts.read_forces_data_outcome.
    unfold forces_frames in Hf.
    destruct (forces_scan forces_init forces_file) as [st | e];
      cbn [rbind] in *; [ | discriminate ].
    injection Hf as Hf. cbv zeta. rewrite Hf.
    rewrite (ParserFacts.tensor_of_frames_ragged fr forces_steps STDPRINT 1 _
               Hfq Hfc Hnot).
    reflexivity.
  - rewrite FrameFacts.read_position_data_outcome.
    unfold position_frames in Hp.
    destruct (position_scan position_init position_file) as [st | e];
      cbn [rbind] in *; [ | discriminate ].
    injection Hp as Hp. rewrite Hp.
    apply (ParserFacts.tensor_of_frames_ragged pr position_steps STDPRINT 0 _
             Hpq); [ lia | exact Hnot ].
Qed.

Lemma X4_witness :
  outcome (read_forces_data Cases.forces_ragged 1 1) = Raise ValueError
  /\ outcome (read_position_data Cases.xyz_ragged 2 1) = Raise ValueError.
Proof.
  destruct (X4_ragged_frames_value_error Cases.forces_ragged Cases.xyz_ragged
              1 2 1 Cases.frames_forces_ragged Cases.frames_xyz_ragged)
    as [Hforces Hpositions].
  - vm_compute; reflexivity.
  - vm_compute; reflexivity.
  - split; [ discriminate | reflexivity ].
  - split; [ discriminate | reflexivity ].
  - split; reflexivity.
  - reflexivity.
  - reflexivity.
  - split; [ apply Hforces | apply Hpositions ];
      intros Hu; inversion Hu as [ | f0 l0 _ Hrest];
      inversion Hrest as [ | f1 l1 Hlen _];
      vm_compute in Hlen; discriminate Hlen.
Defined.





(** X7: a force file each of whose lines is a header, a banner or a line
    of fewer than six fields, and a trajectory file each of whose lines is a
    frame header or a line whose number of fields is not four, list no atom:
    both parsers fail with [IndexError] and print nothing.  The empty file
    and a file of headers alone are such files. *)
Theorem X7_no_atom_index_error
        (forces_file position_file : list string) (nsteps STDPRINT : Z) :
  Forall (fun line => no_force_atom line = true) forces_file ->
  Forall (fun line => no_position line = true) position_file ->
  read_forces_data forces_file nsteps STDPRINT = ([], Raise IndexError)
  /\ read_position_data position_file nsteps STDPRINT = ([], Raise IndexError).
Proof.
  intros Hf Hp. split.
  - destruct (LayoutFacts.forces_scan_no_atom forces_file Hf forces_init
                eq_refl eq_refl) as (st & Hscan & Hfr & Hcur).
    unfold read_forces_data. rewrite Hscan.
    unfold lift at 1. unfold bind at 1. rewrite Hfr, Hcur. reflexivity.
  - destruct (LayoutFacts.position_scan_no_position position_file Hp
                position_init eq_refl eq_refl) as (st & Hscan & Hfr & Hcur).
    unfold read_position_data. rewrite Hscan.
    unfold lift at 1. unfold bind at 1. rewrite Hfr, Hcur. reflexivity.
Qed.

Lemma X7_witness :
  read_forces_data Cases.forces_headers_only 10 1 = ([], Raise IndexError)
  /\ read_position_data Cases.xyz_headers_only 10 1 = ([], Raise IndexError).
Proof.
  apply (X7_no_atom_index_error Cases.forces_headers_only
           Cases.xyz_headers_only 10 1).
  - repeat constructor.
  - repeat constructor.
Defined.

(** X8: with a print stride of zero both parsers fail with
    [ZeroDivisionError] as soon as the file has a frame, whatever the
    declared step count. *)
Theorem X8_zero_stride_division_error
        (forces_file position_file : list string) (nsteps : Z)
        (fr pr : list frame) :
  forces_frames forces_file = Ok fr -> fr <> [] ->
  position_frames position_file = Ok pr -> pr <> [] ->
  outcome (read_forces_data forces_file nsteps 0) = Raise ZeroDivisionError
  /\ outcome (read_position_data position_file nsteps 0)
     = Raise ZeroDivisionError.
Proof.
  intros Hf Hfne Hp Hpne. split.
  - rewrite FrameFacts.read_forces_data_outcome.
    unfold forces_frames in Hf.
    destruct (forces_scan forces_init forces_file) as [st | e];
      cbn [rbind] in *; [ | discriminate ].
    injection Hf as Hf. cbv zeta. rewrite Hf.
    rewrite (ParserFacts.tensor_of_frames_zero_stride fr nsteps 1 Hfne).
    reflexivity.
  - rewrite FrameFacts.read_position_data_outcome.
    unfold position_frames in Hp.
    destruct (position_scan position_init position_file) as [st | e];
      cbn [rbind] in *; [ | discriminate ].
    injection Hp as Hp. rewrite Hp.
    apply ParserFacts.tensor_of_frames_zero_stride. exact Hpne.
Qed.

Lemma X8_witness :
  outcome (read_forces_data Samples.forces_3x2 2 0) = Raise ZeroDivisionError
  /\ outcome (read_position_data Samples.xyz_2x2 2 0) = Raise ZeroDivisionError.
Proof.
  apply (X8_zero_stride_division_error Samples.forces_3x2 Samples.xyz_2x2 2
           Samples.frames_3x2 Samples.frames_2x2).
  - vm_compute; reflexivity.
  - discriminate.
  - vm_compute; reflexivity.
  - discriminate.
Defined.

(** X9: for a force file laid out in [F >= 1] blocks of [A >= 1] atoms, a
    step count [0 <= nsteps < 2^53] and a stride [0 < STDPRINT < 2^53] with
    [F = floor(nsteps / STDPRINT) + 1], the returned
    [kind_to_element] has each kind once as a key, and looking a kind up
    gives the element of the last line of the file that lists this kind
    (nothing for a kind that no line lists). *)
Theorem X9_kind_to_element_lookup
        (preamble : list string) (blocks : list block) (nsteps STDPRINT : Z)
        (F A : nat) :
  Forall (fun line => is_forces_header line = false) preamble ->
  Forall (block_of A) blocks ->
  length blocks = F -> (1 <= F)%nat -> (1 <= A)%nat ->
  0 <= nsteps < 2 ^ 53 -> 0 < STDPRINT < 2 ^ 53 ->
  Z.of_nat F = nsteps / STDPRINT + 1 ->
  exists kind_to_element ordering_letter ordering_number data,
    outcome (read_forces_data (force_file preamble blocks) nsteps STDPRINT)
    = Ok (kind_to_element, ordering_letter, ordering_number, data)
    /\ NoDup (dict_keys kind_to_element)
    /\ forall k : Z,
         dict_get Z.eqb k kind_to_element
         = last_element k (listed_pairs blocks).
Proof.
  intros Hpre Hblocks HF H1 HA Hn Hs Hcount.
  do 4 eexists.
  split; [ exact (TextFacts.read_forces_data_blocks preamble blocks nsteps
                    STDPRINT F A Hpre Hblocks HF H1 HA Hn Hs Hcount) | ].
  split.
  - apply LayoutFacts.assign_all_nodup. constructor.
  - intros k. rewrite LayoutFacts.assign_all_get.
    destruct (last_element k (listed_pairs blocks)); reflexivity.
Qed.

Lemma X9_witness :
  exists kind_to_element ordering_letter ordering_number data,
    outcome (read_forces_data
               (force_file Samples.preamble_3x2 Cases.blocks_renamed) 1 1)
    = Ok (kind_to_element, ordering_letter, ordering_number, data)
    /\ NoDup (dict_keys kind_to_element)
    /\ forall k : Z,
         dict_get Z.eqb k kind_to_element
         = last_element k (listed_pairs Cases.blocks_renamed).
Proof.
  apply (X9_kind_to_element_lookup Samples.preamble_3x2 Cases.blocks_renamed
           1 1 2 2).
  - repeat constructor.
  - repeat constructor; vm_compute; reflexivity.
  - reflexivity.
  - lia.
  - lia.
  - split; [ discriminate | reflexivity ].
  - split; reflexivity.
  - reflexivity.
Defined.

(** In the sample the kind 1 is listed as H, then as D: the lookup gives
    D. *)
Example renamed_kind :
  last_element 1 (listed_pairs Cases.blocks_renamed) = Some "D".
Proof. vm_compute. reflexivity. Qed.

(** X10: when the keys of [kind_to_element] are 1, 2, ..., n in this order
    (the kinds first appear in increasing order), the line written to
    type.raw for an atom of kind [k], which is [k - 1], reads back as the
    index in type_map.raw of the element recorded for [k]. *)
Theorem X10_type_index_in_type_map
        (kind_to_element : list (Z * string)) (n : nat) (k : Z)
        (element : string) :
  dict_keys kind_to_element = consecutive 1 n ->
  dict_get Z.eqb k kind_to_element = Some element ->
  Converter.type_lines [k] = [PyStr.string_of_int (k - 1)]
  /\ exists i,
       PyStr.int_of_string (PyStr.string_of_int (k - 1)) = Ok i
       /\ 0 <= i
       /\ nth_error (Converter.type_map_lines kind_to_element) (Z.to_nat i)
          = Some element.
Proof.
  intros Hkeys Hget. split; [ reflexivity | ].
  destruct (LayoutFacts.dict_get_consecutive _ _ _ _ _ Hkeys Hget)
    as [Hle Hnth].
  exists (k - 1). split; [ apply DecimalFacts.int_of_string_of_int | ].
  split; [ lia | exact Hnth ].
Qed.

Lemma X10_witness :
  Converter.type_lines [2] = [PyStr.string_of_int (2 - 1)]
  /\ exists i,
       PyStr.int_of_string (PyStr.string_of_int (2 - 1)) = Ok i
       /\ 0 <= i
       /\ nth_error (Converter.type_map_lines [(1, "H"); (2, "O")]) (Z.to_nat i)
          = Some "O".
Proof.
  apply (X10_type_index_in_type_map [(1, "H"); (2, "O")] 2 2 "O").
  - reflexivity.
  - reflexivity.
Defined.

(** X29: the quotient [int(nsteps / STDPRINT)] that both parsers compare
    the number of frames with, for a step count and a stride of absolute
    value below [2^53]: a zero stride raises [ZeroDivisionError]; otherwise
    the binary64 quotient, truncated, is the integer quotient rounded toward
    zero, hence [floor(nsteps / STDPRINT)] for a non-negative step count and
    a positive stride. *)
Theorem X29_quotient_truncates (nsteps STDPRINT : Z) :
  - 2 ^ 53 < nsteps < 2 ^ 53 -> - 2 ^ 53 < STDPRINT < 2 ^ 53 ->
  (STDPRINT = 0 ->
   printed_steps nsteps STDPRINT = Raise ZeroDivisionError)
  /\ (STDPRINT <> 0 ->
      printed_steps nsteps STDPRINT = Ok (Z.quot nsteps STDPRINT))
  /\ (0 <= nsteps -> 0 < STDPRINT ->
      printed_steps nsteps STDPRINT = Ok (nsteps / STDPRINT)).
Proof.
  intros Hn Hs.
  assert (Hq : STDPRINT <> 0 ->
               printed_steps nsteps STDPRINT = Ok (Z.quot nsteps STDPRINT)).
  { intros Hs0. unfold printed_steps.
    destruct STDPRINT as [ | b | b]; [ congruence | | ];
      (destruct nsteps as [ | a | a]; [ reflexivity | | ]).
    - rewrite Z.quot_div_nonneg by lia.
      exact (FloatFacts.divide_floor false a b ltac:(lia) ltac:(lia)).
    - change (Z.neg a) with (- Zpos a). rewrite Z.quot_opp_l by lia.
      rewrite Z.quot_div_nonneg by lia.
      exact (FloatFacts.divide_floor true a b ltac:(lia) ltac:(lia)).
    - change (Z.neg b) with (- Zpos b). rewrite Z.quot_opp_r by lia.
      rewrite Z.quot_div_nonneg by lia.
      exact (FloatFacts.divide_floor true a b ltac:(lia) ltac:(lia)).
    - change (Z.neg a) with (- Zpos a). change (Z.neg b) with (- Zpos b).
      rewrite Z.quot_opp_opp by lia. rewrite Z.quot_div_nonneg by lia.
      exact (FloatFacts.divide_floor false a b ltac:(lia) ltac:(lia)). }
  split; [ intros ->; reflexivity | ]. split; [ exact Hq | ].
  intros Hn0 Hs1. rewrite Hq by lia. f_equal. apply Z.quot_div_nonneg; lia.
Qed.

Lemma X29_witness :
  (2 = 0 -> printed_steps (-7) 2 = Raise ZeroDivisionError)
  /\ (2 <> 0 -> printed_steps (-7) 2 = Ok (Z.quot (-7) 2))
  /\ (0 <= -7 -> 0 < 2 -> printed_steps (-7) 2 = Ok (-7 / 2)).
Proof.
  apply (X29_quotient_truncates (-7) 2); split; reflexivity.
Defined.

(** For a negative step count the truncated quotient is not the floor. *)
Example negative_quotient_truncated :
  printed_steps (-7) 2 = Ok (-3) /\ -7 / 2 = -4.
Proof. split; vm_compute; reflexivity. Qed.

(* ===================================================================== *)
(** * Further facts about the scalar series reader *)
(* ===================================================================== *)

Module ReaderFacts.
Import Utils SeriesSpec ReaderSpec.

Lemma dict_mem_in (c : string) (d : series) :
  dict_mem String.eqb c d = true <-> In c (dict_keys d).
Proof.
  unfold dict_mem.
  pose proof (dict_get_none_keys String.eqb String.eqb_spec c d) as [H1 H2].
  destruct (dict_get String.eqb c d) as [l | ] eqn:Hg.
  - split; [ intros _ | reflexivity ].
    destruct (in_dec string_dec c (dict_keys d)) as [Hin | Hout];
      [ exact Hin | ].
    specialize (H2 Hout). discriminate H2.
  - split; [ discriminate | ]. intros Hin. exfalso. exact (H1 eq_refl Hin).
Qed.

Lemma value_effect_keys_exact (c v : string) (data : series) :
  dict_keys (value_effect c v data)
  = if dict_mem String.eqb c data then dict_keys data else dict_keys data ++ [c].
Proof.
  unfold value_effect.
  set (data1 := if dict_mem String.eqb c data then data
                else dict_set String.eqb c [] data).
  assert (H1 : dict_keys data1
               = if dict_mem String.eqb c data then dict_keys data
                 else dict_keys data ++ [c]).
  { subst data1. destruct (dict_mem String.eqb c data) eqn:Hm;
      [ reflexivity | ].
    rewrite (dict_set_keys String.eqb String.eqb_spec), Hm. reflexivity. }
  assert (Hmem : dict_mem String.eqb c data1 = true).
  { subst data1. unfold dict_mem.
    destruct (dict_get String.eqb c data) eqn:Hg; [ rewrite Hg; reflexivity | ].
    rewrite SeriesFacts.get_set_same. reflexivity. }
  destruct (PyStr.float_of_string v); [ | exact H1 ].
  rewrite (dict_set_keys String.eqb String.eqb_spec), Hmem. exact H1.
Qed.

(** Columns that are all new are appended in order. *)
Lemma values_effect_keys_new (cs : list string) :
  forall (vs : list string) (data : series),
    length vs = length cs -> NoDup cs ->
    (forall c, In c cs -> ~ In c (dict_keys data)) ->
    dict_keys (values_effect cs vs data) = dict_keys data ++ cs.
Proof.
  induction cs as [ | c cs IH]; intros [ | v vs] data Hlen Hnd Hnew;
    try discriminate; cbn [values_effect].
  - rewrite app_nil_r. reflexivity.
  - inversion Hnd as [ | ? ? Hnotin Hnd']; subst.
    assert (Hm : dict_mem String.eqb c data = false).
    { destruct (dict_mem String.eqb c data) eqn:E; [ | reflexivity ].
      apply dict_mem_in in E. exfalso. exact (Hnew c (or_introl eq_refl) E). }
    rewrite IH.
    + rewrite value_effect_keys_exact, Hm, <- app_assoc. reflexivity.
    + simpl in Hlen. lia.
    + exact Hnd'.
    + intros c' Hc'. rewrite value_effect_keys_exact, Hm.
      intros Hin. apply in_app_or in Hin. destruct Hin as [Hin | [<- | []]].
      * exact (Hnew c' (or_intror Hc') Hin).
      * exact (Hnotin Hc').
Qed.

(** Columns that are all present leave the keys as they are. *)
Lemma values_effect_keys_old (cs : list string) :
  forall (vs : list string) (data : series),
    (forall c, In c cs -> In c (dict_keys data)) ->
    dict_keys (values_effect cs vs data) = dict_keys data.
Proof.
  induction cs as [ | c cs IH]; intros [ | v vs] data Hold;
    cbn [values_effect]; try reflexivity.
  assert (Hm : dict_mem String.eqb c data = true)
    by (apply dict_mem_in, Hold; left; reflexivity).
  assert (Hk : dict_keys (value_effect c v data) = dict_keys data)
    by (rewrite value_effect_keys_exact, Hm; reflexivity).
  rewrite IH; [ exact Hk | ].
  intros c' Hc'. rewrite Hk. apply Hold. right. exact Hc'.
Qed.

Lemma existsb_filter {A} (p : A -> bool) (l : list A) :
  existsb p l = (0 <? length (filter p l))%nat.
Proof.
  induction l as [ | x l IH]; [ reflexivity | ].
  cbn [existsb filter]. destruct (p x); [ reflexivity | exact IH ].
Qed.

(** The keys are the schema, in its order, as soon as one row matched. *)
Lemma rows_effect_keys_exact (cols : list string) (rows : list string) :
  NoDup cols ->
  forall data : series,
    dict_keys data = [] \/ dict_keys data = cols ->
    dict_keys (rows_effect cols data rows)
    = if (0 <? matched_rows cols rows)%nat then cols else dict_keys data.
Proof.
  intros Hnd. unfold matched_rows. rewrite <- existsb_filter.
  unfold rows_effect.
  induction rows as [ | row rows IH]; intros data Hd; [ reflexivity | ].
  cbn [fold_left existsb]. unfold row_effect at 2.
  destruct (matches cols row) eqn:Hm; cbn [orb].
  - assert (Hk : dict_keys (values_effect cols (row_values row) data) = cols).
    { unfold matches in Hm. apply Nat.eqb_eq in Hm.
      destruct Hd as [Hd | Hd].
      - rewrite values_effect_keys_new, Hd; [ reflexivity | exact Hm | exact Hnd | ].
        intros c _. rewrite Hd. intros [].
      - rewrite values_effect_keys_old; [ exact Hd | ].
        intros c Hc. rewrite Hd. exact Hc. }
    rewrite IH by (right; exact Hk).
    rewrite Hk. destruct (existsb (matches cols) rows); reflexivity.
  - apply IH. exact Hd.
Qed.

(** The length of each column of the returned series. *)
Lemma series_column_length
      (file : list string) (nsteps STDPRINT : Z) (TIMESTEP : Float64.float)
      (type : string) (data : series) :
  type = "cell" \/ type = "energy" ->
  outcome (read_cell_or_energy_data file nsteps STDPRINT TIMESTEP None type)
  = Ok data ->
  NoDup (dict_keys data)
  /\ dict_keys data
     = (if (0 <? matched_rows (schema type) (tl file))%nat
        then schema type else [])
  /\ forall name l,
       In (name, l) data ->
       length l = converted_rows (schema type) name (tl file).
Proof.
  intros Htype Hret.
  destruct (SeriesFacts.read_cell_or_energy_data_returns
              file nsteps STDPRINT TIMESTEP type data Htype Hret)
    as (header & rows & -> & ->).
  cbn [tl].
  destruct (SeriesFacts.rows_effect_keys (schema type) rows []
              (NoDup_nil _) (incl_nil_l _)) as [Hnd _].
  split; [ exact Hnd | ]. split.
  - rewrite (rows_effect_keys_exact (schema type) rows
               (SeriesFacts.schema_nodup type) []) by (left; reflexivity).
    reflexivity.
  - intros name l Hin.
    pose proof (SeriesFacts.rows_effect_col (schema type) name rows []
                  (SeriesFacts.schema_nodup type)) as Hlen.
    unfold col_of at 1 in Hlen.
    rewrite (dict_get_in String.eqb String.eqb_spec name l _ Hnd Hin) in Hlen.
    exact Hlen.
Qed.

(** Rows that do not match are reported and leave the dictionary as it
    is. *)
Lemma read_rows_unmatched (cols : list string) (rows : list string)
      (data : series) :
  matched_rows cols rows = 0%nat ->
  read_rows (Some cols) data rows
  = (repeat (Print WarnRow) (length rows), Ok data).
Proof.
  unfold matched_rows.
  induction rows as [ | row rows IH]; intros H; [ reflexivity | ].
  cbn [filter] in H. cbn [read_rows]. unfold read_row.
  fold (row_values row). fold (matches cols row).
  destruct (matches cols row); [ discriminate H | ].
  cbn [negb]. unfold print, emit, ret. cbn [bind app].
  rewrite IH by exact H. reflexivity.
Qed.

Lemma slice_map {A B} (f : A -> B) (l : list A) (lo hi : option Z) :
  map f (PyList.slice l lo hi) = PyList.slice (map f l) lo hi.
Proof.
  unfold PyList.slice. rewrite length_map, skipn_map, firstn_map. reflexivity.
Qed.

End ReaderFacts.

(* ===================================================================== *)
(** * Further properties of the scalar series reader *)
(* ===================================================================== *)

Import ReaderSpec.

(** X11: the keys of the series returned for a cell or energy file are the
    columns of the schema, all of them and in the order of the schema, as
    soon as one row has as many fields as the schema has columns; when no row
    has, the series is empty. *)
Theorem X11_series_keys_in_schema_order
        (file : list string) (nsteps STDPRINT : Z) (TIMESTEP : Float64.float)
        (type : string) (data : series) :
  type = "cell" \/ type = "energy" ->
  outcome (read_cell_or_energy_data file nsteps STDPRINT TIMESTEP None type)
  = Ok data ->
  dict_keys data
  = if (0 <? matched_rows (schema type) (tl file))%nat
    then schema type else [].
Proof.
  intros Htype Hret.
  destruct (ReaderFacts.series_column_length file nsteps STDPRINT TIMESTEP
              type data Htype Hret) as (_ & Hkeys & _).
  exact Hkeys.
Qed.

Lemma X11_witness :
  dict_keys Samples.series_cell_2
  = if (0 <? matched_rows (schema "cell") (tl Samples.cell_2))%nat
    then schema "cell" else [].
Proof.
  apply (X11_series_keys_in_schema_order Samples.cell_2 2 1 Samples.half
           "cell" Samples.series_cell_2).
  - left. reflexivity.
  - vm_compute. reflexivity.
Defined.

(** X12: for a cell or energy file with a first line and no row of as many
    fields as the schema has columns (a file of its header alone is one), the
    reader warns once per row, reports that the time column is missing, and
    returns the empty series: it does not raise. *)
Theorem X12_no_matched_row
        (header : string) (rows : list string) (nsteps STDPRINT : Z)
        (TIMESTEP : Float64.float) (type : string) :
  type = "cell" \/ type = "energy" ->
  matched_rows (schema type) rows = 0%nat ->
  read_cell_or_energy_data (header :: rows) nsteps STDPRINT TIMESTEP None type
  = (repeat (Print WarnRow) (length rows)
       ++ [Print (NoTime (time_name type) type)],
     Ok []).
Proof.
  intros Htype Hnone. unfold read_cell_or_energy_data.
  destruct Htype as [-> | ->].
  - change (default_columns None "cell") with (ret (Some cell_columns)).
    unfold ret at 1. unfold bind at 1.
    change (schema "cell") with cell_columns in Hnone.
    rewrite (ReaderFacts.read_rows_unmatched cell_columns rows [] Hnone).
    reflexivity.
  - change (default_columns None "energy") with (ret (Some energy_columns)).
    unfold ret at 1. unfold bind at 1.
    change (schema "energy") with energy_columns in Hnone.
    rewrite (ReaderFacts.read_rows_unmatched energy_columns rows [] Hnone).
    reflexivity.
Qed.

Lemma X12_witness :
  read_cell_or_energy_data (Samples.cell_header :: tl Cases.cell_unmatched)
    2 1 Samples.half None "cell"
  = (repeat (Print WarnRow) (length (tl Cases.cell_unmatched))
       ++ [Print (NoTime (time_name "cell") "cell")],
     Ok []).
Proof.
  apply (X12_no_matched_row Samples.cell_header (tl Cases.cell_unmatched)
           2 1 Samples.half "cell").
  - left. reflexivity.
  - vm_compute. reflexivity.
Defined.

(** X13: with a type other than cell and energy the reader never returns.
    Without a column list it prints that the type is unknown and then fails:
    with [StopIteration] on an empty file, with [UnboundLocalError] on a file
    of one line, with [TypeError] at the first row otherwise.  With a column
    list it reads all the rows of a non-empty file and then fails with
    [UnboundLocalError], since the name of the time column is not bound. *)
Theorem X13_unknown_type_never_returns
        (file : list string) (nsteps STDPRINT : Z) (TIMESTEP : Float64.float)
        (type : string) :
  type <> "cell" -> type <> "energy" ->
  read_cell_or_energy_data file nsteps STDPRINT TIMESTEP None type
  = unknown_type_run file
  /\ forall columns : list string,
       file <> [] ->
       outcome (read_cell_or_energy_data file nsteps STDPRINT TIMESTEP
                  (Some columns) type)
       = Raise UnboundLocalError.
Proof.
  intros Hc He.
  apply String.eqb_neq in Hc. apply String.eqb_neq in He.
  assert (Hnames : step_time_names type = raise UnboundLocalError)
    by (unfold step_time_names; rewrite Hc, He; reflexivity).
  split.
  - unfold read_cell_or_energy_data, default_columns. rewrite Hc, He.
    destruct file as [ | header [ | row rows]]; cbn [unknown_type_run].
    + reflexivity.
    + cbn [read_rows]. unfold diagnostic. rewrite Hnames. reflexivity.
    + cbn [read_rows read_row]. reflexivity.
  - intros columns Hne. destruct file as [ | header rows]; [ congruence | ].
    unfold read_cell_or_energy_data, default_columns.
    rewrite outcome_bind. cbn [outcome ret snd rbind].
    rewrite outcome_bind, SeriesFacts.read_rows_outcome. cbn [rbind].
    rewrite outcome_bind. unfold diagnostic. rewrite Hnames. reflexivity.
Qed.

Lemma X13_witness :
  read_cell_or_energy_data Samples.cell_2 2 1 Samples.half None "stress"
  = unknown_type_run Samples.cell_2
  /\ forall columns : list string,
       Samples.cell_2 <> [] ->
       outcome (read_cell_or_energy_data Samples.cell_2 2 1 Samples.half
                  (Some columns) "stress")
       = Raise UnboundLocalError.
Proof.
  apply (X13_unknown_type_never_returns Samples.cell_2 2 1 Samples.half
           "stress").
  - discriminate.
  - discriminate.
Defined.

(** X14: when the reader returns for a cell file in which at least one row
    has twelve fields and every field of every such row is a float, the
    data frame is built, the columns [2:-1] taken for the box are the nine
    components of the cell vectors (the step, the time and the volume are
    left out), and the box array has one row per matched row and nine
    columns. *)
Theorem X14_box_array_columns
        (file : list string) (nsteps STDPRINT : Z) (TIMESTEP : Float64.float)
        (data : series) :
  outcome (read_cell_or_energy_data file nsteps STDPRINT TIMESTEP None "cell")
  = Ok data ->
  (1 <= matched_rows cell_columns (tl file))%nat ->
  (forall row tok, In row (tl file) -> matches cell_columns row = true ->
                   In tok (row_values row) -> converts tok = true) ->
  Np.data_frame data = Ok data
  /\ dict_keys (PyList.slice data (Some 2) (Some (-1))) = box_columns
  /\ shape (Np.iloc_to_numpy data (Some 2) (Some (-1)))
     = (matched_rows cell_columns (tl file), 9%nat)
  /\ well_shaped (Np.iloc_to_numpy data (Some 2) (Some (-1))).
Proof.
  intros Hret Hone Hall.
  destruct (ReaderFacts.series_column_length file nsteps STDPRINT TIMESTEP
              "cell" data (or_introl eq_refl) Hret) as (Hnd & Hkeys & Hlen).
  change (schema "cell") with cell_columns in *.
  destruct (Nat.ltb_spec 0 (matched_rows cell_columns (tl file))) as [_ | Hlt];
    [ | lia ].
  assert (Hcol : forall name l, In (name, l) data ->
                                length l = matched_rows cell_columns (tl file)).
  { intros name l Hin. rewrite (Hlen name l Hin).
    apply SeriesFacts.converted_rows_all; [ | exact Hall ].
    rewrite <- Hkeys. unfold dict_keys.
    change name with (fst (name, l)). apply in_map. exact Hin. }
  assert (Hslice : dict_keys (PyList.slice data (Some 2) (Some (-1)))
                   = box_columns).
  { unfold dict_keys. rewrite ReaderFacts.slice_map.
    fold (dict_keys data). rewrite Hkeys. reflexivity. }
  destruct data as [ | [k c] rest]; [ discriminate Hkeys | ].
  assert (Hc : length c = matched_rows cell_columns (tl file))
    by (apply (Hcol k c); left; reflexivity).
  split; [ | split; [ exact Hslice | split ] ].
  - unfold Np.data_frame.
    replace (forallb (fun kc => (length (snd kc) =? length c)%nat) rest)
      with true; [ reflexivity | ].
    symmetry. apply forallb_forall. intros [k' c'] Hin. cbn [snd].
    apply Nat.eqb_eq. rewrite Hc. apply (Hcol k' c'). right. exact Hin.
  - unfold shape, nrows, Np.iloc_to_numpy. cbn [rows ncols Np.frame_len].
    rewrite length_map, length_seq, Hc. f_equal.
    rewrite length_map.
    rewrite <- (length_map fst). fold (dict_keys (PyList.slice ((k, c) :: rest)
                                                    (Some 2) (Some (-1)))).
    rewrite Hslice. reflexivity.
  - unfold well_shaped, Np.iloc_to_numpy. cbn [rows ncols].
    apply Forall_map. apply Forall_forall. intros i _.
    rewrite length_map. reflexivity.
Qed.

Lemma X14_witness :
  Np.data_frame Samples.series_cell_2 = Ok Samples.series_cell_2
  /\ dict_keys (PyList.slice Samples.series_cell_2 (Some 2) (Some (-1)))
     = box_columns
  /\ shape (Np.iloc_to_numpy Samples.series_cell_2 (Some 2) (Some (-1)))
     = (matched_rows cell_columns (tl Samples.cell_2), 9%nat)
  /\ well_shaped (Np.iloc_to_numpy Samples.series_cell_2 (Some 2) (Some (-1))).
Proof.
  apply (X14_box_array_columns Samples.cell_2 2 1 Samples.half
           Samples.series_cell_2).
  - vm_compute. reflexivity.
  - vm_compute. lia.
  - intros row tok Hrow _ Htok.
    destruct Hrow as [<- | [<- | []]]; vm_compute in Htok;
      repeat (destruct Htok as [<- | Htok]; [ vm_compute; reflexivity | ]);
      destruct Htok.
Defined.

(** X15: when the reader returns for an energy file, the conserved
    quantity handed to the converter is missing ([KeyError]) if no row has
    seven fields, and has one value per matched row if at least one row has
    seven fields and every field of every such row is a float. *)
Theorem X15_conserved_quantity_column
        (file : list string) (nsteps STDPRINT : Z) (TIMESTEP : Float64.float)
        (data : series) :
  outcome (read_cell_or_energy_data file nsteps STDPRINT TIMESTEP None "energy")
  = Ok data ->
  (matched_rows energy_columns (tl file) = 0%nat ->
   Np.data_frame data = Ok data
   /\ Np.column data "Cons Qty[a.u.]" = Raise KeyError)
  /\ ((1 <= matched_rows energy_columns (tl file))%nat ->
      (forall row tok, In row (tl file) -> matches energy_columns row = true ->
                       In tok (row_values row) -> converts tok = true) ->
      Np.data_frame data = Ok data
      /\ exists l,
           Np.column data "Cons Qty[a.u.]" = Ok l
           /\ length l = matched_rows energy_columns (tl file)).
Proof.
  intros Hret.
  destruct (ReaderFacts.series_column_length file nsteps STDPRINT TIMESTEP
              "energy" data (or_intror eq_refl) Hret) as (Hnd & Hkeys & Hlen).
  change (schema "energy") with energy_columns in *.
  split.
  - intros Hzero. rewrite Hzero in Hkeys. cbn [Nat.ltb Nat.leb] in Hkeys.
    destruct data; [ | discriminate Hkeys ]. split; reflexivity.
  - intros Hone Hall.
    destruct (Nat.ltb_spec 0 (matched_rows energy_columns (tl file)))
      as [_ | Hlt]; [ | lia ].
    assert (Hcol : forall name l, In (name, l) data ->
                     length l = matched_rows energy_columns (tl file)).
    { intros name l Hin. rewrite (Hlen name l Hin).
      apply SeriesFacts.converted_rows_all; [ | exact Hall ].
      rewrite <- Hkeys. unfold dict_keys.
      change name with (fst (name, l)). apply in_map. exact Hin. }
    split.
    + destruct data as [ | [k c] rest]; [ reflexivity | ].
      unfold Np.data_frame.
      replace (forallb (fun kc => (length (snd kc) =? length c)%nat) rest)
        with true; [ reflexivity | ].
      symmetry. apply forallb_forall. intros [k' c'] Hin. cbn [snd].
      apply Nat.eqb_eq. rewrite (Hcol k c) by (left; reflexivity).
      apply (Hcol k' c'). right. exact Hin.
    + assert (Hin : In "Cons Qty[a.u.]" (dict_keys data)).
      { rewrite Hkeys. unfold energy_columns. cbn [In]. tauto. }
      unfold dict_keys in Hin. apply in_map_iff in Hin.
      destruct Hin as ([k l] & Hk & Hin). cbn [fst] in Hk. subst k.
      exists l. split; [ | exact (Hcol _ l Hin) ].
      unfold Np.column.
      rewrite (dict_get_in String.eqb String.eqb_spec _ l data Hnd Hin).
      reflexivity.
Qed.

Lemma X15_witness :
  (Np.data_frame [] = Ok []
   /\ Np.column [] "Cons Qty[a.u.]" = Raise KeyError)
  /\ (Np.data_frame Cases.series_energy_2 = Ok Cases.series_energy_2
      /\ exists l,
           Np.column Cases.series_energy_2 "Cons Qty[a.u.]" = Ok l
           /\ length l = matched_rows energy_columns (tl Samples.energy_2)).
Proof.
  split.
  - apply (X15_conserved_quantity_column Cases.energy_header_only 2 1
             Samples.half []).
    + vm_compute. reflexivity.
    + reflexivity.
  - apply (X15_conserved_quantity_column Samples.energy_2 2 1 Samples.half
             Cases.series_energy_2).
    + vm_compute. reflexivity.
    + vm_compute. lia.
    + intros row tok Hrow _ Htok.
      destruct Hrow as [<- | [<- | []]]; vm_compute in Htok;
        repeat (destruct Htok as [<- | Htok]; [ vm_compute; reflexivity | ]);
        destruct Htok.
Defined.

(** X16: when the reader returns a series in which two columns of the
    schema got different numbers of values (a field that is not a float was
    skipped in one of them), the data frame cannot be built: [pd.DataFrame]
    fails with [ValueError]. *)
Theorem X16_ragged_series_value_error
        (file : list string) (nsteps STDPRINT : Z) (TIMESTEP : Float64.float)
        (type : string) (data : series) (name1 name2 : string) :
  type = "cell" \/ type = "energy" ->
  outcome (read_cell_or_energy_data file nsteps STDPRINT TIMESTEP None type)
  = Ok data ->
  In name1 (schema type) -> In name2 (schema type) ->
  converted_rows (schema type) name1 (tl file)
  <> converted_rows (schema type) name2 (tl file) ->
  Np.data_frame data = Raise ValueError.
Proof.
  intros Htype Hret H1 H2 Hdiff.
  destruct (ReaderFacts.series_column_length file nsteps STDPRINT TIMESTEP
              type data Htype Hret) as (Hnd & Hkeys & Hlen).
  assert (Hpos : (0 < matched_rows (schema type) (tl file))%nat).
  { pose proof (SeriesFacts.converted_rows_le (schema type) name1 (tl file)).
    pose proof (SeriesFacts.converted_rows_le (schema type) name2 (tl file)).
    lia. }
  destruct (Nat.ltb_spec 0 (matched_rows (schema type) (tl file)))
    as [_ | Hle]; [ | lia ].
  assert (Hfind : forall name, In name (schema type) ->
                    exists l, In (name, l) data
                              /\ length l
                                 = converted_rows (schema type) name (tl file)).
  { intros name Hname. rewrite <- Hkeys in Hname.
    unfold dict_keys in Hname. apply in_map_iff in Hname.
    destruct Hname as ([k l] & Hk & Hin). cbn [fst] in Hk. subst k.
    exists l. split; [ exact Hin | exact (Hlen _ l Hin) ]. }
  destruct (Hfind name1 H1) as (l1 & Hin1 & Hl1).
  destruct (Hfind name2 H2) as (l2 & Hin2 & Hl2).
  destruct data as [ | [k c] rest]; [ destruct Hin1 | ].
  unfold Np.data_frame.
  destruct (forallb (fun kc => (length (snd kc) =? length c)%nat) rest) eqn:Hall;
    [ | reflexivity ].
  exfalso. rewrite forallb_forall in Hall.
  assert (Hsame : forall name l, In (name, l) ((k, c) :: rest) ->
                                 length l = length c).
  { intros name l [Heq | Hin].
    - injection Heq as _ <-. reflexivity.
    - apply Nat.eqb_eq. exact (Hall (name, l) Hin). }
  apply Hdiff. rewrite <- Hl1, <- Hl2.
  rewrite (Hsame _ _ Hin1), (Hsame _ _ Hin2). reflexivity.
Qed.

Lemma X16_witness :
  Np.data_frame Cases.series_cell_bad_time = Raise ValueError.
Proof.
  apply (X16_ragged_series_value_error Samples.cell_bad_time 3 1 Samples.half
           "cell" Cases.series_cell_bad_time "Step" "Time [fs]").
  - left. reflexivity.
  - vm_compute. reflexivity.
  - vm_compute. tauto.
  - vm_compute. tauto.
  - vm_compute. discriminate.
Defined.

(* ===================================================================== *)
(** * Further facts about persistence and the converter *)
(* ===================================================================== *)

Module ChunkFacts.
Import Persist SplitterSpec ChunkSpec.

Lemma slice_rows_between {A} (l : list A) (lo n : nat) :
  PyList.slice l (Some (Z.of_nat lo)) (Some (Z.of_nat (lo + n)))
  = rows_between lo n l.
Proof.
  unfold PyList.slice, PyList.clamp, rows_between.
  destruct (Z.ltb_spec (Z.of_nat lo) 0) as [ | _]; [ lia | ].
  destruct (Z.ltb_spec (Z.of_nat (lo + n)) 0) as [ | _]; [ lia | ].
  destruct (Nat.le_gt_cases lo (length l)) as [Hlo | Hlo].
  - rewrite (Z.min_l (Z.of_nat lo)) by lia. rewrite Nat2Z.id.
    destruct (Nat.le_gt_cases (lo + n) (length l)) as [Hhi | Hhi].
    + rewrite Z.min_l by lia.
      replace (Z.to_nat (Z.of_nat (lo + n) - Z.of_nat lo)) with n by lia.
      reflexivity.
    + rewrite Z.min_r by lia.
      replace (Z.to_nat (Z.of_nat (length l) - Z.of_nat lo))
        with (length l - lo)%nat by lia.
      rewrite !firstn_all2; [ reflexivity | | ]; rewrite length_skipn; lia.
  - rewrite (Z.min_r (Z.of_nat lo)) by lia.
    rewrite Z.min_r by lia. rewrite Z.sub_diag, Nat2Z.id.
    rewrite !skipn_all2 by lia. rewrite !firstn_nil. reflexivity.
Qed.

Lemma range_from_seq (c : nat) :
  forall s : nat, PyList.range_from (Z.of_nat s) c = map Z.of_nat (seq s c).
Proof.
  induction c as [ | c IH]; intros s; [ reflexivity | ].
  cbn [PyList.range_from seq map]. f_equal.
  replace (Z.of_nat s + 1) with (Z.of_nat (S s)) by lia. apply IH.
Qed.

Lemma range_seq (c : nat) : PyList.range (Z.of_nat c) = map Z.of_nat (seq 0 c).
Proof. unfold PyList.range. rewrite Nat2Z.id. apply (range_from_seq c 0). Qed.

Lemma for_each_events {A} (f : A -> M unit) (g : A -> list event) (l : list A) :
  (forall x, In x l -> f x = (g x, Ok tt)) ->
  for_each f l = (flat_map g l, Ok tt).
Proof.
  induction l as [ | x l IH]; intros H; [ reflexivity | ].
  cbn [for_each flat_map]. rewrite (H x (or_introl eq_refl)).
  rewrite IH by (intros y Hy; apply H; right; exact Hy). reflexivity.
Qed.

Lemma firstn_plus {A} (a b : nat) (l : list A) :
  firstn (a + b) l = firstn a l ++ firstn b (skipn a l).
Proof.
  revert l; induction a as [ | a IH]; intros l; [ reflexivity | ].
  destruct l as [ | x l]; cbn [Nat.add firstn skipn app].
  - rewrite firstn_nil. reflexivity.
  - rewrite IH. reflexivity.
Qed.

(** Consecutive subsets of [n] rows make up the leading rows. *)
Lemma chunks_concat {A} (n : nat) (l : list A) (c : nat) :
  forall s : nat,
    concat (map (fun i => rows_between (i * n) n l) (seq s c))
    = firstn (n * c) (skipn (s * n) l).
Proof.
  unfold rows_between.
  induction c as [ | c IH]; intros s.
  - rewrite Nat.mul_0_r. reflexivity.
  - cbn [seq map concat]. rewrite IH.
    replace (n * S c)%nat with (n + n * c)%nat by lia.
    rewrite firstn_plus, skipn_skipn. reflexivity.
Qed.

Lemma chunk_length {A} (n i : nat) (l : list A) :
  ((i + 1) * n <= length l)%nat -> length (rows_between (i * n) n l) = n.
Proof.
  intros H. unfold rows_between. rewrite length_firstn, length_skipn. lia.
Qed.

(** The body of the loop over the subsets. *)
Lemma save_chunk_events (root : string) (d : dataset) (n i : nat) :
  Persist.save_chunk root d (Z.of_nat n) (Z.of_nat i)
  = (chunk_events root d n i, Ok tt).
Proof.
  unfold save_chunk, chunk_events, chunk_rows, Np.slice2.
  replace (Z.of_nat i * Z.of_nat n) with (Z.of_nat (i * n)) by lia.
  replace ((Z.of_nat i + 1) * Z.of_nat n) with (Z.of_nat (i * n + n)) by lia.
  rewrite !slice_rows_between. reflexivity.
Qed.

Lemma save_chunked_events (root : string) (d : dataset) (c : nat)
      (after : string -> M unit) (said : string -> list event) :
  (1 <= c)%nat ->
  (forall name, after name = (said name, Ok tt)) ->
  Persist.save_chunked root d (Z.of_nat c) after
  = (flat_map (fun i => chunk_events root d (nrows (box d) / c) i
                        ++ said (pad3 (Z.of_nat i)))
              (seq 0 c),
     Ok tt).
Proof.
  intros Hc Hafter. unfold save_chunked.
  destruct (Z.eqb_spec (Z.of_nat c) 0) as [ | _]; [ lia | ].
  rewrite <- Nat2Z.inj_div, range_seq.
  rewrite (for_each_events _
             (fun z => chunk_events root d (nrows (box d) / c) (Z.to_nat z)
                       ++ said (pad3 z))).
  - f_equal. rewrite flat_map_concat_map, map_map, <- flat_map_concat_map.
    apply flat_map_ext. intros i. rewrite Nat2Z.id. reflexivity.
  - intros z Hz. apply in_map_iff in Hz. destruct Hz as (i & <- & _).
    rewrite save_chunk_events, Hafter, Nat2Z.id. cbn [bind].
    reflexivity.
Qed.

End ChunkFacts.

(* ===================================================================== *)
(** * Further properties of persistence and of the converter *)
(* ===================================================================== *)

Import ChunkSpec.

(** X17: in the chunked branch of the converter with [c >= 1] subsets and
    a dataset of [N] steps, exactly the subsets 0, ..., c-1 are written, each
    with [N div c] steps in each of its four arrays (as float32); put end to
    end the subsets are the leading [(N div c) * c] steps of the dataset, so
    the last [N mod c] steps are written to no subset. *)
Theorem X17_chunks_cover_leading_rows
        (save_path : string) (a : Converter.args) (d : Persist.dataset)
        (c N : nat) :
  Converter.SPLIT a = true -> Converter.SPLIT_COUNT a = Z.of_nat c ->
  (1 <= c)%nat -> consistent d N ->
  Converter.persist save_path a d
  = (flat_map (chunk_events save_path d (N / c)) (seq 0 c), Ok tt)
  /\ Forall (fun x => steps x = [N / c; N / c; N / c; N / c]%nat)
            (chunks (N / c) c d)
  /\ concat (map (fun x => rows (Persist.box x)) (chunks (N / c) c d))
     = rows (Persist.box (head_rows (N / c * c) d))
  /\ concat (map Persist.energy (chunks (N / c) c d))
     = Persist.energy (head_rows (N / c * c) d)
  /\ concat (map (fun x => rows (Persist.coord x)) (chunks (N / c) c d))
     = rows (Persist.coord (head_rows (N / c * c) d))
  /\ concat (map (fun x => rows (Persist.force x)) (chunks (N / c) c d))
     = rows (Persist.force (head_rows (N / c * c) d))
  /\ (N - N / c * c = N mod c)%nat.
Proof.
  intros HS HC Hc Hcons.
  destruct (SplitFacts.consistent_lengths d N Hcons) as (Hb & He & Hco & Hf).
  assert (Hfit : (c * (N / c) <= N)%nat) by (apply Nat.Div0.mul_div_le).
  split; [ | split; [ | split; [ | split; [ | split; [ | split ] ] ] ] ].
  - unfold Converter.persist. rewrite HS, HC.
    rewrite (ChunkFacts.save_chunked_events save_path d c (fun _ => ret tt)
               (fun _ => [])); [ | exact Hc | reflexivity ].
    rewrite Hb. reflexivity.
  - unfold chunks. apply Forall_map. apply Forall_forall. intros i Hi.
    apply in_seq in Hi.
    assert (Hi' : ((i + 1) * (N / c) <= N)%nat) by nia.
    unfold steps, chunk_rows, nrows in *.
    cbn [Persist.box Persist.energy Persist.coord Persist.force rows].
    rewrite !ChunkFacts.chunk_length by lia. reflexivity.
  - unfold chunks, head_rows. rewrite map_map.
    cbn [chunk_rows Persist.box rows].
    rewrite (ChunkFacts.chunks_concat (N / c) _ c 0). reflexivity.
  - unfold chunks, head_rows. rewrite map_map.
    cbn [chunk_rows Persist.energy].
    rewrite (ChunkFacts.chunks_concat (N / c) _ c 0). reflexivity.
  - unfold chunks, head_rows. rewrite map_map.
    cbn [chunk_rows Persist.coord rows].
    rewrite (ChunkFacts.chunks_concat (N / c) _ c 0). reflexivity.
  - unfold chunks, head_rows. rewrite map_map.
    cbn [chunk_rows Persist.force rows].
    rewrite (ChunkFacts.chunks_concat (N / c) _ c 0). reflexivity.
  - pose proof (Nat.div_mod_eq N c). nia.
Qed.

Lemma X17_witness :
  Converter.persist "out" Cases.args_split_3 Samples.dataset_10
  = (flat_map (chunk_events "out" Samples.dataset_10 (10 / 3)) (seq 0 3), Ok tt)
  /\ Forall (fun x => steps x = [10 / 3; 10 / 3; 10 / 3; 10 / 3]%nat)
            (chunks (10 / 3) 3 Samples.dataset_10)
  /\ concat (map (fun x => rows (Persist.box x))
               (chunks (10 / 3) 3 Samples.dataset_10))
     = rows (Persist.box (head_rows (10 / 3 * 3) Samples.dataset_10))
  /\ concat (map Persist.energy (chunks (10 / 3) 3 Samples.dataset_10))
     = Persist.energy (head_rows (10 / 3 * 3) Samples.dataset_10)
  /\ concat (map (fun x => rows (Persist.coord x))
               (chunks (10 / 3) 3 Samples.dataset_10))
     = rows (Persist.coord (head_rows (10 / 3 * 3) Samples.dataset_10))
  /\ concat (map (fun x => rows (Persist.force x))
               (chunks (10 / 3) 3 Samples.dataset_10))
     = rows (Persist.force (head_rows (10 / 3 * 3) Samples.dataset_10))
  /\ (10 - 10 / 3 * 3 = 10 mod 3)%nat.
Proof.
  apply (X17_chunks_cover_leading_rows "out" Cases.args_split_3
           Samples.dataset_10 3 10).
  - reflexivity.
  - reflexivity.
  - lia.
  - split; vm_compute; reflexivity.
Defined.

(** X18: in the chunked branch a subset count of zero fails with
    [ZeroDivisionError], and a negative one returns normally; in both cases
    no array is written. *)
Theorem X18_no_subset_for_nonpositive_count
        (save_path : string) (a : Converter.args) (d : Persist.dataset) :
  Converter.SPLIT a = true -> Converter.SPLIT_COUNT a <= 0 ->
  Converter.persist save_path a d
  = ([], if Converter.SPLIT_COUNT a =? 0 then Raise ZeroDivisionError
         else Ok tt).
Proof.
  intros HS Hc. unfold Converter.persist, Persist.save_chunked. rewrite HS.
  destruct (Z.eqb_spec (Converter.SPLIT_COUNT a) 0) as [ | Hne];
    [ reflexivity | ].
  unfold PyList.range.
  replace (Z.to_nat (Converter.SPLIT_COUNT a)) with 0%nat by lia.
  reflexivity.
Qed.

Lemma X18_witness :
  Converter.persist "out" Cases.args_split_minus Samples.dataset_10
  = ([], if Converter.SPLIT_COUNT Cases.args_split_minus =? 0
         then Raise ZeroDivisionError else Ok tt).
Proof.
  apply (X18_no_subset_for_nonpositive_count "out" Cases.args_split_minus
           Samples.dataset_10).
  - reflexivity.
  - vm_compute. discriminate.
Defined.

Module ConverterFacts.
Import Persist SplitterSpec ChunkSpec.

Lemma outcome_open_read (fs : Converter.file_system) (path : string) :
  outcome (Converter.open_read fs path)
  = match fs path with
    | Some lines => Ok lines
    | None => Raise FileNotFoundError
    end.
Proof. unfold Converter.open_read. destruct (fs path); reflexivity. Qed.

(** What a returning pass of the loop over the groups has done. *)
Lemma load_group_returns (fs : Converter.file_system) (a : Converter.args)
      (file : string) (nsteps : Z) (g : Converter.group) :
  outcome (Converter.load_group fs a file nsteps) = Ok g ->
  Converter.ZERO_DATA a = false
  /\ exists coord_lines force_lines,
       fs (file ++ "-Trajectory.xyz")%string = Some coord_lines
       /\ fs (file ++ "-Forces.for")%string = Some force_lines
       /\ outcome (Utils.read_position_data coord_lines nsteps
                     (Converter.STDPRINT a))
          = Ok (Converter.g_coord g)
       /\ outcome (Utils.read_forces_data force_lines nsteps
                     (Converter.STDPRINT a))
          = Ok (Converter.g_kind_to_element g, Converter.g_ordering_letter g,
                Converter.g_ordering_number g, Converter.g_force g).
Proof.
  unfold Converter.load_group. rewrite outcome_bind.
  destruct (outcome (Converter.load_scalars fs a file nsteps))
    as [[cell energy] | e]; cbn [rbind]; [ | discriminate ].
  rewrite outcome_bind.
  destruct (Converter.ZERO_DATA a); cbn [outcome raise ret snd rbind];
    [ discriminate | ].
  rewrite outcome_bind, outcome_print. cbn [rbind].
  rewrite outcome_bind, outcome_open_read.
  destruct (fs (file ++ "-Trajectory.xyz")%string) as [coord_lines | ];
    cbn [rbind]; [ | discriminate ].
  rewrite outcome_bind.
  destruct (outcome (Utils.read_position_data coord_lines nsteps _))
    as [coord | e] eqn:Hcoord; cbn [rbind]; [ | discriminate ].
  rewrite outcome_bind, outcome_print. cbn [rbind].
  rewrite outcome_bind, outcome_open_read.
  destruct (fs (file ++ "-Forces.for")%string) as [force_lines | ];
    cbn [rbind]; [ | discriminate ].
  rewrite outcome_bind.
  destruct (outcome (Utils.read_forces_data force_lines nsteps _))
    as [[[[k l] n] f] | e] eqn:Hforce; cbn [rbind]; [ | discriminate ].
  rewrite outcome_bind, outcome_lift.
  destruct (Np.column energy "Cons Qty[a.u.]") as [en | e]; cbn [rbind];
    [ | discriminate ].
  intros H. injection H as <-. cbn.
  split; [ reflexivity | ].
  exists coord_lines, force_lines. auto.
Qed.

Lemma load_groups_returns (fs : Converter.file_system) (a : Converter.args)
      (work : list (string * Z)) :
  forall gs : list Converter.group,
    outcome (Converter.load_groups fs a work) = Ok gs ->
    Forall2 (fun fn g =>
               outcome (Converter.load_group fs a (fst fn) (snd fn)) = Ok g)
            work gs.
Proof.
  induction work as [ | [file nsteps] work IH]; intros gs H.
  - injection H as <-. constructor.
  - cbn [Converter.load_groups] in H. rewrite outcome_bind in H.
    destruct (outcome (Converter.load_group fs a file nsteps)) as [g | e] eqn:Hg;
      cbn [rbind] in H; [ | discriminate ].
    rewrite outcome_bind in H.
    destruct (outcome (Converter.load_groups fs a work)) as [gs' | e] eqn:Hgs;
      cbn [rbind] in H; [ | discriminate ].
    injection H as <-. constructor; [ exact Hg | apply IH; reflexivity ].
Qed.

Lemma concatenate2_rows (l : list ndarray2) (x : ndarray2) :
  Np.concatenate2 l = Ok x -> rows x = concat (map rows l).
Proof.
  unfold Np.concatenate2. destruct l as [ | a rest]; [ discriminate | ].
  destruct (forallb _ rest); [ | discriminate ].
  intros H. injection H as <-. reflexivity.
Qed.

Lemma concatenate_groups_rows (gs : list Converter.group) (d : dataset) :
  Converter.concatenate_groups gs = Ok d ->
  rows (coord d) = concat (map rows (map Converter.g_coord gs))
  /\ rows (force d)
     = concat (map rows (map Converter.drop_first (map Converter.g_force gs))).
Proof.
  unfold Converter.concatenate_groups.
  destruct (Np.concatenate2 (map Converter.g_cell gs)) as [c | ];
    cbn [rbind]; [ | discriminate ].
  destruct (Np.concatenate1 (map Converter.g_energy gs)) as [e | ];
    cbn [rbind]; [ | discriminate ].
  destruct (Np.concatenate2 (map Converter.g_coord gs)) as [co | ] eqn:Hco;
    cbn [rbind]; [ | discriminate ].
  destruct (Np.concatenate2 (map Converter.drop_first _)) as [f | ] eqn:Hf;
    cbn [rbind]; [ | discriminate ].
  intros H. injection H as <-. cbn [coord force].
  split; apply concatenate2_rows; assumption.
Qed.

Lemma drop_first_rows (x : ndarray2) :
  nrows (Converter.drop_first x) = pred (nrows x).
Proof.
  unfold Converter.drop_first, Np.slice2, nrows. cbn [rows].
  rewrite SliceFacts.slice_tail. destruct (rows x); reflexivity.
Qed.

End ConverterFacts.

(** X19: whenever a pass of the converter's loop over the groups returns,
    [ZERO_DATA] is off, the forces of the group have one row more than its
    coordinates, so that dropping the first row of the forces leaves as many
    rows as the coordinates have; the coordinates have
    [floor(nsteps / STDPRINT)] rows when [0 <= nsteps < 2^53] and
    [0 < STDPRINT < 2^53]; both tensors have rows of one length, and the
    forces have three columns per entry of the ordering list. *)
Theorem X19_group_rows
        (fs : Converter.file_system) (a : Converter.args) (file : string)
        (nsteps : Z) (g : Converter.group) :
  outcome (Converter.load_group fs a file nsteps) = Ok g ->
  Converter.ZERO_DATA a = false
  /\ (0 <= nsteps < 2 ^ 53 -> 0 < Converter.STDPRINT a < 2 ^ 53 ->
      Z.of_nat (nrows (Converter.g_coord g)) = nsteps / Converter.STDPRINT a)
  /\ nrows (Converter.g_force g) = S (nrows (Converter.g_coord g))
  /\ nrows (Converter.drop_first (Converter.g_force g))
     = nrows (Converter.g_coord g)
  /\ well_shaped (Converter.g_coord g)
  /\ well_shaped (Converter.g_force g)
  /\ ncols (Converter.g_force g)
     = (3 * length (Converter.g_ordering_number g))%nat.
Proof.
  intros H.
  destruct (ConverterFacts.load_group_returns fs a file nsteps g H)
    as (Hz & cl & fl & _ & _ & Hc & Hf).
  destruct (read_position_data_returns _ _ _ _ Hc)
    as (ps & p0 & prest & _ & _ & Hpq & Hpall & Hpdata).
  destruct (read_forces_data_returns _ _ _ _ _ _ _ Hf)
    as (fs' & f0 & frest & _ & _ & Hfq & Hfall & Hfdata & Hnum & _
        & Harr).
  rewrite Hpdata, Hfdata, Hnum.
  assert (Hsame : Z.of_nat (length (f0 :: frest)) - 1
                  = Z.of_nat (length (p0 :: prest))) by congruence.
  assert (Hshaped : forall (x : frame) (l : list frame),
             Forall (fun f => length f = length x) l ->
             well_shaped (mk_ndarray2 (length x * 3) (map flatten l))).
  { intros x l Hall. unfold well_shaped; cbn [rows ncols]. apply Forall_map.
    eapply Forall_impl; [ | exact Hall ]. cbn beta. intros f Hlen.
    rewrite FrameFacts.flatten_length, Hlen. reflexivity. }
  assert (Hrows : nrows (mk_ndarray2 (length f0 * 3) (map flatten (f0 :: frest)))
                  = S (nrows (mk_ndarray2 (length p0 * 3)
                                (map flatten (p0 :: prest))))).
  { unfold nrows; cbn [rows]. rewrite !length_map. lia. }
  split; [ exact Hz | ].
  split.
  { intros Hn Hs.
    rewrite (FloatFacts.printed_steps_exact nsteps _ Hn Hs) in Hpq.
    unfold nrows; cbn [rows]; rewrite length_map. congruence. }
  split; [ exact Hrows | ].
  split; [ rewrite ConverterFacts.drop_first_rows, Hrows; reflexivity | ].
  split; [ apply Hshaped; exact Hpall | ].
  split; [ apply Hshaped; exact Hfall | ].
  cbn [ncols]. rewrite length_map, length_firstn, Harr. cbn [length]. nia.
Qed.

Lemma X19_witness :
  Converter.ZERO_DATA (Samples.args_run false) = false
  /\ (0 <= 2 < 2 ^ 53 ->
      0 < Converter.STDPRINT (Samples.args_run false) < 2 ^ 53 ->
      Z.of_nat (nrows (Converter.g_coord Cases.group_run))
      = 2 / Converter.STDPRINT (Samples.args_run false))
  /\ nrows (Converter.g_force Cases.group_run)
     = S (nrows (Converter.g_coord Cases.group_run))
  /\ nrows (Converter.drop_first (Converter.g_force Cases.group_run))
     = nrows (Converter.g_coord Cases.group_run)
  /\ well_shaped (Converter.g_coord Cases.group_run)
  /\ well_shaped (Converter.g_force Cases.group_run)
  /\ ncols (Converter.g_force Cases.group_run)
     = (3 * length (Converter.g_ordering_number Cases.group_run))%nat.
Proof.
  apply (X19_group_rows Samples.files_run (Samples.args_run false) "d/run" 2
           Cases.group_run).
  vm_compute. reflexivity.
Defined.

(** X20: when the loop over the groups returns and the concatenation
    succeeds, the forces of the dataset have as many rows as its
    coordinates: of the step counts the consistency check compares, those
    of coordinates and forces always agree; and when the step counts are in
    [0, 2^53) and the stride in (0, 2^53), the coordinates have as many rows
    as the groups declare steps (the sum of [floor(nsteps / STDPRINT)]). *)
Theorem X20_dataset_steps
        (fs : Converter.file_system) (a : Converter.args)
        (work : list (string * Z)) (gs : list Converter.group)
        (d : Persist.dataset) :
  outcome (Converter.load_groups fs a work) = Ok gs ->
  Converter.concatenate_groups gs = Ok d ->
  length gs = length work
  /\ nrows (Persist.force d) = nrows (Persist.coord d)
  /\ (Forall (fun fn => 0 <= snd fn < 2 ^ 53) work ->
      0 < Converter.STDPRINT a < 2 ^ 53 ->
      Z.of_nat (nrows (Persist.coord d))
      = declared_steps (Converter.STDPRINT a) work).
Proof.
  intros Hload Hcat.
  apply ConverterFacts.load_groups_returns in Hload.
  destruct (ConverterFacts.concatenate_groups_rows gs d Hcat) as [Hc Hf].
  unfold nrows. rewrite Hc, Hf. clear Hc Hf Hcat d.
  induction Hload as [ | [file nsteps] g work gs Hg _ IH].
  - repeat split; reflexivity.
  - cbn [fst snd] in Hg.
    destruct (ConverterFacts.load_group_returns fs a file nsteps g Hg)
      as (_ & cl & fl & _ & _ & Hpos & Hfor).
    destruct (read_position_data_returns _ _ _ _ Hpos)
      as (ps & p0 & prest & _ & _ & Hpq & _ & Hpdata).
    destruct (read_forces_data_returns _ _ _ _ _ _ _ Hfor)
      as (fs' & f0 & frest & _ & _ & Hfq & _ & Hfdata & _).
    assert (Hsame : Z.of_nat (length (f0 :: frest)) - 1
                    = Z.of_nat (length (p0 :: prest))) by congruence.
    assert (Hpl : length (rows (Converter.g_coord g)) = length (p0 :: prest))
      by (rewrite Hpdata; cbn [rows]; apply length_map).
    assert (Hfl : length (rows (Converter.g_force g)) = length (f0 :: frest))
      by (rewrite Hfdata; cbn [rows]; apply length_map).
    pose proof (ConverterFacts.drop_first_rows (Converter.g_force g)) as Hdrop.
    unfold nrows in *.
    destruct IH as (Hlen & Heq & Hsum).
    cbn [map concat length declared_steps fold_right snd].
    rewrite !length_app.
    fold (declared_steps (Converter.STDPRINT a) work).
    split; [ lia | ]. split; [ lia | ].
    intros Hwork Hs. inversion Hwork as [ | ? ? Hn Hrest]; subst.
    cbn [snd] in Hn. specialize (Hsum Hrest Hs).
    rewrite (FloatFacts.printed_steps_exact nsteps _ Hn Hs) in Hpq.
    assert (Hq : nsteps / Converter.STDPRINT a
                 = Z.of_nat (length (p0 :: prest))) by congruence.
    lia.
Qed.

Lemma X20_witness :
  length [Cases.group_run] = length [("d/run", 2)]
  /\ nrows (Persist.force Cases.dataset_run)
     = nrows (Persist.coord Cases.dataset_run)
  /\ (Forall (fun fn : string * Z => 0 <= snd fn < 2 ^ 53) [("d/run", 2)] ->
      0 < Converter.STDPRINT (Samples.args_run false) < 2 ^ 53 ->
      Z.of_nat (nrows (Persist.coord Cases.dataset_run))
      = declared_steps (Converter.STDPRINT (Samples.args_run false))
          [("d/run", 2)]).
Proof.
  apply (X20_dataset_steps Samples.files_run (Samples.args_run false)
           [("d/run", 2)] [Cases.group_run] Cases.dataset_run).
  - vm_compute. reflexivity.
  - vm_compute. reflexivity.
Defined.

Module WriterFacts.
Import TextSpec.

(** The elements the scan records are tokens of the lines. *)
Lemma forces_step_tokens (st st1 : forces_state) (line : string) :
  Forall (fun ke : Z * string => no_space (snd ke) = true) (arrangement st) ->
  forces_step st line = Ok st1 ->
  Forall (fun ke : Z * string => no_space (snd ke) = true) (arrangement st1).
Proof.
  intros Harr Hstep. unfold forces_step in Hstep.
  pose proof (TextFacts.split_no_space line) as Htok.
  destruct (is_forces_header line).
  - injection Hstep as <-. destruct (nonempty (current_frames st)); exact Harr.
  - destruct (negb (header_found st) || PyStr.contains "ATOMIC FORCES" line).
    { injection Hstep as <-. exact Harr. }
    destruct (PyStr.split line) as [ | a [ | k [ | e [ | x [ | y [ | z r]]]]]];
      try (injection Hstep as <-; exact Harr).
    destruct (PyStr.int_of_string k) as [kv | ]; cbn [rbind] in Hstep;
      [ | discriminate ].
    destruct (PyStr.float_of_string x) as [fx | ]; cbn [rbind] in Hstep;
      [ | discriminate ].
    destruct (PyStr.float_of_string y) as [fy | ]; cbn [rbind] in Hstep;
      [ | discriminate ].
    destruct (PyStr.float_of_string z) as [fz | ]; cbn [rbind] in Hstep;
      [ | discriminate ].
    injection Hstep as <-. cbn [arrangement].
    apply Forall_app. split; [ exact Harr | ].
    inversion Htok as [ | ? ? _ H1]. inversion H1 as [ | ? ? _ H2].
    inversion H2 as [ | ? ? He _]. repeat constructor. exact He.
Qed.

Lemma forces_scan_tokens (file : list string) :
  forall st st1 : forces_state,
    Forall (fun ke : Z * string => no_space (snd ke) = true) (arrangement st) ->
    forces_scan st file = Ok st1 ->
    Forall (fun ke : Z * string => no_space (snd ke) = true) (arrangement st1).
Proof.
  induction file as [ | line file IH]; intros st st1 Harr Hscan;
    cbn [forces_scan] in Hscan.
  - injection Hscan as <-. exact Harr.
  - destruct (forces_step st line) as [st' | e] eqn:Hstep; cbn [rbind] in Hscan;
      [ | discriminate ].
    eapply IH; [ | exact Hscan ]. eapply forces_step_tokens; eassumption.
Qed.

(** The elements of a returned type map hold no space. *)
Lemma read_forces_data_elements
      (file : list string) (nsteps STDPRINT : Z)
      (k2e : list (Z * string)) (letters : list string) (numbers : list Z)
      (data : ndarray2) :
  outcome (read_forces_data file nsteps STDPRINT)
  = Ok (k2e, letters, numbers, data) ->
  Forall (fun ke : Z * string => no_space (snd ke) = true) k2e.
Proof.
  rewrite FrameFacts.read_forces_data_outcome.
  destruct (forces_scan forces_init file) as [st | e] eqn:Hscan;
    cbn [rbind]; [ | discriminate ].
  cbv zeta.
  destruct (tensor_of_frames _ nsteps STDPRINT 1) as [t | e]; cbn [rbind];
    [ | discriminate ].
  intros H. injection H as <- _ _ _.
  destruct (FrameFacts.forces_scan_inv file _ _ FrameFacts.scan_inv_init Hscan)
    as [_ Hk].
  pose proof (forces_scan_tokens file forces_init st (Forall_nil _) Hscan)
    as Htok.
  rewrite Hk.
  eapply Forall_impl; [ | apply TextFacts.assign_all_entries ].
  cbn beta. intros [k e] He. cbn [fst snd] in *.
  apply TextFacts.last_element_in in He.
  rewrite Forall_forall in Htok. exact (Htok _ He).
Qed.

Lemma concatenate_groups_dtypes (gs : list Converter.group)
      (d : Persist.dataset) :
  Converter.concatenate_groups gs = Ok d ->
  Persist.stored_as d = Persist.all_float64.
Proof.
  unfold Converter.concatenate_groups.
  destruct (Np.concatenate2 (map Converter.g_cell gs)) as [c | ];
    cbn [rbind]; [ | discriminate ].
  destruct (Np.concatenate1 (map Converter.g_energy gs)) as [e | ];
    cbn [rbind]; [ | discriminate ].
  destruct (Np.concatenate2 (map Converter.g_coord gs)) as [co | ];
    cbn [rbind]; [ | discriminate ].
  destruct (Np.concatenate2 (map Converter.drop_first _)) as [f | ];
    cbn [rbind]; [ | discriminate ].
  intros H. injection H as <-. reflexivity.
Qed.

Lemma last_group_last (front : list Converter.group) (g : Converter.group) :
  Converter.last_group (front ++ [g]) = Some g.
Proof. unfold Converter.last_group. rewrite rev_app_distr. reflexivity. Qed.

End WriterFacts.

(** X21: when the loop over the groups returns, the concatenated dataset
    passes the consistency check and [SPLIT] is off, the converter returns,
    and after the output of the loop it prints its three progress messages,
    saves under [set.000] of the save path (the input path when none is
    given) the four arrays of the dataset as float64, in the order box,
    energy, coord, force, writes [type_map.raw], whose lines are the
    elements of the type map of the last group in its order, then
    [type.raw], whose lines are the decimal numerals of the kinds of the
    last group's ordering list minus one, and prints the execution time. *)
Theorem X21_converter_run
        (fs : Converter.file_system) (a : Converter.args)
        (front : list Converter.group) (g : Converter.group)
        (d : Persist.dataset) (sp : string) (N : nat) :
  length (Converter.FILES a) = length (Converter.NSTEPS a) ->
  outcome (Converter.load_groups fs a
             (combine (Converter.input_files a) (Converter.NSTEPS a)))
  = Ok (front ++ [g]) ->
  Converter.concatenate_groups (front ++ [g]) = Ok d ->
  consistent d N ->
  save_path_of a = Some sp ->
  Converter.SPLIT a = false ->
  exists type_map type type_lines,
    Converter.main fs a
    = (events (Converter.load_groups fs a
                 (combine (Converter.input_files a) (Converter.NSTEPS a)))
       ++ [Print (ProcessingAll (length (Converter.input_files a)));
           Print StepsMatch; Print (Writing sp);
           Save ((sp ++ "/set.000") ++ "/box.npy")
                (Npy2 Float_64 (Persist.box d));
           Save ((sp ++ "/set.000") ++ "/energy.npy")
                (Npy1 Float_64 (Persist.energy d));
           Save ((sp ++ "/set.000") ++ "/coord.npy")
                (Npy2 Float_64 (Persist.coord d));
           Save ((sp ++ "/set.000") ++ "/force.npy")
                (Npy2 Float_64 (Persist.force d));
           WriteText (sp ++ "/type_map.raw") type_map;
           WriteText (sp ++ "/type.raw") type;
           Print ExecutionTime],
       Ok tt)
    /\ TextSpec.has_lines type_map (map snd (Converter.g_kind_to_element g))
    /\ TextSpec.has_lines type type_lines
    /\ Forall2 (fun line k => line = NilZero.string_of_int (Z.to_int (k - 1)))
               type_lines (Converter.g_ordering_number g).
Proof.
  intros Hlen Hgs Hd HN Hsp Hsplit.
  exists (Converter.write_lines
            (Converter.type_map_lines (Converter.g_kind_to_element g))),
         (Converter.write_lines
            (Converter.type_lines (Converter.g_ordering_number g))),
         (Converter.type_lines (Converter.g_ordering_number g)).
  split; [ | split; [ | split ] ].
  - unfold Converter.main. fold (save_path_of a). rewrite Hlen, Nat.eqb_refl.
    unfold assert at 1. unfold ret at 1. unfold bind at 1. cbv zeta.
    set (work := combine (Converter.input_files a) (Converter.NSTEPS a)) in *.
    destruct (Converter.load_groups fs a work) as [l1 r1].
    cbn [outcome snd] in Hgs. subst r1. cbn [bind events fst].
    rewrite Hd. cbn [lift bind print emit app].
    rewrite (SplitFacts.consistency_check_passes d N HN). cbn [bind app].
    rewrite Hsp. unfold Converter.persist. rewrite Hsplit.
    unfold Persist.save_whole.
    rewrite (WriterFacts.concatenate_groups_dtypes _ d Hd).
    rewrite WriterFacts.last_group_last.
    unfold Converter.write_types.
    cbn [emit bind app print Persist.all_float64 Persist.box_dtype
         Persist.energy_dtype Persist.coord_dtype Persist.force_dtype].
    reflexivity.
  - apply TextFacts.write_lines_has_lines.
    apply ConverterFacts.load_groups_returns in Hgs.
    apply Forall2_app_inv_r in Hgs.
    destruct Hgs as (w1 & w2 & _ & Hlast & _).
    inversion Hlast as [ | fn g' ? ? Hg _]; subst.
    destruct (ConverterFacts.load_group_returns _ _ _ _ _ Hg)
      as (_ & cl & fl & _ & _ & _ & Hf).
    apply WriterFacts.read_forces_data_elements in Hf.
    unfold Converter.type_map_lines, dict_values. apply Forall_map. exact Hf.
  - apply TextFacts.write_lines_has_lines.
    unfold Converter.type_lines. apply Forall_map. apply Forall_forall.
    intros k _. apply TextFacts.string_of_int_no_space.
  - unfold Converter.type_lines. apply TextFacts.forall2_map_left.
    apply Forall_forall. intros k _. reflexivity.
Qed.

Lemma X21_witness :
  exists type_map type type_lines,
    Converter.main Samples.files_run (Samples.args_run false)
    = (events (Converter.load_groups Samples.files_run (Samples.args_run false)
                 (combine (Converter.input_files (Samples.args_run false))
                    (Converter.NSTEPS (Samples.args_run false))))
       ++ [Print (ProcessingAll
                    (length (Converter.input_files (Samples.args_run false))));
           Print StepsMatch; Print (Writing "d");
           Save (("d" ++ "/set.000") ++ "/box.npy")
                (Npy2 Float_64 (Persist.box Cases.dataset_run));
           Save (("d" ++ "/set.000") ++ "/energy.npy")
                (Npy1 Float_64 (Persist.energy Cases.dataset_run));
           Save (("d" ++ "/set.000") ++ "/coord.npy")
                (Npy2 Float_64 (Persist.coord Cases.dataset_run));
           Save (("d" ++ "/set.000") ++ "/force.npy")
                (Npy2 Float_64 (Persist.force Cases.dataset_run));
           WriteText ("d" ++ "/type_map.raw") type_map;
           WriteText ("d" ++ "/type.raw") type;
           Print ExecutionTime],
       Ok tt)
    /\ TextSpec.has_lines type_map
         (map snd (Converter.g_kind_to_element Cases.group_run))
    /\ TextSpec.has_lines type type_lines
    /\ Forall2 (fun line k => line = NilZero.string_of_int (Z.to_int (k - 1)))
               type_lines (Converter.g_ordering_number Cases.group_run).
Proof.
  apply (X21_converter_run Samples.files_run (Samples.args_run false)
           [] Cases.group_run Cases.dataset_run "d" 2).
  - reflexivity.
  - vm_compute. reflexivity.
  - vm_compute. reflexivity.
  - split; vm_compute; reflexivity.
  - reflexivity.
  - reflexivity.
Defined.

(* ===================================================================== *)
(** * Further facts about the splitter *)
(* ===================================================================== *)

Module SplitterFacts.
Import Persist SplitterSpec ShuffleSpec.

Lemma clamp_bounds (n k : Z) : 0 <= n -> 0 <= PyList.clamp n k <= n.
Proof.
  intros Hn. unfold PyList.clamp. destruct (Z.ltb_spec k 0); lia.
Qed.

(** [l[:k]] and [l[k:]] for any integer [k]. *)
Lemma slice_to_any {A} (l : list A) (k : Z) :
  PyList.slice l None (Some k) = firstn (split_point (length l) k) l.
Proof.
  unfold PyList.slice, split_point. rewrite Z.sub_0_r. reflexivity.
Qed.

Lemma slice_from_any {A} (l : list A) (k : Z) :
  PyList.slice l (Some k) None = skipn (split_point (length l) k) l.
Proof.
  unfold PyList.slice, split_point.
  pose proof (clamp_bounds (Z.of_nat (length l)) k ltac:(lia)) as Hb.
  apply firstn_all2. rewrite length_skipn. lia.
Qed.

Lemma for_each_assert {A} (p : A -> bool) (l : list A) :
  for_each (fun x => assert (p x)) l
  = ([], if forallb p l then Ok tt else Raise AssertionError).
Proof.
  induction l as [ | x l IH]; [ reflexivity | ].
  cbn [for_each forallb]. destruct (p x); cbn [assert andb].
  - rewrite IH. reflexivity.
  - reflexivity.
Qed.

(** Indexing with an index array. *)
Lemma take_reorder {A} (dflt : A) (l : list A) (idx : list nat) :
  forall l', Splitter.take l idx = Ok l' -> l' = reorder dflt idx l.
Proof.
  induction idx as [ | i idx IH]; intros l' H.
  - injection H as <-. reflexivity.
  - cbn [Splitter.take] in H.
    destruct (nth_error l i) as [x | ] eqn:Hx; [ | discriminate ].
    destruct (Splitter.take l idx) as [xs | ]; cbn [rbind] in H;
      [ | discriminate ].
    injection H as <-. unfold reorder. cbn [map].
    rewrite (nth_error_nth l i dflt Hx). f_equal. apply IH. reflexivity.
Qed.

Lemma reorder_identity {A} (dflt : A) (l : list A) :
  reorder dflt (seq 0 (length l)) l = l.
Proof.
  unfold reorder. induction l as [ | x l IH]; [ reflexivity | ].
  cbn [length seq map nth]. f_equal.
  rewrite <- seq_shift, map_map. exact IH.
Qed.

Lemma reorder_permutation {A} (dflt : A) (l : list A) (idx : list nat) :
  Permutation idx (seq 0 (length l)) -> Permutation (reorder dflt idx l) l.
Proof.
  intros H. rewrite <- (reorder_identity dflt l) at 2.
  unfold reorder. apply Permutation_map. exact H.
Qed.

End SplitterFacts.

(* ===================================================================== *)
(** * Further properties of the splitter *)
(* ===================================================================== *)

Import ShuffleSpec.

(** X22: whatever the training fraction, as long as the split index [k]
    computes (it may be negative or exceed the number of steps), the split of
    a dataset of [N] steps returns the steps before the split point and the
    steps from the split point on, where the split point is [k] brought into
    [0, N] as Python slices do ([k + N] for a negative [k]); so the train
    and test groups put end to end are always the whole dataset. *)
Theorem X22_split_at_any_index
        (f : Float64.float) (d : Persist.dataset) (N : nat) (k : Z) :
  consistent d N -> Splitter.ntrain_of f N = Ok k ->
  outcome (Splitter.partition f d)
  = Ok (head_rows (split_point N k) d, tail_rows (split_point N k) d)
  /\ (split_point N k <= N)%nat
  /\ rows (Persist.box (head_rows (split_point N k) d))
     ++ rows (Persist.box (tail_rows (split_point N k) d))
     = rows (Persist.box d)
  /\ Persist.energy (head_rows (split_point N k) d)
     ++ Persist.energy (tail_rows (split_point N k) d)
     = Persist.energy d
  /\ rows (Persist.coord (head_rows (split_point N k) d))
     ++ rows (Persist.coord (tail_rows (split_point N k) d))
     = rows (Persist.coord d)
  /\ rows (Persist.force (head_rows (split_point N k) d))
     ++ rows (Persist.force (tail_rows (split_point N k) d))
     = rows (Persist.force d).
Proof.
  intros Hc Hk.
  destruct (SplitFacts.consistent_lengths d N Hc) as (H1 & H2 & H3 & H4 & _).
  split; [ | split ].
  - unfold Splitter.partition.
    rewrite H1, Hk, (SplitFacts.consistency_check_passes d N Hc).
    cbn [lift bind print emit ret outcome snd app].
    unfold Np.slice2.
    rewrite !SplitterFacts.slice_to_any, !SplitterFacts.slice_from_any.
    unfold nrows in *. rewrite H1, H2, H3, H4. reflexivity.
  - unfold split_point.
    pose proof (SplitterFacts.clamp_bounds (Z.of_nat N) k ltac:(lia)). lia.
  - unfold head_rows, tail_rows.
    cbn [Persist.box Persist.energy Persist.coord Persist.force rows].
    rewrite !firstn_skipn. auto.
Qed.

Lemma X22_witness :
  outcome (Splitter.partition Cases.fraction_minus_02 Samples.dataset_10)
  = Ok (head_rows (split_point 10 (-2)) Samples.dataset_10,
        tail_rows (split_point 10 (-2)) Samples.dataset_10)
  /\ (split_point 10 (-2) <= 10)%nat
  /\ rows (Persist.box (head_rows (split_point 10 (-2)) Samples.dataset_10))
     ++ rows (Persist.box (tail_rows (split_point 10 (-2)) Samples.dataset_10))
     = rows (Persist.box Samples.dataset_10)
  /\ Persist.energy (head_rows (split_point 10 (-2)) Samples.dataset_10)
     ++ Persist.energy (tail_rows (split_point 10 (-2)) Samples.dataset_10)
     = Persist.energy Samples.dataset_10
  /\ rows (Persist.coord (head_rows (split_point 10 (-2)) Samples.dataset_10))
     ++ rows (Persist.coord (tail_rows (split_point 10 (-2)) Samples.dataset_10))
     = rows (Persist.coord Samples.dataset_10)
  /\ rows (Persist.force (head_rows (split_point 10 (-2)) Samples.dataset_10))
     ++ rows (Persist.force (tail_rows (split_point 10 (-2)) Samples.dataset_10))
     = rows (Persist.force Samples.dataset_10).
Proof.
  apply (X22_split_at_any_index Cases.fraction_minus_02 Samples.dataset_10
           10 (-2)).
  - split; vm_compute; reflexivity.
  - vm_compute. reflexivity.
Defined.

(** With the fraction -0.2 and ten steps the split point is 8. *)
Example negative_fraction_split_point : split_point 10 (-2) = 8%nat.
Proof. reflexivity. Qed.

(** X23: when the training fraction is not a number or is infinite, the
    split fails with [ValueError] or [OverflowError] at the computation of
    the split index: before the consistency check, and with nothing
    printed. *)
Theorem X23_fraction_not_finite (f : Float64.float) (d : Persist.dataset) :
  f = S754_nan \/ (exists s, f = S754_infinity s) ->
  exists e,
    Splitter.partition f d = ([], Raise e)
    /\ (e = ValueError \/ e = OverflowError).
Proof.
  intros Hf. unfold Splitter.partition, Splitter.ntrain_of, Float64.of_int.
  destruct (binary_normalize Float64.prec Float64.emax
              (Z.of_nat (nrows (Persist.box d))) 0 false) as [s | s | | s m e];
    cbn [rbind].
  - exists ValueError. destruct Hf as [-> | [sf ->]];
      (split; [ reflexivity | left; reflexivity ]).
  - exists OverflowError. split; [ reflexivity | right; reflexivity ].
  - exists ValueError. destruct Hf as [-> | [sf ->]];
      (split; [ reflexivity | left; reflexivity ]).
  - destruct Hf as [-> | [sf ->]].
    + exists ValueError. split; [ reflexivity | left; reflexivity ].
    + exists OverflowError. split; [ reflexivity | right; reflexivity ].
Qed.

Lemma X23_witness :
  exists e,
    Splitter.partition S754_nan Samples.dataset_10 = ([], Raise e)
    /\ (e = ValueError \/ e = OverflowError).
Proof.
  apply (X23_fraction_not_finite S754_nan Samples.dataset_10).
  left. reflexivity.
Defined.

(** X24: with shuffling on and an index array that is a permutation of
    0, ..., N-1, the four arrays are reordered by the same index array: step
    [j] of each shuffled array is step [idx[j]] of the loaded one, so the
    four quantities of a step stay together, and each shuffled array is a
    permutation of the loaded one (no step is lost or repeated). *)
Theorem X24_shuffle_reorders_jointly
        (permutation : Z -> nat -> list nat) (a : Splitter.args)
        (d : Persist.dataset) (N : nat) :
  consistent d N -> Splitter.SHUFFLE a = true ->
  Permutation (permutation (Splitter.SEED a) N) (seq 0 N) ->
  exists d1,
    Splitter.shuffle permutation a d = Ok d1
    /\ rows (Persist.box d1)
       = reorder [] (permutation (Splitter.SEED a) N) (rows (Persist.box d))
    /\ Persist.energy d1
       = reorder Float64.zero (permutation (Splitter.SEED a) N)
           (Persist.energy d)
    /\ rows (Persist.coord d1)
       = reorder [] (permutation (Splitter.SEED a) N) (rows (Persist.coord d))
    /\ rows (Persist.force d1)
       = reorder [] (permutation (Splitter.SEED a) N) (rows (Persist.force d))
    /\ Permutation (rows (Persist.box d1)) (rows (Persist.box d))
    /\ Permutation (Persist.energy d1) (Persist.energy d)
    /\ Permutation (rows (Persist.coord d1)) (rows (Persist.coord d))
    /\ Permutation (rows (Persist.force d1)) (rows (Persist.force d)).
Proof.
  intros Hc Hs Hperm.
  destruct (SplitFacts.consistent_lengths d N Hc) as (H1 & H2 & H3 & H4 & _).
  unfold Splitter.shuffle. rewrite Hs, H1.
  set (idx := permutation (Splitter.SEED a) N) in *.
  assert (Hrange : forall i, In i idx -> (i < N)%nat).
  { intros i Hi. apply (Permutation_in _ Hperm) in Hi.
    apply in_seq in Hi. lia. }
  unfold nrows in *.
  destruct (SplitFacts.take_in_range (rows (Persist.box d)) idx)
    as (b & Hb & _); [ rewrite H1; exact Hrange | ].
  destruct (SplitFacts.take_in_range (Persist.energy d) idx)
    as (e & He & _); [ rewrite H2; exact Hrange | ].
  destruct (SplitFacts.take_in_range (rows (Persist.coord d)) idx)
    as (c & Hcd & _); [ rewrite H3; exact Hrange | ].
  destruct (SplitFacts.take_in_range (rows (Persist.force d)) idx)
    as (fo & Hfo & _); [ rewrite H4; exact Hrange | ].
  rewrite Hb, He, Hcd, Hfo. cbn [rbind]. eexists. split; [ reflexivity | ].
  cbn [Persist.box Persist.energy Persist.coord Persist.force rows].
  rewrite (SplitterFacts.take_reorder [] _ _ _ Hb).
  rewrite (SplitterFacts.take_reorder Float64.zero _ _ _ He).
  rewrite (SplitterFacts.take_reorder [] _ _ _ Hcd).
  rewrite (SplitterFacts.take_reorder [] _ _ _ Hfo).
  split; [ reflexivity | ]. split; [ reflexivity | ].
  split; [ reflexivity | ]. split; [ reflexivity | ].
  split; [ | split; [ | split ] ];
    apply SplitterFacts.reorder_permutation.
  - rewrite H1. exact Hperm.
  - rewrite H2. exact Hperm.
  - rewrite H3. exact Hperm.
  - rewrite H4. exact Hperm.
Qed.

Lemma X24_witness :
  exists d1,
    Splitter.shuffle Cases.reversal Cases.args_shuffle Samples.dataset_10
    = Ok d1
    /\ rows (Persist.box d1)
       = reorder [] (Cases.reversal (Splitter.SEED Cases.args_shuffle) 10)
           (rows (Persist.box Samples.dataset_10))
    /\ Persist.energy d1
       = reorder Float64.zero
           (Cases.reversal (Splitter.SEED Cases.args_shuffle) 10)
           (Persist.energy Samples.dataset_10)
    /\ rows (Persist.coord d1)
       = reorder [] (Cases.reversal (Splitter.SEED Cases.args_shuffle) 10)
           (rows (Persist.coord Samples.dataset_10))
    /\ rows (Persist.force d1)
       = reorder [] (Cases.reversal (Splitter.SEED Cases.args_shuffle) 10)
           (rows (Persist.force Samples.dataset_10))
    /\ Permutation (rows (Persist.box d1)) (rows (Persist.box Samples.dataset_10))
    /\ Permutation (Persist.energy d1) (Persist.energy Samples.dataset_10)
    /\ Permutation (rows (Persist.coord d1))
         (rows (Persist.coord Samples.dataset_10))
    /\ Permutation (rows (Persist.force d1))
         (rows (Persist.force Samples.dataset_10)).
Proof.
  apply (X24_shuffle_reorders_jointly Cases.reversal Cases.args_shuffle
           Samples.dataset_10 10).
  - split; vm_compute; reflexivity.
  - reflexivity.
  - apply Permutation_sym, Permutation_rev.
Defined.

(** X25: without [PATH], when one of the listed configurations does not
    exist the splitter fails with the assertion before it reads, prints or
    writes anything, also for the configurations listed before the missing
    one. *)
Theorem X25_missing_configuration
        (permutation : Z -> nat -> list nat) (st : Splitter.store)
        (a : Splitter.args) (config : string) :
  Splitter.PATH a = None -> In config (Splitter.FILES a) ->
  Splitter.path_exists st config = false ->
  Splitter.main permutation st a = ([], Raise AssertionError).
Proof.
  intros HP Hin Hmissing. unfold Splitter.main. rewrite HP.
  rewrite SplitterFacts.for_each_assert.
  destruct (forallb (Splitter.path_exists st) (Splitter.FILES a)) eqn:Hall;
    [ | reflexivity ].
  rewrite forallb_forall in Hall. rewrite (Hall config Hin) in Hmissing.
  discriminate Hmissing.
Qed.

Lemma X25_witness :
  Splitter.main Samples.identity_permutation Cases.store_run Cases.args_two
  = ([], Raise AssertionError).
Proof.
  apply (X25_missing_configuration Samples.identity_permutation
           Cases.store_run Cases.args_two "gone").
  - reflexivity.
  - right. left. reflexivity.
  - vm_compute. reflexivity.
Defined.

Module RunFacts.
Import Persist SplitterSpec ShuffleSpec.

(** The split of a consistent dataset, with what it prints. *)
Lemma partition_run (f : Float64.float) (d : dataset) (N : nat) (k : Z) :
  consistent d N -> Splitter.ntrain_of f N = Ok k ->
  Splitter.partition f d
  = ([Print StepsMatch; Print DataSplit],
     Ok (head_rows (split_point N k) d, tail_rows (split_point N k) d)).
Proof.
  intros Hc Hk.
  destruct (SplitFacts.consistent_lengths d N Hc) as (H1 & H2 & H3 & H4 & _).
  unfold Splitter.partition.
  rewrite H1, Hk, (SplitFacts.consistency_check_passes d N Hc).
  cbn [lift bind print emit ret app].
  unfold Np.slice2.
  rewrite !SplitterFacts.slice_to_any, !SplitterFacts.slice_from_any.
  unfold nrows in *. rewrite H1, H2, H3, H4. reflexivity.
Qed.

End RunFacts.

Module ConfigurationFacts.
Import SplitterSpec ShuffleSpec.

Lemma shuffle_dtypes (permutation : Z -> nat -> list nat) (a : Splitter.args)
      (d d1 : Persist.dataset) :
  Splitter.shuffle permutation a d = Ok d1 ->
  Persist.stored_as d1 = Persist.stored_as d.
Proof.
  unfold Splitter.shuffle. destruct (Splitter.SHUFFLE a); [ | congruence ].
  destruct (Splitter.take (rows (Persist.box d)) _) as [b | ];
    cbn [rbind]; [ | discriminate ].
  destruct (Splitter.take (Persist.energy d) _) as [e | ];
    cbn [rbind]; [ | discriminate ].
  destruct (Splitter.take (rows (Persist.coord d)) _) as [c | ];
    cbn [rbind]; [ | discriminate ].
  destruct (Splitter.take (rows (Persist.force d)) _) as [f | ];
    cbn [rbind]; [ | discriminate ].
  intros H. injection H as <-. reflexivity.
Qed.

Lemma copy_side_file_run (st : Splitter.store) (a : Splitter.args)
      (config name : string) :
  Splitter.copy_side_file st a config name
  = (side_file_events st a config name, Ok tt).
Proof.
  unfold Splitter.copy_side_file, side_file_events. cbv zeta.
  destruct (Splitter.path_exists st _); reflexivity.
Qed.

Lemma persist_whole_run (config name label : string) (c : Z)
      (d : Persist.dataset) :
  Splitter.persist config name label false c d
  = (whole_events (config ++ "/" ++ name) (Persist.stored_as d) d
     ++ [Print (SavedSet "000" label)], Ok tt).
Proof. reflexivity. Qed.

End ConfigurationFacts.

(** X26: for a configuration whose folder [set.000] and four arrays exist,
    whose arrays, after the optional shuffle, pass the consistency check,
    and for which neither group is split into subsets, the splitter returns,
    and its output is, in this order: the banner, the four loads (box,
    energy, coord, force), the two messages of the split, the copies of
    [type.raw] and of [type_map.raw] to the train and test folders (or the
    message that the file is missing), the four arrays of the train group
    (the steps before the split point) under [train/set.000], each with the
    element type it was loaded with, and the message for the train group,
    then the same for the test group (the steps from the split point on). *)
Theorem X26_configuration_run
        (permutation : Z -> nat -> list nat) (st : Splitter.store)
        (a : Splitter.args) (config : string)
        (box coord force : ndarray2) (energy : list Float64.float)
        (t : Persist.dtypes) (d1 : Persist.dataset) (N : nat) (k : Z) :
  Splitter.path_exists st (set0 a config) = true ->
  Forall (fun name => Splitter.path_exists st (set0 a config ++ name) = true)
         ["/box.npy"; "/energy.npy"; "/coord.npy"; "/force.npy"] ->
  Splitter.load2 st (set0 a config ++ "/box.npy")
  = Some (Persist.box_dtype t, box) ->
  Splitter.load1 st (set0 a config ++ "/energy.npy")
  = Some (Persist.energy_dtype t, energy) ->
  Splitter.load2 st (set0 a config ++ "/coord.npy")
  = Some (Persist.coord_dtype t, coord) ->
  Splitter.load2 st (set0 a config ++ "/force.npy")
  = Some (Persist.force_dtype t, force) ->
  Splitter.shuffle permutation a
    (Persist.mk_dataset box energy coord force t) = Ok d1 ->
  consistent d1 N ->
  Splitter.ntrain_of (Splitter.TRAIN_SIZE a) N = Ok k ->
  Splitter.SPLIT_TRAIN_DATA a = false ->
  Splitter.SPLIT_TEST_DATA a = false ->
  Splitter.process permutation st a config
  = ([Print (Processing config);
      OpenRead (set0 a config ++ "/box.npy");
      OpenRead (set0 a config ++ "/energy.npy");
      OpenRead (set0 a config ++ "/coord.npy");
      OpenRead (set0 a config ++ "/force.npy");
      Print StepsMatch; Print DataSplit]
     ++ side_file_events st a config "type.raw"
     ++ side_file_events st a config "type_map.raw"
     ++ whole_events (config ++ "/train") t (head_rows (split_point N k) d1)
     ++ [Print (SavedSet "000" "training")]
     ++ whole_events (config ++ "/test") t (tail_rows (split_point N k) d1)
     ++ [Print (SavedSet "000" "test")],
     Ok tt).
Proof.
  intros Hset Hfiles Hbox Hen Hco Hfo Hshuffle HN Hk Htrain Htest.
  inversion Hfiles as [ | ? ? H1 Hf1]; subst.
  inversion Hf1 as [ | ? ? H2 Hf2]; subst.
  inversion Hf2 as [ | ? ? H3 Hf3]; subst.
  inversion Hf3 as [ | ? ? H4 _]; subst.
  pose proof (ConfigurationFacts.shuffle_dtypes _ _ _ _ Hshuffle) as Ht.
  cbn [Persist.stored_as] in Ht.
  unfold Splitter.process. fold (set0 a config).
  rewrite Hset, H1, H2, H3, H4.
  unfold Splitter.np_load. rewrite Hbox, Hen, Hco, Hfo.
  unfold Splitter.split.
  assert (Hdt : Persist.mk_dtypes (Persist.box_dtype t) (Persist.energy_dtype t)
                  (Persist.coord_dtype t) (Persist.force_dtype t) = t)
    by (destruct t; reflexivity).
  cbn [assert ret print emit bind lift app]. rewrite Hdt, Hshuffle.
  cbn [bind lift app].
  rewrite (RunFacts.partition_run _ d1 N k HN Hk).
  cbn [bind app].
  rewrite !ConfigurationFacts.copy_side_file_run, Htrain, Htest,
          !ConfigurationFacts.persist_whole_run.
  cbn [bind app head_rows tail_rows Persist.stored_as]. rewrite Ht.
  rewrite <- !app_assoc. reflexivity.
Qed.

Lemma X26_witness :
  Splitter.process Samples.identity_permutation Cases.store_run
    Samples.args_split_08 "run"
  = ([Print (Processing "run");
      OpenRead (set0 Samples.args_split_08 "run" ++ "/box.npy");
      OpenRead (set0 Samples.args_split_08 "run" ++ "/energy.npy");
      OpenRead (set0 Samples.args_split_08 "run" ++ "/coord.npy");
      OpenRead (set0 Samples.args_split_08 "run" ++ "/force.npy");
      Print StepsMatch; Print DataSplit]
     ++ side_file_events Cases.store_run Samples.args_split_08 "run" "type.raw"
     ++ side_file_events Cases.store_run Samples.args_split_08 "run"
          "type_map.raw"
     ++ whole_events ("run" ++ "/train") Persist.all_float64
          (head_rows (split_point 10 8) Samples.dataset_10)
     ++ [Print (SavedSet "000" "training")]
     ++ whole_events ("run" ++ "/test") Persist.all_float64
          (tail_rows (split_point 10 8) Samples.dataset_10)
     ++ [Print (SavedSet "000" "test")],
     Ok tt).
Proof.
  apply (X26_configuration_run Samples.identity_permutation Cases.store_run
           Samples.args_split_08 "run"
           (Persist.box Samples.dataset_10) (Persist.coord Samples.dataset_10)
           (Persist.force Samples.dataset_10)
           (Persist.energy Samples.dataset_10) Persist.all_float64
           Samples.dataset_10 10 8).
  - reflexivity.
  - repeat constructor.
  - reflexivity.
  - reflexivity.
  - reflexivity.
  - reflexivity.
  - reflexivity.
  - split; reflexivity.
  - vm_compute. reflexivity.
  - reflexivity.
  - reflexivity.
Defined.

Module NameFacts.
Import PyStr TextSpec.

Lemma append_injective (a b c : string) :
  (a ++ b)%string = (a ++ c)%string -> b = c.
Proof.
  induction a as [ | x a IH]; cbn [String.append]; intros H; [ exact H | ].
  injection H as H. exact (IH H).
Qed.

Lemma zeros_succ (k : nat) :
  String.concat "" (repeat "0" (S k))
  = String "0" (String.concat "" (repeat "0" k)).
Proof. cbn [repeat]. destruct k as [ | k']; reflexivity. Qed.

Lemma zeros_length (k : nat) :
  String.length (String.concat "" (repeat "0" k)) = k.
Proof.
  induction k as [ | k IH]; [ reflexivity | ].
  rewrite zeros_succ. cbn [String.length]. rewrite IH. reflexivity.
Qed.

Lemma append_length (a b : string) :
  String.length (a ++ b) = (String.length a + String.length b)%nat.
Proof.
  induction a as [ | x a IH]; cbn [String.append String.length Nat.add];
    [ reflexivity | rewrite IH; reflexivity ].
Qed.

(** The text of a non-negative integer: digits only, not empty. *)
Lemma string_of_int_digits (z : Z) :
  0 <= z ->
  no_space (string_of_int z) = true
  /\ forall (cnt : nat) (b : bool),
       exists n,
         digit_run (string_of_int z) 0%N cnt b = (Z.to_N z, (cnt + S n)%nat, "").
Proof.
  intros Hz. unfold string_of_int.
  destruct z as [ | p | p]; [ | | lia ].
  - split; [ reflexivity | ]. intros cnt b. exists 0%nat.
    change (NilZero.string_of_int (Z.to_int 0)) with "0".
    rewrite DecimalFacts.digit_run_digit by reflexivity. cbn [digit_run].
    replace (cnt + 1)%nat with (S cnt) by lia. reflexivity.
  - cbn [Z.to_int NilZero.string_of_int NilZero.string_of_uint].
    pose proof (DecimalPos.Unsigned.to_uint_nonnil p) as Hd.
    destruct (DecimalFacts.uint_string_shape _ Hd) as (Hns & _ & Hn).
    assert (Hs : NilZero.string_of_uint (Pos.to_uint p)
                 = NilEmpty.string_of_uint (Pos.to_uint p))
      by (unfold NilZero.string_of_uint; destruct (Pos.to_uint p);
          [ congruence | reflexivity .. ]).
    rewrite Hs. split; [ exact Hns | ]. intros cnt b.
    exists (pred (Decimal.nb_digits (Pos.to_uint p))).
    rewrite DecimalFacts.digit_run_uint.
    rewrite DecimalPos.Unsigned.of_to. f_equal. f_equal. lia.
Qed.

(** Leading zeros do not change what [int] reads. *)
Lemma int_of_padded (k : nat) (z : Z) :
  0 <= z ->
  int_of_string (String.concat "" (repeat "0" k) ++ string_of_int z) = Ok z.
Proof.
  intros Hz. destruct (string_of_int_digits z Hz) as [Hns Hrun].
  set (s := string_of_int z) in *.
  pose proof zeros_succ as Hpad.
  assert (Hspace : forall k,
             no_space (String.concat "" (repeat "0" k) ++ s) = true).
  { induction k0 as [ | j IH]; [ exact Hns | ].
    rewrite Hpad. cbn [String.append no_space]. rewrite IH. reflexivity. }
  assert (Hdigits : forall k cnt b,
             exists n,
               digit_run (String.concat "" (repeat "0" k) ++ s) 0%N cnt b
               = (Z.to_N z, (cnt + S n)%nat, "")).
  { induction k0 as [ | j IH]; intros cnt b; [ apply Hrun | ].
    rewrite Hpad. cbn [String.append].
    rewrite DecimalFacts.digit_run_digit by reflexivity.
    destruct (IH (S cnt) true) as [n Hn]. exists (S n).
    change (10 * 0 + digit_val "0")%N with 0%N.
    rewrite Hn. f_equal. f_equal. lia. }
  unfold int_of_string. rewrite DecimalFacts.strip_no_space by apply Hspace.
  assert (Hsign : sign (String.concat "" (repeat "0" k) ++ s)
                  = (false, String.concat "" (repeat "0" k) ++ s)%string).
  { destruct k as [ | j].
    - cbn [repeat String.concat String.append]. subst s.
      unfold string_of_int. destruct z as [ | p | p]; [ reflexivity | | lia ].
      cbn [Z.to_int NilZero.string_of_int NilZero.string_of_uint].
      pose proof (DecimalPos.Unsigned.to_uint_nonnil p) as Hd.
      destruct (DecimalFacts.uint_string_shape _ Hd) as (_ & Hsg & _).
      assert (Hs : NilZero.string_of_uint (Pos.to_uint p)
                   = NilEmpty.string_of_uint (Pos.to_uint p))
        by (unfold NilZero.string_of_uint; destruct (Pos.to_uint p);
            [ congruence | reflexivity .. ]).
      rewrite Hs. exact Hsg.
    - rewrite Hpad. reflexivity. }
  rewrite Hsign. unfold digits.
  destruct (Hdigits k 0%nat false) as [n Hn]. rewrite Hn.
  cbn [Nat.add Nat.ltb Nat.leb is_empty andb cond_Zopp].
  rewrite Z2N.id by exact Hz. reflexivity.
Qed.

End NameFacts.

(** X27: in the chunked branches of the splitter, for a group of [N]
    steps and [c >= 1] subsets, what is written is, for each subset
    0, ..., c-1 in turn, its four arrays of [N div c] steps as float32
    followed by the message that names the subset. *)
Theorem X27_splitter_subsets
        (config name label : string) (d : Persist.dataset) (c N : nat) :
  (1 <= c)%nat -> consistent d N ->
  Splitter.persist config name label true (Z.of_nat c) d
  = (flat_map
       (fun i =>
          chunk_events (config ++ "/" ++ name) d (N / c) i
          ++ [Print (SavedSet (Persist.pad3 (Z.of_nat i)) label)])
       (seq 0 c),
     Ok tt)
  /\ Forall (fun x => steps x = [N / c; N / c; N / c; N / c]%nat)
            (chunks (N / c) c d).
Proof.
  intros Hc Hcons.
  destruct (SplitFacts.consistent_lengths d N Hcons) as (Hb & He & Hco & Hf & _).
  split.
  - unfold Splitter.persist.
    rewrite (ChunkFacts.save_chunked_events _ d c
               (fun i => print (SavedSet i label))
               (fun i => [Print (SavedSet i label)]));
      [ | exact Hc | reflexivity ].
    rewrite Hb. reflexivity.
  - assert (Hfit : (c * (N / c) <= N)%nat) by (apply Nat.Div0.mul_div_le).
    unfold chunks. apply Forall_map. apply Forall_forall. intros i Hi.
    apply in_seq in Hi.
    assert (Hi' : ((i + 1) * (N / c) <= N)%nat) by nia.
    unfold steps, chunk_rows, nrows in *.
    cbn [Persist.box Persist.energy Persist.coord Persist.force rows].
    rewrite !ChunkFacts.chunk_length by lia. reflexivity.
Qed.

Lemma X27_witness :
  Splitter.persist "run" "train" "training" true (Z.of_nat 3)
    Samples.dataset_10
  = (flat_map
       (fun i =>
          chunk_events ("run" ++ "/" ++ "train") Samples.dataset_10 (10 / 3) i
          ++ [Print (SavedSet (Persist.pad3 (Z.of_nat i)) "training")])
       (seq 0 3),
     Ok tt)
  /\ Forall (fun x => steps x = [10 / 3; 10 / 3; 10 / 3; 10 / 3]%nat)
            (chunks (10 / 3) 3 Samples.dataset_10).
Proof.
  apply (X27_splitter_subsets "run" "train" "training" Samples.dataset_10 3 10).
  - lia.
  - split; vm_compute; reflexivity.
Defined.

(** X28: the name of a subset, [f"{i:0>3}"] for [i >= 0], has at least
    three characters and reads back as [i]; hence two different subset
    numbers never give the same directory under one root. *)
Theorem X28_subset_names (root : string) (i j : Z) :
  0 <= i -> 0 <= j ->
  PyStr.int_of_string (Persist.pad3 i) = Ok i
  /\ (3 <= String.length (Persist.pad3 i))%nat
  /\ (Persist.set_dir root i = Persist.set_dir root j -> i = j).
Proof.
  intros Hi Hj.
  assert (Hread : forall z, 0 <= z ->
                            PyStr.int_of_string (Persist.pad3 z) = Ok z).
  { intros z Hz. unfold Persist.pad3. apply NameFacts.int_of_padded. exact Hz. }
  split; [ apply Hread; exact Hi | ]. split.
  - unfold Persist.pad3.
    rewrite NameFacts.append_length, NameFacts.zeros_length. lia.
  - unfold Persist.set_dir. intros H.
    apply NameFacts.append_injective in H.
    apply NameFacts.append_injective in H.
    pose proof (Hread i Hi) as Ri. rewrite H, (Hread j Hj) in Ri.
    congruence.
Qed.

Lemma X28_witness :
  PyStr.int_of_string (Persist.pad3 7) = Ok 7
  /\ (3 <= String.length (Persist.pad3 7))%nat
  /\ (Persist.set_dir "out" 7 = Persist.set_dir "out" 12 -> 7 = 12).
Proof.
  apply (X28_subset_names "out" 7 12); lia.
Defined.

(** The names of the subsets 7 and 12. *)
Example subset_names_7_12 :
  Persist.pad3 7 = "007" /\ Persist.pad3 12 = "012".
Proof. split; vm_compute; reflexivity. Qed.

(* ===================================================================== *)
(** * When the report of the series reader goes through *)
(* ===================================================================== *)

Module ReportFacts.
Import Utils SeriesSpec ReaderSpec.

Lemma index_first {A} (l : list A) :
  PyList.index l 0
  = match l with [] => Raise IndexError | x :: _ => Ok x end.
Proof.
  unfold PyList.index. destruct l as [ | x l]; [ reflexivity | ].
  cbn [length]. destruct (Z.ltb_spec 0 0) as [ | _]; [ lia | ].
  destruct (Z.ltb_spec 0 0) as [ | _]; [ lia | ].
  destruct (Z.leb_spec (Z.of_nat (S (length l))) 0) as [ | _]; [ lia | ].
  reflexivity.
Qed.

Lemma index_second {A} (l : list A) :
  PyList.index l 1
  = match l with _ :: y :: _ => Ok y | _ => Raise IndexError end.
Proof.
  unfold PyList.index. destruct l as [ | x [ | y l]]; try reflexivity.
  cbn [length]. destruct (Z.ltb_spec 1 0) as [ | _]; [ lia | ].
  destruct (Z.ltb_spec 1 0) as [ | _]; [ lia | ].
  destruct (Z.leb_spec (Z.of_nat (S (S (length l)))) 1) as [ | _]; [ lia | ].
  reflexivity.
Qed.

Lemma nth_error_last {A} (d : A) (l : list A) :
  l <> [] -> nth_error l (length l - 1) = Some (last l d).
Proof.
  induction l as [ | x l IH]; [ congruence | ]. intros _.
  destruct l as [ | y l]; [ reflexivity | ].
  replace (length (x :: y :: l) - 1)%nat with (S (length (y :: l) - 1))
    by (cbn [length]; lia).
  cbn [nth_error]. rewrite IH by discriminate. reflexivity.
Qed.

Lemma index_last {A} (d : A) (l : list A) :
  PyList.index l (-1)
  = match l with [] => Raise IndexError | _ => Ok (last l d) end.
Proof.
  unfold PyList.index. destruct l as [ | x l]; [ reflexivity | ].
  destruct (Z.ltb_spec (-1) 0) as [_ | ]; [ | lia ].
  set (n := Z.of_nat (length (x :: l))).
  assert (Hn : 1 <= n) by (subst n; cbn [length]; lia).
  destruct (Z.ltb_spec (-1 + n) 0) as [ | _]; [ lia | ].
  destruct (Z.leb_spec n (-1 + n)) as [ | _]; [ lia | ].
  cbn [orb].
  replace (Z.to_nat (-1 + n)) with (length (x :: l) - 1)%nat by lia.
  rewrite (nth_error_last d) by discriminate. reflexivity.
Qed.

(** The report returns exactly when the time column has two values, the
    step column has one, and the step span converts. *)
Lemma diagnostic_outcome (type : string) (nsteps : Z) (TIMESTEP : Float64.float)
      (data : series) (t s : list Float64.float) :
  type = "cell" \/ type = "energy" ->
  dict_get String.eqb (time_name type) data = Some t ->
  dict_get String.eqb (step_name type) data = Some s ->
  is_ok (outcome (diagnostic type nsteps TIMESTEP data))
  = (2 <=? length t)%nat && (1 <=? length s)%nat && step_span_converts s.
Proof.
  intros Htype Ht Hs. unfold diagnostic.
  assert (Hnames : step_time_names type = ret (step_name type, time_name type))
    by (destruct Htype as [-> | ->]; reflexivity).
  rewrite Hnames. rewrite outcome_bind. cbn [outcome ret snd rbind].
  rewrite Ht, Hs.
  rewrite outcome_bind, outcome_lift, (index_last Float64.zero).
  destruct t as [ | t0 t']; [ reflexivity | ]. cbn [rbind].
  rewrite outcome_bind, outcome_lift, index_first. cbn [rbind].
  rewrite outcome_bind, outcome_lift. cbn [rbind].
  rewrite outcome_bind, outcome_lift, (index_last Float64.zero).
  destruct s as [ | s0 s'].
  { cbn [rbind is_ok length Nat.leb]. rewrite andb_false_r. reflexivity. }
  cbn [rbind].
  rewrite outcome_bind, outcome_lift, index_first. cbn [rbind].
  rewrite outcome_bind, outcome_lift.
  unfold step_span_converts. cbn [hd].
  destruct (Float64.to_int _) as [n | e]; cbn [rbind is_ok].
  2:{ rewrite andb_false_r. reflexivity. }
  rewrite outcome_bind, outcome_lift, index_second.
  destruct t' as [ | t1 t'']; [ reflexivity | ]. cbn [rbind].
  rewrite outcome_bind, outcome_lift. cbn [rbind].
  rewrite outcome_print. reflexivity.
Qed.

End ReportFacts.

(** X30: for a cell or energy file in which at least one row has as many
    fields as the schema has columns, the reader returns normally exactly
    when the time column received at least two values, the step column at
    least one, and the difference of the last and the first step converts to
    an integer (it is neither infinite nor NaN); otherwise the report
    raises. *)
Theorem X30_reader_returns_iff
        (header : string) (rows : list string) (nsteps STDPRINT : Z)
        (TIMESTEP : Float64.float) (type : string) :
  type = "cell" \/ type = "energy" ->
  (1 <= matched_rows (schema type) rows)%nat ->
  is_ok (outcome (read_cell_or_energy_data (header :: rows) nsteps STDPRINT
                    TIMESTEP None type)) = true
  <-> (2 <= converted_rows (schema type) (time_name type) rows)%nat
      /\ (1 <= converted_rows (schema type) (step_name type) rows)%nat
      /\ step_span_converts
           (col_of (step_name type) (rows_effect (schema type) [] rows))
         = true.
Proof.
  intros Htype Hone.
  set (data := rows_effect (schema type) [] rows).
  assert (Hcols : default_columns None type = ret (Some (schema type))).
  { unfold default_columns, schema. destruct Htype as [-> | ->]; reflexivity. }
  assert (Hout : is_ok (outcome (read_cell_or_energy_data (header :: rows)
                                   nsteps STDPRINT TIMESTEP None type))
                 = is_ok (outcome (diagnostic type nsteps TIMESTEP data))).
  { unfold read_cell_or_energy_data. rewrite Hcols.
    rewrite outcome_bind. cbn [outcome ret snd rbind].
    rewrite outcome_bind, SeriesFacts.read_rows_outcome. cbn [rbind].
    fold data. rewrite outcome_bind.
    destruct (outcome (diagnostic type nsteps TIMESTEP data)); reflexivity. }
  rewrite Hout. clear Hout.
  destruct (SeriesFacts.rows_effect_keys (schema type) rows []
              (NoDup_nil _) (incl_nil_l _)) as [Hnd _].
  fold data in Hnd.
  assert (Hkeys : dict_keys data = schema type).
  { unfold data.
    rewrite (ReaderFacts.rows_effect_keys_exact (schema type) rows
               (SeriesFacts.schema_nodup type) []) by (left; reflexivity).
    destruct (Nat.ltb_spec 0 (matched_rows (schema type) rows)); [ reflexivity | lia ]. }
  assert (Hfind : forall name, In name (schema type) ->
                    exists l, dict_get String.eqb name data = Some l
                              /\ col_of name data = l
                              /\ length l = converted_rows (schema type) name rows).
  { intros name Hname. rewrite <- Hkeys in Hname.
    unfold dict_keys in Hname. apply in_map_iff in Hname.
    destruct Hname as ([k l] & Hk & Hin). cbn [fst] in Hk. subst k.
    pose proof (dict_get_in String.eqb String.eqb_spec name l data Hnd Hin)
      as Hget.
    exists l. split; [ exact Hget | ].
    assert (Hcol : col_of name data = l) by (unfold col_of; rewrite Hget; reflexivity).
    split; [ exact Hcol | ].
    pose proof (SeriesFacts.rows_effect_col (schema type) name rows []
                  (SeriesFacts.schema_nodup type)) as Hlen.
    fold data in Hlen. rewrite Hcol in Hlen. exact Hlen. }
  destruct (Hfind (time_name type)) as (t & Ht & _ & Htl).
  { destruct Htype as [-> | ->]; cbn; tauto. }
  destruct (Hfind (step_name type)) as (s & Hs & Hscol & Hsl).
  { destruct Htype as [-> | ->]; cbn; tauto. }
  rewrite (ReportFacts.diagnostic_outcome type nsteps TIMESTEP data t s
             Htype Ht Hs).
  rewrite Hscol, <- Htl, <- Hsl.
  rewrite !andb_true_iff, !Nat.leb_le. tauto.
Qed.

Lemma X30_witness :
  is_ok (outcome (read_cell_or_energy_data
                    (Samples.cell_header :: tl Samples.cell_2) 2 1
                    Samples.half None "cell")) = true
  <-> (2 <= converted_rows (schema "cell") (time_name "cell")
              (tl Samples.cell_2))%nat
      /\ (1 <= converted_rows (schema "cell") (step_name "cell")
                (tl Samples.cell_2))%nat
      /\ step_span_converts
           (col_of (step_name "cell")
              (rows_effect (schema "cell") [] (tl Samples.cell_2)))
         = true.
Proof.
  apply (X30_reader_returns_iff Samples.cell_header (tl Samples.cell_2) 2 1
           Samples.half "cell").
  - left. reflexivity.
  - vm_compute. lia.
Defined.

(** In the sample both sides hold: the reader returns. *)
Example reader_returns_on_two_rows :
  is_ok (outcome (read_cell_or_energy_data Samples.cell_2 2 1 Samples.half
                    None "cell")) = true.
Proof. vm_compute. reflexivity. Qed.
